(** * Backend supervision and health monitoring of the Unsubscriber shell

    A shallow embedding of [BackendManager] (src/unnamed/part_000, the
    module imported as ./backend-manager) and [HealthCheckService]
    (src/unnamed/part_001) together with the constants and status records
    they share (src/shared/constants.ts, src/shared/types.ts), and the
    properties of the two services.  Line numbers in the comments of a
    module refer to the file named in its heading.

    The code that uses the two services follows them: the methods of
    [UnsubscriberApp] that start and stop them (src/main/main.ts) with the
    two methods of [WindowManager] they call (src/unnamed/part_002), the
    account handlers of [IPCHandlers], which go through [getBaseUrl()]
    (src/main/ipc/ipc-handlers.ts), and the status indicator of the
    renderer, which shows what the two services report
    (src/renderer/components/AccountListItem.tsx).

    Both classes run on the single-threaded Node event loop.  Every
    callback (stream data, process events, timers, settled requests) and
    every method call runs to completion before the next one starts, so
    each is one atomic transition of the state below; an [async] function
    is cut at its [await]s and the pending continuation is kept as data.
    What the outside world decides (what a child prints, when it exits,
    which timer fires next, how a request ends, the clock) comes with the
    event; an event that cannot occur in a state (a timer that is not
    armed, a reply nobody waits for) has no transition.

    Conventions of the model:
    - a number is written as the integer it equals ([Z]): counters, times
      and process ids are small non-negative integers; a port is whatever
      double [parseInt] reads from the digits the backend prints, and
      [Infinity] beyond the largest double (see [JS.toDouble]);
    - [null] and [undefined] are [None];
    - strings are sequences of 8-bit code units;
    - all [Date.now()] calls of one turn of the event loop read the same
      value;
    - calls of [logger] are left out: they change no state of the services;
    - what the services do to the outside (spawning, signals, HTTP
      requests, timers, IPC messages) is recorded in a list of effects. *)

From Stdlib Require Import ZArith List Bool Ascii String Lia Arith.
From Stdlib Require Import DecimalString.
From Stdlib Require DecimalPos.
Import ListNotations.
Open Scope string_scope.
Open Scope Z_scope.

(* ================================================================== *)
(** * JavaScript values used by the two services *)
(* ================================================================== *)

Module JS.

(** What a [throw] carries; [catch (error)] tests [error instanceof Error]. *)
Inductive Thrown :=
| ErrorObject (message : string)
| OtherValue.

(** [error instanceof Error ? error.message : 'Unknown error'] *)
Definition messageOf (e : Thrown) : string :=
  match e with
  | ErrorObject m => m
  | OtherValue => "Unknown error"
  end.

(** How a promise settles. *)
Inductive Settlement (A : Type) :=
| Fulfilled (v : A)
| Rejected (e : Thrown).
Arguments Fulfilled {A} v.
Arguments Rejected {A} e.

(** Completion of one synchronous stretch of an [async] function body:
    it returns, throws, or stops at an [await] with continuation [k]. *)
Inductive Completion (A K : Type) :=
| Return (v : A)
| Throw (e : Thrown)
| Await (k : K).
Arguments Return {A K} v.
Arguments Throw {A K} e.
Arguments Await {A K} k.

(** Truthiness of a number-or-null: [null] and [0] are falsy. *)
Definition truthy (n : option Z) : bool :=
  match n with
  | Some v => negb (v =? 0)
  | None => false
  end.

(** [x || null] on a number that may be undefined. *)
Definition orNull (n : option Z) : option Z :=
  if truthy n then n else None.

(** ** Strings *)

Definition isDigit (c : ascii) : bool :=
  let n := nat_of_ascii c in (48 <=? n)%nat && (n <=? 57)%nat.

Definition digitValue (c : ascii) : Z := Z.of_nat (nat_of_ascii c) - 48.

(** White space and line terminators removed by [String.prototype.trim]
    (the code units below 256). *)
Definition isSpace (c : ascii) : bool :=
  let n := nat_of_ascii c in
  ((9 <=? n)%nat && (n <=? 13)%nat) || (n =? 32)%nat || (n =? 160)%nat.

Fixpoint trimStart (s : string) : string :=
  match s with
  | String c s' => if isSpace c then trimStart s' else s
  | EmptyString => EmptyString
  end.

Fixpoint trimEnd (s : string) : string :=
  match s with
  | String c s' =>
      match trimEnd s' with
      | EmptyString => if isSpace c then EmptyString else String c EmptyString
      | t => String c t
      end
  | EmptyString => EmptyString
  end.

Definition trim (s : string) : string := trimEnd (trimStart s).

(** [s] with the prefix [p] removed, when [s] starts with [p]. *)
Fixpoint stripPrefix (p s : string) : option string :=
  match p with
  | EmptyString => Some s
  | String a p' =>
      match s with
      | String b s' => if Ascii.eqb a b then stripPrefix p' s' else None
      | EmptyString => None
      end
  end.

(** The longest run of decimal digits at the start of [s]: greedy [\d+]. *)
Fixpoint takeDigits (s : string) : string :=
  match s with
  | String c s' => if isDigit c then String c (takeDigits s') else EmptyString
  | EmptyString => EmptyString
  end.

(** [/PORT:(\d+)/] tried at the start of [s]: the captured digits. *)
Definition matchHere (s : string) : option string :=
  match stripPrefix "PORT:" s with
  | Some rest =>
      match takeDigits rest with
      | EmptyString => None
      | ds => Some ds
      end
  | None => None
  end.

(** [s.match(/PORT:(\d+)/)]: the regular expression is tried at each
    position from the left; the result is capture group 1 of the first
    position where it matches, [None] for a [null] result. *)
Fixpoint matchPORT (s : string) : option string :=
  match matchHere s with
  | Some ds => Some ds
  | None =>
      match s with
      | String _ s' => matchPORT s'
      | EmptyString => None
      end
  end.

(** ** Numbers read from digits

    A number is a double.  Every integer below 2^53 is one; above, a double
    is a multiple of a power of two with a significand of 53 bits.  The
    value [Infinity] is written [INFINITY]: it is the first power of two
    that no finite double reaches. *)
Definition INFINITY : Z := 2 ^ 1024.

(** The number that the integer [z >= 0] is rounded to: the nearest
    double, the one with the even significand when two are equally near,
    and [Infinity] when that would be 2^1024 or more. *)
Definition toDouble (z : Z) : Z :=
  if z <? 2 ^ 53 then z
  else
    let e := Z.log2 z - 52 in
    let q := z / 2 ^ e in
    let r := z mod 2 ^ e in
    let half := 2 ^ (e - 1) in
    let q' := if r <? half then q
              else if half <? r then q + 1
              else if Z.even q then q else q + 1 in
    if INFINITY <=? q' * 2 ^ e then INFINITY else q' * 2 ^ e.

(** The integer that a string of decimal digits writes. *)
Definition decimalValue (ds : string) : Z :=
  fold_left (fun acc c => 10 * acc + digitValue c) (list_ascii_of_string ds) 0.

(** [parseInt(ds, 10)] on a string of decimal digits: the number nearest
    to the integer written. *)
Definition parseInt (ds : string) : Z := toDouble (decimalValue ds).

(** The decimal digits of an integer. *)
Definition decimal (n : Z) : string := NilZero.string_of_int (Z.to_int n).

(** The decimal with the fewest significant digits that [toDouble] reads
    back as the double [x], and of these the one nearest to [x]: the last
    [j] digits of [x] are replaced by zeros, rounding down ([lo]) or up
    ([hi]), for [j] as large as possible. *)
Fixpoint shortest (x : Z) (j : nat) : Z :=
  match j with
  | O => x
  | S j' =>
      let p := 10 ^ Z.of_nat j in
      let lo := x / p * p in
      let hi := lo + p in
      match toDouble lo =? x, toDouble hi =? x with
      | true, true => if x - lo <=? hi - x then lo else hi
      | true, false => lo
      | false, true => hi
      | false, false => shortest x j'
      end
  end.

Fixpoint dropTrailingZeros (s : string) : string :=
  match s with
  | EmptyString => EmptyString
  | String c s' =>
      match dropTrailingZeros s' with
      | EmptyString => if Ascii.eqb c "0" then EmptyString else String c EmptyString
      | t => String c t
      end
  end.

(** Exponent notation of the integer [c]: [d.ddde+x]. *)
Definition exponential (c : Z) : string :=
  let ds := decimal c in
  let e := decimal (Z.of_nat (String.length ds) - 1) in
  match dropTrailingZeros ds with
  | String d EmptyString => String d ("e+" ++ e)
  | String d rest => String d ("." ++ rest ++ "e+" ++ e)
  | EmptyString => ds
  end.

(** Template-literal rendering of a number, [`${n}`] (Number::toString):
    an integer below 2^53 is printed with all its digits; a larger double
    with the digits of its shortest decimal, followed by zeros below 10^21
    and in exponent notation from there on. *)
Definition numberToString (n : Z) : string :=
  if INFINITY <=? n then "Infinity"
  else if n <? 2 ^ 53 then decimal n
  else
    let c := shortest n (String.length (decimal n) - 1) in
    if c <? 10 ^ 21 then decimal c else exponential c.

(** [s.replace(pat, by)] with a string pattern: the first occurrence only. *)
Fixpoint replace (pat by_ s : string) : string :=
  match stripPrefix pat s with
  | Some rest => by_ ++ rest
  | None =>
      match s with
      | String c s' => String c (replace pat by_ s')
      | EmptyString => EmptyString
      end
  end.

(** The rest of [s] after its leading decimal digits. *)
Fixpoint dropDigits (s : string) : string :=
  match s with
  | String c s' => if isDigit c then dropDigits s' else s
  | EmptyString => EmptyString
  end.

Definition startsWithDigit (s : string) : bool :=
  match s with
  | String c _ => isDigit c
  | EmptyString => false
  end.

Definition allDigits (s : string) : bool :=
  forallb isDigit (list_ascii_of_string s).

(** [s] contains the text [PORT:] followed by a decimal digit. *)
Definition hasAnnouncement (s : string) : Prop :=
  exists pre d rest, s = pre ++ "PORT:" ++ String d rest /\ isDigit d = true.

End JS.

(* ================================================================== *)
(** * shared/constants.ts and shared/types.ts *)
(* ================================================================== *)

Module Shared.

Definition BACKEND_STARTUP_TIMEOUT_MS : Z := 30000.
Definition BACKEND_HEALTH_ENDPOINT : string := "/health".
Definition HEALTH_CHECK_INTERVAL_MS : Z := 5000.
Definition HEALTH_CHECK_FAILURE_THRESHOLD : Z := 3.
Definition HEALTH_CHECK_TIMEOUT_MS : Z := 3000.

(** [interface BackendStatus] *)
Record BackendStatus := mkBackendStatus {
  bs_isRunning : bool;
  bs_port : option Z;
  bs_pid : option Z;
  bs_error : option string
}.

(** [interface HealthCheckStatus] *)
Record HealthCheckStatus := mkHealthCheckStatus {
  hs_isHealthy : bool;
  hs_consecutiveFailures : Z;
  hs_lastCheck : option Z;
  hs_error : option string
}.

End Shared.

(* ================================================================== *)
(** * class BackendManager (src/unnamed/part_000) *)
(* ================================================================== *)

Module Backend.
Import JS Shared.

(** A [ChildProcess] object: its identity and its [pid] property
    ([undefined] when the operating system did not start the child). *)
Record ChildProcess := mkChild {
  handle : nat;
  cp_pid : option Z
}.

(** A promise of [_startInternal] is named by its index in [Env.starts],
    a promise of [stop] by its index in [Env.stops]. *)
Definition StartPromise := nat.
Definition StopPromise := nat.

(** The private fields of the class. *)
Record BackendManager := mkManager {
  process : option ChildProcess;
  port : option Z;
  isRunning : bool;
  startupPromise : option StartPromise
}.

Definition initial : BackendManager :=
  {| process := None; port := None; isRunning := false; startupPromise := None |}.

Definition set_process (v : option ChildProcess) (m : BackendManager) :=
  {| process := v; port := port m; isRunning := isRunning m;
     startupPromise := startupPromise m |}.
Definition set_port (v : option Z) (m : BackendManager) :=
  {| process := process m; port := v; isRunning := isRunning m;
     startupPromise := startupPromise m |}.
Definition set_isRunning (v : bool) (m : BackendManager) :=
  {| process := process m; port := port m; isRunning := v;
     startupPromise := startupPromise m |}.
Definition set_startupPromise (v : option StartPromise) (m : BackendManager) :=
  {| process := process m; port := port m; isRunning := isRunning m;
     startupPromise := v |}.

(** ** Synchronous methods *)

(** [getStatus()], lines 239-246. *)
Definition getStatus (m : BackendManager) : BackendStatus :=
  {| bs_isRunning := isRunning m;
     bs_port := port m;
     bs_pid := orNull (match process m with Some c => cp_pid c | None => None end);
     bs_error := None |}.

(** [getBaseUrl()], lines 251-253. *)
Definition getBaseUrl (m : BackendManager) : option string :=
  if truthy (port m)
  then option_map (fun n => "http://127.0.0.1:" ++ numberToString n) (port m)
  else None.

(** The [stdout] data listener, lines 89-99: [output] is the chunk
    decoded and trimmed; a match overwrites [this.port]. *)
Definition announcedPort (data : string) : option Z :=
  option_map parseInt (matchPORT (trim data)).

Definition onStdout (data : string) (m : BackendManager) : BackendManager :=
  match announcedPort data with
  | Some n => set_port (Some n) m
  | None => m
  end.

(** The [close] listener registered by [_startInternal], lines 106-111. *)
Definition onClose (m : BackendManager) : BackendManager :=
  set_process None (set_port None (set_isRunning false m)).

(** The [error] listener, lines 113-117. *)
Definition onError (m : BackendManager) : BackendManager :=
  set_port None (set_isRunning false m).

(** The [close] listener added once by [stop()], lines 214-220 (its
    [resolve()] is performed by the event loop below). *)
Definition onCloseStop (m : BackendManager) : BackendManager :=
  set_process None (set_port None (set_isRunning false m)).

(** ** The environment of the manager *)

Inductive Signal := SIGTERM | SIGKILL.

(** What the manager does to the outside world, newest first in
    [Env.effects]. *)
Inductive Effect :=
| Spawn (c : ChildProcess)
| Kill (h : nat) (sig : Signal)
| HttpGet (url : string) (timeout : Z)
| SetTimeout (ms : Z)
| SetInterval (ms : Z)
| StartReturned (p : StartPromise)
| StopReturned (p : StopPromise).

(** The continuation of the [_startInternal] call in flight.
    [port], [pid] are its local constants; [startTime], [healthUrl]
    those of the [waitForHealthy] call it awaits.  One slot is enough:
    while a call is in flight [startupPromise] is set, so that [start()]
    does not enter [_startInternal] again ([WF] below). *)
Inductive Task :=
| NoTask
| AwaitPort (p : StartPromise) (pid : option Z)
    (* line 120, inside [waitForPort]: timeout and interval armed *)
| AwaitProbe (p : StartPromise) (port : Z) (pid : option Z)
    (startTime : Z) (healthUrl : string)
    (* line 186: [axios.get] pending *)
| AwaitRetry (p : StartPromise) (port : Z) (pid : option Z)
    (startTime : Z) (healthUrl : string).
    (* line 194: the 500 ms pause pending *)

Definition taskPromise (t : Task) : option StartPromise :=
  match t with
  | NoTask => None
  | AwaitPort p _ => Some p
  | AwaitProbe p _ _ _ _ => Some p
  | AwaitRetry p _ _ _ _ => Some p
  end.

Record Env := mkEnv {
  this : BackendManager;
  task : Task;
  starts : list (option (Settlement BackendStatus));
      (* the promises made by [_startInternal]; [None] while pending *)
  stops : list (option nat * bool);
      (* the promises made by [stop()]: the handle whose [close] is
         awaited, and whether the promise is resolved *)
  live : list nat;
      (* children spawned whose [close] has not been emitted *)
  nextHandle : nat;
  killTimers : nat;        (* 5000 ms timers of [stop()] still armed *)
  staleIntervals : nat;    (* intervals of [waitForPort] calls that timed out *)
  effects : list Effect
}.

Definition fresh : Env :=
  {| this := initial; task := NoTask; starts := []; stops := []; live := [];
     nextHandle := 0; killTimers := 0; staleIntervals := 0; effects := [] |}.

Definition with_this (f : BackendManager -> BackendManager) (w : Env) : Env :=
  {| this := f (this w); task := task w; starts := starts w; stops := stops w;
     live := live w; nextHandle := nextHandle w; killTimers := killTimers w;
     staleIntervals := staleIntervals w; effects := effects w |}.
Definition set_task (t : Task) (w : Env) : Env :=
  {| this := this w; task := t; starts := starts w; stops := stops w;
     live := live w; nextHandle := nextHandle w; killTimers := killTimers w;
     staleIntervals := staleIntervals w; effects := effects w |}.
Definition set_starts (v : list (option (Settlement BackendStatus))) (w : Env) : Env :=
  {| this := this w; task := task w; starts := v; stops := stops w;
     live := live w; nextHandle := nextHandle w; killTimers := killTimers w;
     staleIntervals := staleIntervals w; effects := effects w |}.
Definition set_stops (v : list (option nat * bool)) (w : Env) : Env :=
  {| this := this w; task := task w; starts := starts w; stops := v;
     live := live w; nextHandle := nextHandle w; killTimers := killTimers w;
     staleIntervals := staleIntervals w; effects := effects w |}.
Definition set_live (v : list nat) (w : Env) : Env :=
  {| this := this w; task := task w; starts := starts w; stops := stops w;
     live := v; nextHandle := nextHandle w; killTimers := killTimers w;
     staleIntervals := staleIntervals w; effects := effects w |}.
Definition set_nextHandle (v : nat) (w : Env) : Env :=
  {| this := this w; task := task w; starts := starts w; stops := stops w;
     live := live w; nextHandle := v; killTimers := killTimers w;
     staleIntervals := staleIntervals w; effects := effects w |}.
Definition set_killTimers (v : nat) (w : Env) : Env :=
  {| this := this w; task := task w; starts := starts w; stops := stops w;
     live := live w; nextHandle := nextHandle w; killTimers := v;
     staleIntervals := staleIntervals w; effects := effects w |}.
Definition set_staleIntervals (v : nat) (w : Env) : Env :=
  {| this := this w; task := task w; starts := starts w; stops := stops w;
     live := live w; nextHandle := nextHandle w; killTimers := killTimers w;
     staleIntervals := v; effects := effects w |}.
Definition emit (e : Effect) (w : Env) : Env :=
  {| this := this w; task := task w; starts := starts w; stops := stops w;
     live := live w; nextHandle := nextHandle w; killTimers := killTimers w;
     staleIntervals := staleIntervals w; effects := e :: effects w |}.

(** Settling promise [p]: only a pending promise changes. *)
Fixpoint settleAt {A} (p : nat) (v : A) (l : list (option A)) : list (option A) :=
  match l, p with
  | [], _ => []
  | None :: l', O => Some v :: l'
  | x :: l', O => x :: l'
  | x :: l', S p' => x :: settleAt p' v l'
  end.

Definition settlement (w : Env) (p : StartPromise)
  : option (Settlement BackendStatus) :=
  nth p (starts w) None.

Definition settle (p : StartPromise) (r : Settlement BackendStatus) (w : Env) :=
  set_starts (settleAt p r (starts w)) w.

(** ** [async] plumbing of [_startInternal] *)

Definition Outcome := Completion BackendStatus Task.

(** The [catch] block, lines 135-145. *)
Definition catchBlock (e : Thrown) : BackendStatus :=
  {| bs_isRunning := false; bs_port := None; bs_pid := None;
     bs_error := Some (messageOf e) |}.

(** [try { .. } catch (error) { .. }] around a stretch of the body. *)
Definition tryCatch (c : Outcome) : Outcome :=
  match c with
  | Throw e => Return (catchBlock e)
  | _ => c
  end.

(** [finally { this.startupPromise = null }], lines 146-148: runs when
    control leaves the [try] statement, not when the body awaits. *)
Definition finallyBlock (c : Outcome) (w : Env) : Env :=
  match c with
  | Await _ => w
  | _ => with_this (set_startupPromise None) w
  end.

(** The boundary of the [async] function: a returned value fulfils its
    promise, an escaping exception rejects it. *)
Definition asyncBoundary (p : StartPromise) (c : Outcome) (w : Env) : Env :=
  match c with
  | Return v => set_task NoTask (settle p (Fulfilled v) w)
  | Throw e => set_task NoTask (settle p (Rejected e) w)
  | Await k => set_task k w
  end.

(** A stretch of the body that lies inside the [try] statement. *)
Definition insideTry (p : StartPromise) (r : Env * Outcome) : Env :=
  let c := tryCatch (snd r) in
  asyncBoundary p c (finallyBlock c (fst r)).

(** ** [waitForPort], [waitForHealthy] *)

(** [waitForPort()], lines 154-168, up to the pending promise it
    returns: a 30000 ms timeout and a 100 ms interval are armed. *)
Definition waitForPort (w : Env) : Env :=
  emit (SetInterval 100) (emit (SetTimeout BACKEND_STARTUP_TIMEOUT_MS) w).

Definition portTimeoutError : Thrown :=
  ErrorObject "Backend did not announce port within timeout".
Definition healthTimeoutError : Thrown :=
  ErrorObject "Backend did not become healthy within timeout".
Definition portUnavailableError : Thrown :=
  ErrorObject "Cannot check health: port not available".

(** The loop of [waitForHealthy], lines 184-198, from its test;
    [now] is the value of [Date.now()]. *)
Definition healthLoop (p : StartPromise) (port_ : Z) (pid : option Z)
    (startTime : Z) (healthUrl : string) (now : Z) (w : Env) : Env * Outcome :=
  if now - startTime <? BACKEND_STARTUP_TIMEOUT_MS
  then (emit (HttpGet healthUrl 2000) w,
        Await (AwaitProbe p port_ pid startTime healthUrl))
  else (w, Throw healthTimeoutError).

(** [waitForHealthy()] up to its first [await], lines 173-186. *)
Definition waitForHealthy (p : StartPromise) (port_ : Z) (pid : option Z)
    (now : Z) (w : Env) : Env * Outcome :=
  match port (this w) with
  | Some n =>
      if n =? 0 then (w, Throw portUnavailableError)
      else
        let startTime := now in
        let healthUrl :=
          "http://127.0.0.1:" ++ numberToString n ++ BACKEND_HEALTH_ENDPOINT in
        healthLoop p port_ pid startTime healthUrl now w
  | None => (w, Throw portUnavailableError)
  end.

(** What a readiness request comes back with: a body whose status is
    ['healthy'], any other response, or an exception of [axios.get]
    (or of reading the body). *)
Inductive ProbeResult := ProbeHealthy | ProbeOther | ProbeFailed.

(** Lines 186-195 after the [await], then lines 126-134 on success. *)
Definition afterProbe (r : ProbeResult) (p : StartPromise) (port_ : Z)
    (pid : option Z) (startTime : Z) (healthUrl : string) (now : Z) (w : Env)
  : Env * Outcome :=
  match r with
  | ProbeHealthy =>
      (w, Return {| bs_isRunning := true; bs_port := Some port_;
                    bs_pid := pid; bs_error := None |})
  | ProbeOther => healthLoop p port_ pid startTime healthUrl now w
  | ProbeFailed =>
      (emit (SetTimeout 500) w, Await (AwaitRetry p port_ pid startTime healthUrl))
  end.

(** Lines 120-124 once [waitForPort] has resolved with [port_]. *)
Definition afterPort (p : StartPromise) (pid : option Z) (port_ : Z)
    (now : Z) (w : Env) : Env * Outcome :=
  waitForHealthy p port_ pid now (with_this (set_isRunning true) w).

(** ** [start], [_startInternal], [stop] *)

(** What [child_process.spawn] does when it is called. *)
Inductive SpawnOutcome :=
| SpawnReturns (pid : option Z)
| SpawnThrows (e : Thrown).

(** [_startInternal()], lines 61-120, up to its first [await]; [p] is
    the promise the call returns. *)
Definition _startInternal (sp : SpawnOutcome) (p : StartPromise) (w : Env) : Env :=
  if isRunning (this w)
  then asyncBoundary p (Return (getStatus (this w))) w
  else
    insideTry p
      match sp with
      | SpawnThrows e => (w, Throw e)
      | SpawnReturns pid0 =>
          let c := {| handle := nextHandle w; cp_pid := pid0 |} in
          let w1 := set_nextHandle (S (nextHandle w)) w in
          let w2 := with_this (set_process (Some c)) (emit (Spawn c) w1) in
          let pid := orNull (cp_pid c) in
          (* the stdout, stderr, close and error listeners are attached *)
          let w3 := set_live (handle c :: live w2) w2 in
          (waitForPort w3, Await (AwaitPort p pid))
      end.

(** [start()], lines 52-59. *)
Definition start (sp : SpawnOutcome) (w : Env) : Env * StartPromise :=
  match startupPromise (this w) with
  | Some p => (w, p)
  | None =>
      let p := List.length (starts w) in
      let w1 := _startInternal sp p (set_starts (starts w ++ [None])%list w) in
      (with_this (set_startupPromise (Some p)) w1, p)
  end.

(** [stop()], lines 204-234. *)
Definition stop (w : Env) : Env * StopPromise :=
  let p := List.length (stops w) in
  match process (this w) with
  | Some c =>
      let w1 := set_stops (stops w ++ [(Some (handle c), false)])%list w in
      let w2 := emit (Kill (handle c) SIGTERM) w1 in
      let w3 := set_killTimers (S (killTimers w2)) (emit (SetTimeout 5000) w2) in
      (w3, p)
  | None => (set_stops (stops w ++ [(None, true)])%list w, p)
  end.

(** The 5000 ms timer of [stop()], lines 226-231. *)
Definition forceKill (w : Env) : Env :=
  let w1 := set_killTimers (pred (killTimers w)) w in
  match process (this w1) with
  | Some c => emit (Kill (handle c) SIGKILL) w1
  | None => w1
  end.

(** ** The event loop *)

Definition awaits (h : nat) (s : option nat * bool) : bool :=
  match s with
  | (Some h', false) => Nat.eqb h h'
  | _ => false
  end.

Definition resolveStops (h : nat) (l : list (option nat * bool)) :=
  map (fun s => if awaits h s then (fst s, true) else s) l.

(** Emission of [close] by child [h]: the listener of [_startInternal]
    runs, then the [once] listeners of the [stop()] calls waiting for
    [h], each of which resolves its promise. *)
Definition closeEvent (h : nat) (w : Env) : Env :=
  let w1 := with_this onClose w in
  let w2 := if existsb (awaits h) (stops w1) then with_this onCloseStop w1 else w1 in
  set_live (remove Nat.eq_dec h (live w2)) (set_stops (resolveStops h (stops w2)) w2).

Inductive Event :=
| CallStart (sp : SpawnOutcome)          (* some caller invokes [start()] *)
| CallStop                               (* some caller invokes [stop()] *)
| StdoutData (h : nat) (data : string)
| StderrData (h : nat) (data : string)
| ProcessClose (h : nat) (code : option Z)
| ProcessError (h : nat)
| PortPoll (now : Z)                     (* the 100 ms interval of [waitForPort] *)
| PortTimeout                            (* its 30000 ms timeout *)
| StalePoll                              (* the interval of a call that timed out *)
| ProbeReply (r : ProbeResult) (now : Z) (* the pending [axios.get] settles *)
| RetryWake (now : Z)                    (* the 500 ms pause ends *)
| KillTimer.

Definition isLive (h : nat) (w : Env) : bool := existsb (Nat.eqb h) (live w).

(** One turn of the event loop; [None] when the event cannot occur in
    [w] (no such child, timer or request). *)
Definition step (ev : Event) (w : Env) : option Env :=
  match ev with
  | CallStart sp =>
      let r := start sp w in Some (emit (StartReturned (snd r)) (fst r))
  | CallStop =>
      let r := stop w in Some (emit (StopReturned (snd r)) (fst r))
  | StdoutData h data =>
      if isLive h w then Some (with_this (onStdout data) w) else None
  | StderrData h _ =>
      if isLive h w then Some w else None
  | ProcessClose h _ =>
      if isLive h w then Some (closeEvent h w) else None
  | ProcessError h =>
      if isLive h w then Some (with_this onError w) else None
  | PortPoll now =>
      match task w with
      | AwaitPort p pid =>
          match port (this w) with
          | Some n => Some (insideTry p (afterPort p pid n now w))
          | None => Some w
          end
      | _ => None
      end
  | PortTimeout =>
      match task w with
      | AwaitPort p pid =>
          Some (insideTry p
                  (set_staleIntervals (S (staleIntervals w)) w, Throw portTimeoutError))
      | _ => None
      end
  | StalePoll =>
      match staleIntervals w with
      | S k =>
          match port (this w) with
          | Some _ => Some (set_staleIntervals k w)
          | None => Some w
          end
      | O => None
      end
  | ProbeReply r now =>
      match task w with
      | AwaitProbe p port_ pid startTime healthUrl =>
          Some (insideTry p (afterProbe r p port_ pid startTime healthUrl now w))
      | _ => None
      end
  | RetryWake now =>
      match task w with
      | AwaitRetry p port_ pid startTime healthUrl =>
          Some (insideTry p (healthLoop p port_ pid startTime healthUrl now w))
      | _ => None
      end
  | KillTimer =>
      match killTimers w with
      | S _ => Some (forceKill w)
      | O => None
      end
  end.

Fixpoint run (evs : list Event) (w : Env) : option Env :=
  match evs with
  | [] => Some w
  | ev :: evs' =>
      match step ev w with
      | Some w' => run evs' w'
      | None => None
      end
  end.

(** ** Observations on the effects *)

Definition isHttpGet (e : Effect) : bool :=
  match e with HttpGet _ _ => true | _ => false end.

(** The number of readiness requests issued so far. *)
Definition probeCount (w : Env) : nat := List.length (filter isHttpGet (effects w)).

(** ** Predicates and sample runs used by the properties *)

(** The two shapes of a status that [start()] resolves with: running
    without error, or not running with an error and nothing else. *)
Definition goodStatus (st : BackendStatus) : Prop :=
  (bs_isRunning st = true /\ bs_error st = None) \/
  (bs_isRunning st = false /\ bs_port st = None /\ bs_pid st = None /\
   bs_error st <> None).

Definition goodEntry (x : option (Settlement BackendStatus)) : Prop :=
  match x with
  | Some (Fulfilled st) => goodStatus st
  | Some (Rejected _) => False
  | None => True
  end.

(** What holds of the promises between any two turns of the event loop:
    the call in flight has its promise stored in [startupPromise] and
    pending, and every settled promise is fulfilled with a status of one of
    the two shapes. *)
Record WF (w : Env) : Prop := {
  wf_task : forall p, taskPromise (task w) = Some p ->
      startupPromise (this w) = Some p /\ settlement w p = None /\
      (p < List.length (starts w))%nat;
  wf_starts : Forall goodEntry (starts w)
}.

(** Feeding the [stdout] listener a sequence of chunks. *)
Definition feed (chunks : list string) (m : BackendManager) : BackendManager :=
  fold_left (fun acc chunk => onStdout chunk acc) chunks m.

(** The text of a chunk that holds the given lines, each ended by a line
    feed. *)
Fixpoint unlines (lines : list string) : string :=
  match lines with
  | [] => EmptyString
  | line :: rest => line ++ String "010" (unlines rest)
  end.

(** The discovered port in the words of the specification: the first
    line that carries an announcement sets it, later ones are ignored. *)
Fixpoint spec_discoveredPort (lines : list string) : option Z :=
  match lines with
  | [] => None
  | line :: rest =>
      match announcedPort line with
      | Some n => Some n
      | None => spec_discoveredPort rest
      end
  end.

(** What one event does to [this.port]. *)
Definition portStep (ev : Event) (p : option Z) : option Z :=
  match ev with
  | StdoutData _ data =>
      match announcedPort data with
      | Some n => Some n
      | None => p
      end
  | ProcessClose _ _ | ProcessError _ => None
  | _ => p
  end.

Definition portAfter (evs : list Event) (p : option Z) : option Z :=
  fold_left (fun acc ev => portStep ev acc) evs p.

Definition demo_startup : list Event :=
  [CallStart (SpawnReturns (Some 4242)); StdoutData 0 "noise";
   StdoutData 0 "PORT:54321"; StdoutData 0 "more noise"; PortPoll 200;
   ProbeReply ProbeFailed 210; RetryWake 710; ProbeReply ProbeHealthy 720].

Definition after (evs : list Event) : Env :=
  match run evs fresh with Some w => w | None => fresh end.

(** A chunk of output that carries an announcement. *)
Definition announces (ev : Event) : bool :=
  match ev with
  | StdoutData _ data =>
      match announcedPort data with Some _ => true | None => false end
  | _ => false
  end.

Definition isPortTimeout (ev : Event) : bool :=
  match ev with PortTimeout => true | _ => false end.

(** The events by which the readiness wait proceeds. *)
Definition isProbeEvent (ev : Event) : bool :=
  match ev with
  | ProbeReply _ _ | RetryWake _ => true
  | _ => false
  end.

(** Events after which the process tracked by a pending [stop()] and
    its timer are still the same: no exit, no new start, no other timer. *)
Definition graceEvent (ev : Event) : bool :=
  match ev with
  | ProcessClose _ _ | CallStart _ | KillTimer => false
  | _ => true
  end.

Definition isCloseOf (h : nat) (ev : Event) : bool :=
  match ev with
  | ProcessClose h' _ => Nat.eqb h h'
  | _ => false
  end.

Definition isKillTimer (ev : Event) : bool :=
  match ev with KillTimer => true | _ => false end.

Definition isSigkill (e : Effect) : bool :=
  match e with Kill _ SIGKILL => true | _ => false end.


Definition failed (e : Thrown) : Settlement BackendStatus :=
  Fulfilled (catchBlock e).

Definition demo_health_timeout : list Event :=
  [CallStart (SpawnReturns (Some 4242)); StdoutData 0 "PORT:54321"; PortPoll 100;
   ProbeReply ProbeFailed 2100; RetryWake 2600; ProbeReply ProbeOther 29000;
   ProbeReply ProbeFailed 29900; RetryWake 30400].

(** The [_startInternal] call settling [p] is inside [waitForHealthy]. *)
Definition probing (p : StartPromise) (t : Task) : Prop :=
  match t with
  | AwaitProbe q _ _ _ _ | AwaitRetry q _ _ _ _ => q = p
  | _ => False
  end.

(** While no spawned child is alive the manager holds no process, no port
    and is not running. *)
Definition Quiescent (w : Env) : Prop :=
  live w = [] ->
  process (this w) = None /\ port (this w) = None /\ isRunning (this w) = false.


Definition demo_waiting : list Event :=
  [StdoutData 0 "starting"; PortPoll 100; StderrData 0 "warning"; PortPoll 200].

Definition demo_announced : list Event :=
  [CallStart (SpawnReturns (Some 4242)); StdoutData 0 "PORT:54321"].

Definition demo_probes : list Event :=
  [ProbeReply ProbeFailed 2100; RetryWake 2600; ProbeReply ProbeOther 29000;
   ProbeReply ProbeFailed 29900; RetryWake 30400].

Definition demo_grace : list Event :=
  [StdoutData 0 "shutting down"; StderrData 0 "still busy"].

(** A first attempt times out and leaves child 0 alive; a second attempt
    spawns child 1, which announces port 5000 and answers healthy. *)
Definition demo_second_attempt : list Event :=
  [CallStart (SpawnReturns (Some 4242)); PortTimeout;
   CallStart (SpawnReturns (Some 4243)); StdoutData 1 "PORT:5000";
   PortPoll 31000; ProbeReply ProbeHealthy 31010].

(** The same, but child 0 exits while the second attempt waits for the
    port: its [close] listener clears [this.process], and child 1 goes on
    untracked. *)
Definition demo_untracked : list Event :=
  [CallStart (SpawnReturns (Some 4242)); PortTimeout;
   CallStart (SpawnReturns (Some 4243)); ProcessClose 0 (Some 1);
   StdoutData 1 "PORT:5000"; PortPoll 31000; ProbeReply ProbeHealthy 31010].

(** A first attempt times out; its child 0 announces a port afterwards. *)
Definition demo_stale_port : list Event :=
  [CallStart (SpawnReturns (Some 4242)); PortTimeout; StdoutData 0 "PORT:54321"].

(** A second attempt after that, with a child that prints nothing. *)
Definition demo_silent_restart : list Event :=
  [CallStart (SpawnReturns (Some 4243)); PortPoll 31000;
   ProbeReply ProbeHealthy 31010].


End Backend.

(* ================================================================== *)
(** * class HealthCheckService (src/unnamed/part_001) *)
(* ================================================================== *)

Module Health.
Import JS Shared.

(** The [BrowserWindow] given by [setMainWindow]; [destroyed] is what
    its [isDestroyed()] answers. *)
Record BrowserWindow := mkWindow { destroyed : bool }.

(** The private fields of the class ([backendManager] is read at each
    check and is passed with the event that starts the check). *)
Record HealthCheckService := mkService {
  status : HealthCheckStatus;
  intervalId : option nat;
  isRunning : bool;
  mainWindow : option BrowserWindow
}.

Definition initial : HealthCheckService :=
  {| status := {| hs_isHealthy := true; hs_consecutiveFailures := 0;
                  hs_lastCheck := None; hs_error := None |};
     intervalId := None; isRunning := false; mainWindow := None |}.

Definition set_status (v : HealthCheckStatus) (s : HealthCheckService) :=
  {| status := v; intervalId := intervalId s; isRunning := isRunning s;
     mainWindow := mainWindow s |}.
Definition set_intervalId (v : option nat) (s : HealthCheckService) :=
  {| status := status s; intervalId := v; isRunning := isRunning s;
     mainWindow := mainWindow s |}.
Definition set_isRunning (v : bool) (s : HealthCheckService) :=
  {| status := status s; intervalId := intervalId s; isRunning := v;
     mainWindow := mainWindow s |}.
Definition set_mainWindow (v : option BrowserWindow) (s : HealthCheckService) :=
  {| status := status s; intervalId := intervalId s; isRunning := isRunning s;
     mainWindow := v |}.

Definition set_isHealthy (v : bool) (st : HealthCheckStatus) :=
  {| hs_isHealthy := v; hs_consecutiveFailures := hs_consecutiveFailures st;
     hs_lastCheck := hs_lastCheck st; hs_error := hs_error st |}.
Definition set_consecutiveFailures (v : Z) (st : HealthCheckStatus) :=
  {| hs_isHealthy := hs_isHealthy st; hs_consecutiveFailures := v;
     hs_lastCheck := hs_lastCheck st; hs_error := hs_error st |}.
Definition set_lastCheck (v : option Z) (st : HealthCheckStatus) :=
  {| hs_isHealthy := hs_isHealthy st;
     hs_consecutiveFailures := hs_consecutiveFailures st;
     hs_lastCheck := v; hs_error := hs_error st |}.
Definition set_error (v : option string) (st : HealthCheckStatus) :=
  {| hs_isHealthy := hs_isHealthy st;
     hs_consecutiveFailures := hs_consecutiveFailures st;
     hs_lastCheck := hs_lastCheck st; hs_error := v |}.

Inductive Effect :=
| Send (snapshot : HealthCheckStatus)   (* webContents.send('health:status', ..) *)
| HttpGet (url : string) (timeout : Z)
| ShowMessageBox
| SetInterval (id : nat) (ms : Z)
| ClearInterval (id : nat).

Record Env := mkEnv {
  this : HealthCheckService;
  armed : list nat;        (* intervals set and not cleared *)
  nextTimer : nat;
  pendingChecks : nat;     (* [axios.get] calls of [performCheck] not settled *)
  pendingDialogs : nat;    (* message boxes not dismissed *)
  checksBegun : nat;       (* calls of [performCheck] so far *)
  effects : list Effect    (* newest first *)
}.

Definition fresh : Env :=
  {| this := initial; armed := []; nextTimer := 0; pendingChecks := 0;
     pendingDialogs := 0; checksBegun := 0; effects := [] |}.

Definition with_this (f : HealthCheckService -> HealthCheckService) (w : Env) :=
  {| this := f (this w); armed := armed w; nextTimer := nextTimer w;
     pendingChecks := pendingChecks w; pendingDialogs := pendingDialogs w;
     checksBegun := checksBegun w; effects := effects w |}.
Definition with_status (f : HealthCheckStatus -> HealthCheckStatus) (w : Env) :=
  with_this (fun s => set_status (f (status s)) s) w.
Definition set_armed (v : list nat) (w : Env) :=
  {| this := this w; armed := v; nextTimer := nextTimer w;
     pendingChecks := pendingChecks w; pendingDialogs := pendingDialogs w;
     checksBegun := checksBegun w; effects := effects w |}.
Definition set_nextTimer (v : nat) (w : Env) :=
  {| this := this w; armed := armed w; nextTimer := v;
     pendingChecks := pendingChecks w; pendingDialogs := pendingDialogs w;
     checksBegun := checksBegun w; effects := effects w |}.
Definition set_pendingChecks (v : nat) (w : Env) :=
  {| this := this w; armed := armed w; nextTimer := nextTimer w;
     pendingChecks := v; pendingDialogs := pendingDialogs w;
     checksBegun := checksBegun w; effects := effects w |}.
Definition set_pendingDialogs (v : nat) (w : Env) :=
  {| this := this w; armed := armed w; nextTimer := nextTimer w;
     pendingChecks := pendingChecks w; pendingDialogs := v;
     checksBegun := checksBegun w; effects := effects w |}.
Definition set_checksBegun (v : nat) (w : Env) :=
  {| this := this w; armed := armed w; nextTimer := nextTimer w;
     pendingChecks := pendingChecks w; pendingDialogs := pendingDialogs w;
     checksBegun := v; effects := effects w |}.
Definition emit (e : Effect) (w : Env) :=
  {| this := this w; armed := armed w; nextTimer := nextTimer w;
     pendingChecks := pendingChecks w; pendingDialogs := pendingDialogs w;
     checksBegun := checksBegun w; effects := e :: effects w |}.

(** [this.mainWindow && !this.mainWindow.isDestroyed()] *)
Definition windowUsable (s : HealthCheckService) : bool :=
  match mainWindow s with
  | Some bw => negb (destroyed bw)
  | None => false
  end.

(** [getStatus()], lines 201-203: a copy of the record. *)
Definition getStatus (s : HealthCheckService) : HealthCheckStatus := status s.

(** [isActive()], lines 208-210. *)
Definition isActive (s : HealthCheckService) : bool := isRunning s.

(** [setMainWindow], lines 33-35. *)
Definition setMainWindow (bw : BrowserWindow) (w : Env) : Env :=
  with_this (set_mainWindow (Some bw)) w.

(** [notifyRenderer()], lines 192-196. *)
Definition notifyRenderer (w : Env) : Env :=
  if windowUsable (this w) then emit (Send (getStatus (this w))) w else w.

(** [stop()], lines 67-80. *)
Definition stop (w : Env) : Env :=
  if negb (isRunning (this w)) then w
  else
    let w1 :=
      match intervalId (this w) with
      | Some id =>
          with_this (set_intervalId None)
            (set_armed (remove Nat.eq_dec id (armed w)) (emit (ClearInterval id) w))
      | None => w
      end in
    with_this (set_isRunning false) w1.

(** [handleSuccess()], lines 118-134; [now] is [Date.now()]. *)
Definition handleSuccess (now : Z) (w : Env) : Env :=
  let w1 := with_status (set_isHealthy true) w in
  let w2 := with_status (set_consecutiveFailures 0) w1 in
  let w3 := with_status (set_lastCheck (Some now)) w2 in
  let w4 := with_status (set_error None) w3 in
  notifyRenderer w4.

(** [handleCriticalFailure()], lines 163-187. *)
Definition handleCriticalFailure (w : Env) : Env :=
  let w1 := stop w in
  if windowUsable (this w1)
  then set_pendingDialogs (S (pendingDialogs w1)) (emit ShowMessageBox w1)
  else w1.

(** [handleFailure(error)], lines 139-157. *)
Definition handleFailure (error : string) (now : Z) (w : Env) : Env :=
  let w1 :=
    with_status (fun st =>
      set_consecutiveFailures (hs_consecutiveFailures st + 1) st) w in
  let w2 := with_status (set_lastCheck (Some now)) w1 in
  let w3 := with_status (set_error (Some error)) w2 in
  let w4 :=
    if HEALTH_CHECK_FAILURE_THRESHOLD <=? hs_consecutiveFailures (status (this w3))
    then handleCriticalFailure (with_status (set_isHealthy false) w3)
    else w3 in
  notifyRenderer w4.

(** [performCheck()], lines 85-102, up to its [await]; [bm] is the
    state of the backend manager when the check begins. *)
Definition performCheck (bm : Backend.BackendManager) (now : Z) (w : Env) : Env :=
  let w0 := set_checksBegun (S (checksBegun w)) w in
  match Backend.getBaseUrl bm with
  | None => handleFailure "Backend URL not available" now w0
  | Some baseUrl =>
      let healthUrl := replace "localhost" "127.0.0.1" baseUrl in
      set_pendingChecks (S (pendingChecks w0))
        (emit (HttpGet (healthUrl ++ BACKEND_HEALTH_ENDPOINT) HEALTH_CHECK_TIMEOUT_MS) w0)
  end.

(** How the request of a check, followed by reading
    [response.data.status], ends: HTTP 200 with status ['healthy'], HTTP
    200 with a body that has another status, or an exception (transport
    error, timeout, status other than 200, or a body such as [null] on which
    reading [status] throws). *)
Inductive CheckResult :=
| ReplyHealthy
| ReplyOther
| ReplyFailed (e : Thrown).

(** [performCheck()] after its [await], lines 104-112. *)
Definition afterCheck (r : CheckResult) (now : Z) (w : Env) : Env :=
  match r with
  | ReplyHealthy => handleSuccess now w
  | ReplyOther => handleFailure "Backend reported unhealthy status" now w
  | ReplyFailed e =>
      handleFailure ("Health check request failed: " ++ messageOf e) now w
  end.

(** [start()], lines 40-62. *)
Definition start (bm : Backend.BackendManager) (now : Z) (w : Env) : Env :=
  if isRunning (this w) then w
  else
    let w1 := with_this (set_isRunning true) w in
    let w2 := with_status (set_consecutiveFailures 0) w1 in
    let w3 := with_status (set_isHealthy true) w2 in
    let w4 := performCheck bm now w3 in
    let id := nextTimer w4 in
    with_this (set_intervalId (Some id))
      (set_armed (id :: armed w4)
         (set_nextTimer (S id) (emit (SetInterval id HEALTH_CHECK_INTERVAL_MS) w4))).

(** ** The event loop *)

Inductive Event :=
| CallStart (bm : Backend.BackendManager) (now : Z)
| CallStop
| CallSetMainWindow (bw : BrowserWindow)
| WindowDestroyed
| Tick (id : nat) (bm : Backend.BackendManager) (now : Z)
| Reply (r : CheckResult) (now : Z)
| DialogDismissed.

Definition isArmed (id : nat) (w : Env) : bool := existsb (Nat.eqb id) (armed w).

Definition step (ev : Event) (w : Env) : option Env :=
  match ev with
  | CallStart bm now => Some (start bm now w)
  | CallStop => Some (stop w)
  | CallSetMainWindow bw => Some (setMainWindow bw w)
  | WindowDestroyed =>
      match mainWindow (this w) with
      | Some _ => Some (with_this (set_mainWindow (Some {| destroyed := true |})) w)
      | None => None
      end
  | Tick id bm now =>
      if isArmed id w then Some (performCheck bm now w) else None
  | Reply r now =>
      match pendingChecks w with
      | S k => Some (afterCheck r now (set_pendingChecks k w))
      | O => None
      end
  | DialogDismissed =>
      match pendingDialogs w with
      | S k => Some (notifyRenderer (set_pendingDialogs k w))
      | O => None
      end
  end.

Fixpoint run (evs : list Event) (w : Env) : option Env :=
  match evs with
  | [] => Some w
  | ev :: evs' =>
      match step ev w with
      | Some w' => run evs' w'
      | None => None
      end
  end.

(** A check that ends in [handleFailure] / [handleSuccess]. *)
Definition isFailure (ev : Event) : bool :=
  match ev with
  | Tick _ bm _ =>
      match Backend.getBaseUrl bm with None => true | Some _ => false end
  | Reply ReplyHealthy _ => false
  | Reply _ _ => true
  | _ => false
  end.

Definition isSuccess (ev : Event) : bool :=
  match ev with
  | Reply ReplyHealthy _ => true
  | _ => false
  end.

Definition isCall (ev : Event) : bool :=
  match ev with
  | CallStart _ _ | CallStop => true
  | _ => false
  end.

Definition isCallStart (ev : Event) : bool :=
  match ev with
  | CallStart _ _ => true
  | _ => false
  end.

Definition failures (evs : list Event) : Z :=
  Z.of_nat (List.length (filter isFailure evs)).

(** ** State predicates used by the properties *)

Definition cf (w : Env) : Z := hs_consecutiveFailures (status (this w)).
Definition healthy (w : Env) : bool := hs_isHealthy (status (this w)).

(** An event that is neither a successful check nor a call of
    [start()] / [stop()]. *)
Definition quiet (ev : Event) : bool := negb (isSuccess ev || isCall ev).

(** What holds of the monitor between any two turns of the event loop. *)
Record Inv (w : Env) : Prop := {
  inv_healthy : healthy w = (cf w <? HEALTH_CHECK_FAILURE_THRESHOLD);
  inv_armed :
    armed w = match intervalId (this w) with Some id => [id] | None => [] end;
  inv_running :
    isRunning (this w) =
    match intervalId (this w) with Some _ => true | None => false end;
  inv_stopped : healthy w = false -> isRunning (this w) = false
}.

(** ** Sample runs *)

Definition bmUp : Backend.BackendManager :=
  {| Backend.process := Some {| Backend.handle := 0; Backend.cp_pid := Some 4242 |};
     Backend.port := Some 54321; Backend.isRunning := true;
     Backend.startupPromise := None |}.

Definition demo_started : list Event :=
  [CallSetMainWindow {| destroyed := false |}; CallStart bmUp 1000].

Definition demo_three_failures : list Event :=
  [Reply ReplyOther 1010; Tick 0 bmUp 6000; Reply (ReplyFailed OtherValue) 9000;
   Tick 0 bmUp 11000; Reply ReplyOther 11010].

Definition demo_two_failures : list Event :=
  [CallSetMainWindow {| destroyed := false |}; CallStart Backend.initial 1000;
   Tick 0 Backend.initial 6000; Tick 0 bmUp 11000].

Definition after (evs : list Event) : Env :=
  match run evs fresh with Some w => w | None => fresh end.

End Health.

(* ================================================================== *)
(** * Strings that may be null *)
(* ================================================================== *)

Module JSString.

(** Truthiness of a string-or-null: [null] and the empty string are
    falsy. *)
Definition truthyString (s : option string) : bool :=
  match s with
  | Some EmptyString => false
  | Some _ => true
  | None => false
  end.

(** [s || d] on a string-or-null. *)
Definition orElse (s : option string) (d : string) : string :=
  match s with
  | Some m => if truthyString s then m else d
  | None => d
  end.

End JSString.

(* ================================================================== *)
(** * Observations on runs of the backend manager *)
(* ================================================================== *)

Module Lifecycle.
Import JS Shared Backend.

(** The URL that [waitForHealthy] requests for port [n], line 180. *)
Definition healthUrlOf (n : Z) : string :=
  "http://127.0.0.1:" ++ numberToString n ++ BACKEND_HEALTH_ENDPOINT.

(** The status of a successful start, lines 126-131. *)
Definition started (n : Z) (pid : option Z) : BackendStatus :=
  {| bs_isRunning := true; bs_port := Some n; bs_pid := pid; bs_error := None |}.

(** Output of a child that carries no announcement. *)
Definition noise (ev : Event) : bool :=
  match ev with
  | StdoutData _ data =>
      match announcedPort data with Some _ => false | None => true end
  | StderrData _ _ => true
  | _ => false
  end.

(** What can happen while a readiness request or pause is pending without
    touching the process: replies, ends of pauses, and output. *)
Definition duringProbe (ev : Event) : bool :=
  match ev with
  | ProbeReply _ _ | RetryWake _ | StdoutData _ _ | StderrData _ _ => true
  | _ => false
  end.

(** The call of [_startInternal] settling [p] is inside the loop of
    [waitForHealthy] with these local constants. *)
Definition probingAt (p : StartPromise) (n : Z) (pid : option Z)
    (t0 : Z) (url : string) (t : Task) : Prop :=
  t = AwaitProbe p n pid t0 url \/ t = AwaitRetry p n pid t0 url.

(** The effects of the readiness loop. *)
Definition probeEffect (url : string) (e : Effect) : Prop :=
  e = HttpGet url 2000 \/ e = SetTimeout 500.

Definition isSpawn (e : Effect) : bool :=
  match e with Spawn _ => true | _ => false end.

Definition isKill (e : Effect) : bool :=
  match e with Kill _ _ => true | _ => false end.

(** The processes spawned so far, newest first. *)
Definition spawned (w : Env) : list Effect := filter isSpawn (effects w).

(** The signals sent so far, newest first. *)
Definition signals (w : Env) : list Effect := filter isKill (effects w).

(** The promise [p] is stored although the call that made it is over. *)
Definition Cached (p : StartPromise) (w : Env) : Prop :=
  startupPromise (this w) = Some p /\ task w = NoTask.

(** What leaves a pending call of [waitForPort] as it is while no port
    is known: output without an announcement and ticks of its interval. *)
Definition idleTick (ev : Event) : bool :=
  match ev with
  | PortPoll _ => true
  | _ => noise ev
  end.

(** Handles are handed out in increasing order. *)
Definition HandlesFresh (w : Env) : Prop :=
  (forall c, process (this w) = Some c -> (handle c < nextHandle w)%nat) /\
  Forall (fun h => (h < nextHandle w)%nat) (live w).

(** The running flag is only set once a port is known, and a port is a
    number read from a sequence of digits. *)
Definition PortKnown (w : Env) : Prop :=
  (isRunning (this w) = true -> port (this w) <> None) /\
  (forall n, port (this w) = Some n -> 0 <= n).

(** ** Sample runs *)

Definition demo_success : list Event :=
  CallStart (SpawnReturns (Some 4242)) ::
  [StdoutData 0 "noise"; PortPoll 100] ++ StdoutData 0 "PORT:54321" ::
  [StdoutData 0 "more noise"] ++ PortPoll 200 ::
  [ProbeReply ProbeFailed 210; RetryWake 710] ++ [ProbeReply ProbeHealthy 720].

Definition demo_port_zero : list Event :=
  [CallStart (SpawnReturns (Some 4242)); StdoutData 0 "PORT:0"].

Definition demo_after_exit : list Event :=
  [ProcessClose 0 (Some 1); CallStart (SpawnReturns (Some 4243))].

Definition demo_silent_child : list Event :=
  [StdoutData 0 "starting"; PortPoll 100].

Definition demo_late_announcement : list Event :=
  [CallStart (SpawnReturns (Some 4242)); PortTimeout; StdoutData 0 "PORT:54321"].

Definition demo_timed_out : list Event :=
  [CallStart (SpawnReturns (Some 4242)); PortTimeout].

(** The integer written by digits, continued from the value [acc] of the
    digits read so far. *)
Definition parseFrom (acc : Z) (ds : string) : Z :=
  fold_left (fun a c => 10 * a + digitValue c) (list_ascii_of_string ds) acc.

(** The largest integer up to which every integer is a double
    ([Number.MAX_SAFE_INTEGER]). *)
Definition MAX_SAFE_INTEGER : Z := 2 ^ 53 - 1.

End Lifecycle.

(* ================================================================== *)
(** * Observations on runs of the health monitor *)
(* ================================================================== *)

Module Monitor.
Import JS Shared Health.

(** What the user can see: a status message to the renderer, a dialog. *)
Definition isUi (e : Effect) : bool :=
  match e with
  | Send _ | ShowMessageBox => true
  | _ => false
  end.

Definition isSend (e : Effect) : bool :=
  match e with Send _ => true | _ => false end.

Definition isRequest (e : Effect) : bool :=
  match e with HttpGet _ _ => true | _ => false end.

(** Events other than a call of [setMainWindow]. *)
Definition detached (ev : Event) : bool :=
  match ev with CallSetMainWindow _ => false | _ => true end.

(** The events that end a check, in [handleSuccess] or [handleFailure]:
    the reply to its request, and a tick that finds no base URL.  With the
    value of [Date.now()] in that turn. *)
Definition completesCheck (ev : Event) : option Z :=
  match ev with
  | Reply _ now => Some now
  | Tick _ bm now =>
      match Backend.getBaseUrl bm with None => Some now | Some _ => None end
  | _ => None
  end.

(** What holds of every status the monitor has and sends: [isHealthy]
    is false exactly from the threshold on, and once a failure is counted
    there is an error text and a time of the last check. *)
Definition consistent (st : HealthCheckStatus) : Prop :=
  hs_isHealthy st = (hs_consecutiveFailures st <? HEALTH_CHECK_FAILURE_THRESHOLD) /\
  0 <= hs_consecutiveFailures st /\
  (0 < hs_consecutiveFailures st ->
   JSString.truthyString (hs_error st) = true /\ hs_lastCheck st <> None).

(** The status messages sent so far, newest first. *)
Definition sent (w : Env) : list HealthCheckStatus :=
  flat_map (fun e => match e with Send st => [st] | _ => [] end) (effects w).

Definition Consistent (w : Env) : Prop :=
  consistent (status (this w)) /\ Forall consistent (sent w).

(** The characters of [s] are all different from [c]. *)
Definition lacks (c : ascii) (s : string) : bool :=
  forallb (fun x => negb (Ascii.eqb c x)) (list_ascii_of_string s).

(** ** Sample runs *)

Definition demo_no_window : list Event :=
  [CallStart Backend.initial 1000; Tick 0 Backend.initial 6000;
   Tick 0 Backend.initial 11000].

Definition demo_near_threshold : list Event :=
  [CallSetMainWindow {| destroyed := false |}; CallStart bmUp 1000;
   Reply ReplyOther 1010; Tick 0 bmUp 6000; Reply ReplyOther 6010;
   Tick 0 bmUp 11000].

End Monitor.

(* ================================================================== *)
(** * class UnsubscriberApp (src/main/main.ts)

    The methods that drive the backend manager and the health monitor:
    [initialize], [runStartupChecks], [startBackend], [createWindow],
    [startHealthCheck], [shutdown], and the [before-quit] handler.  An
    [async] method is cut at its [await]s; what the awaited operation
    settles with, and whether a call into another service throws, is given
    to the part that follows.  The state of the backend manager is the one
    of [Backend]; the monitor is the one of [Health]. *)
(* ================================================================== *)

Module App.
Import JS JSString Shared.

(** [ERROR_MESSAGES] of shared/constants.ts. *)
Definition FILESYSTEM_NOT_WRITABLE : string :=
  "UNSUBSCRIBER cannot write to its data directory. Please check your system's folder permissions.".
Definition SYSTEM_TIME_INVALID : string :=
  "Your computer's clock appears to be incorrect. This may prevent you from connecting to your Google account.".

(** Calls into Electron and into the services that are not modelled
    further, newest first in [UnsubscriberApp.log]. *)
Inductive Action :=
| RunStartupChecks
| ShowMessageBoxSync (title message : string)
| BackendStart
| CreateMainWindow
| CreateTray
| RegisterAll
| ShowErrorBox (title content : string)
| AppQuit
| UnregisterAll
| TrayDestroy
| BackendStop
| DestroyWindow
| AppExit (code : Z).

(** The application and the services it owns.  A [BrowserWindow] is an
    object that several services can hold: it is named by its number of
    creation.  [windowManager_mainWindow] is the field [mainWindow] of the
    window manager (src/unnamed/part_002); [monitor_mainWindow] names the
    object that the field [mainWindow] of the monitor refers to, whose state
    the monitor's [Health.BrowserWindow] mirrors. *)
Record UnsubscriberApp := mkApp {
  isInitialized : bool;
  healthCheckService : Health.Env;
  windowManager_mainWindow : option nat;
  monitor_mainWindow : option nat;
  windowsCreated : nat;
  log : list Action
}.

Definition fresh : UnsubscriberApp :=
  {| isInitialized := false; healthCheckService := Health.fresh;
     windowManager_mainWindow := None; monitor_mainWindow := None;
     windowsCreated := 0; log := [] |}.

Definition set_isInitialized (v : bool) (a : UnsubscriberApp) :=
  {| isInitialized := v; healthCheckService := healthCheckService a;
     windowManager_mainWindow := windowManager_mainWindow a;
     monitor_mainWindow := monitor_mainWindow a;
     windowsCreated := windowsCreated a; log := log a |}.
Definition with_health (f : Health.Env -> Health.Env) (a : UnsubscriberApp) :=
  {| isInitialized := isInitialized a;
     healthCheckService := f (healthCheckService a);
     windowManager_mainWindow := windowManager_mainWindow a;
     monitor_mainWindow := monitor_mainWindow a;
     windowsCreated := windowsCreated a; log := log a |}.
Definition set_windowManager_mainWindow (v : option nat) (a : UnsubscriberApp) :=
  {| isInitialized := isInitialized a; healthCheckService := healthCheckService a;
     windowManager_mainWindow := v;
     monitor_mainWindow := monitor_mainWindow a;
     windowsCreated := windowsCreated a; log := log a |}.
Definition set_monitor_mainWindow (v : option nat) (a : UnsubscriberApp) :=
  {| isInitialized := isInitialized a; healthCheckService := healthCheckService a;
     windowManager_mainWindow := windowManager_mainWindow a;
     monitor_mainWindow := v;
     windowsCreated := windowsCreated a; log := log a |}.
Definition set_windowsCreated (v : nat) (a : UnsubscriberApp) :=
  {| isInitialized := isInitialized a; healthCheckService := healthCheckService a;
     windowManager_mainWindow := windowManager_mainWindow a;
     monitor_mainWindow := monitor_mainWindow a;
     windowsCreated := v; log := log a |}.
Definition act (x : Action) (a : UnsubscriberApp) :=
  {| isInitialized := isInitialized a; healthCheckService := healthCheckService a;
     windowManager_mainWindow := windowManager_mainWindow a;
     monitor_mainWindow := monitor_mainWindow a;
     windowsCreated := windowsCreated a; log := x :: log a |}.

(** A synchronous stretch of a method: the state it leaves, and the
    exception it throws if it does. *)
Definition Stretch := (UnsubscriberApp * option Thrown)%type.

Definition andThen (s : Stretch) (f : UnsubscriberApp -> Stretch) : Stretch :=
  match snd s with
  | None => f (fst s)
  | Some e => s
  end.

(** A call into another service that returns or throws. *)
Definition call (x : Action) (throws : option Thrown) (a : UnsubscriberApp) : Stretch :=
  (act x a, throws).

(** What [SystemChecks.runStartupChecks()] resolves with, as far as
    [main.ts] reads it. *)
Record StartupChecks := mkChecks {
  timeCheck_isValid : bool;
  filesystemCheck_isWritable : bool
}.

(** [runStartupChecks()] after its [await], lines 84-100. *)
Definition runStartupChecks (r : Settlement StartupChecks) (a : UnsubscriberApp) : Stretch :=
  match r with
  | Rejected e => (a, Some e)
  | Fulfilled c =>
      if negb (filesystemCheck_isWritable c)
      then (a, Some (ErrorObject FILESYSTEM_NOT_WRITABLE))
      else if negb (timeCheck_isValid c)
      then (act (ShowMessageBoxSync "System Time Warning" SYSTEM_TIME_INVALID) a, None)
      else (a, None)
  end.

(** [startBackend()] after its [await], lines 118-120. *)
Definition startBackend (r : Settlement BackendStatus) (a : UnsubscriberApp) : Stretch :=
  match r with
  | Rejected e => (a, Some e)
  | Fulfilled status =>
      if negb (bs_isRunning status) || truthyString (bs_error status)
      then (a, Some (ErrorObject
                       ("Failed to start backend: " ++
                        orElse (bs_error status) "Unknown error")))
      else (a, None)
  end.

(** [windowManager.createMainWindow()], lines 19-43 of part_002, as far
    as its field goes: the new window becomes the window of the window
    manager, and it is returned.  An exception is the one of the constructor
    (line 22) and leaves the field as it was. *)
Definition createMainWindow (throws : option Thrown) (a : UnsubscriberApp)
  : Stretch * nat :=
  let k := windowsCreated a in
  (andThen (call CreateMainWindow throws a) (fun a1 =>
     (set_windowManager_mainWindow (Some k) (set_windowsCreated (S k) a1), None)),
   k).

(** [createWindow()], lines 131-135: the window made by the window
    manager is handed to the monitor, which from then on holds the same
    object. *)
Definition createWindow (throws : option Thrown) (a : UnsubscriberApp) : Stretch :=
  let r := createMainWindow throws a in
  andThen (fst r) (fun a1 =>
    (set_monitor_mainWindow (Some (snd r))
       (with_health (Health.setMainWindow {| Health.destroyed := false |}) a1),
     None)).

(** What the monitor sees when the window it holds is destroyed. *)
Definition windowDestroyed (h : Health.Env) : Health.Env :=
  match Health.step Health.WindowDestroyed h with
  | Some h' => h'
  | None => h
  end.

(** [windowManager.destroyWindow()], lines 158-164 of part_002.  A window
    that the window manager holds is not destroyed (its [closed] listener,
    lines 61-64, clears the field when it is).  Destroying it shows to
    every holder of the object, so to the monitor when its window is that
    one.  An exception is the one of [destroy()] (line 160) and leaves the
    window as it was; without a window nothing is called and [throws] is not
    looked at. *)
Definition destroyWindow (throws : option Thrown) (a : UnsubscriberApp) : Stretch :=
  match windowManager_mainWindow a with
  | Some k =>
      andThen (call DestroyWindow throws a) (fun a1 =>
        let a2 := set_windowManager_mainWindow None a1 in
        match monitor_mainWindow a2 with
        | Some k' =>
            if Nat.eqb k k' then (with_health windowDestroyed a2, None) else (a2, None)
        | None => (a2, None)
        end)
  | None => (act DestroyWindow a, None)
  end.

(** [startHealthCheck()], lines 150-153; [bm] is the backend manager the
    monitor reads, [now] the time. *)
Definition startHealthCheck (bm : Backend.BackendManager) (now : Z)
    (a : UnsubscriberApp) : Stretch :=
  (with_health (Health.start bm now) a, None).

(** The [catch] block of [initialize()], lines 64-71. *)
Definition initializeFailed (e : Thrown) (a : UnsubscriberApp) : UnsubscriberApp :=
  act AppQuit
    (act (ShowErrorBox "Initialization Failed"
            match e with
            | ErrorObject m => m
            | OtherValue => "Unknown error occurred"
            end) a).

Definition tryInitialize (s : Stretch) : UnsubscriberApp :=
  match snd s with
  | None => fst s
  | Some e => initializeFailed e (fst s)
  end.

(** Whether calls into the window manager, the tray manager and the IPC
    registry throw. *)
Record Throws := mkThrows {
  createMainWindow_throws : option Thrown;
  createTray_throws : option Thrown;
  registerAll_throws : option Thrown
}.

Definition noThrow : Throws :=
  {| createMainWindow_throws := None; createTray_throws := None;
     registerAll_throws := None |}.

(** The three parts of [initialize()], lines 35-72.  The first runs up
    to [await this.runStartupChecks()]; it returns whether the method goes
    on. *)
Definition initialize_begin (a : UnsubscriberApp) : UnsubscriberApp * bool :=
  if isInitialized a then (a, false) else (act RunStartupChecks a, true).

(** From the result of the checks up to [await this.backendManager.start()];
    the flag tells whether [start()] was called. *)
Definition initialize_checked (r : Settlement StartupChecks)
    (a : UnsubscriberApp) : UnsubscriberApp * bool :=
  let s := runStartupChecks r a in
  match snd s with
  | None => (act BackendStart (fst s), true)
  | Some e => (initializeFailed e (fst s), false)
  end.

(** From the result of [start()] to the end; [bm] is the state of the
    backend manager in that turn. *)
Definition initialize_started (r : Settlement BackendStatus) (t : Throws)
    (bm : Backend.BackendManager) (now : Z) (a : UnsubscriberApp) : UnsubscriberApp :=
  tryInitialize
    (andThen (startBackend r a) (fun a1 =>
     andThen (createWindow (createMainWindow_throws t) a1) (fun a2 =>
     andThen (call CreateTray (createTray_throws t) a2) (fun a3 =>
     andThen (startHealthCheck bm now a3) (fun a4 =>
     andThen (call RegisterAll (registerAll_throws t) a4) (fun a5 =>
     (set_isInitialized true a5, None))))))).

(** [shutdown()], lines 174-197, up to [await this.backendManager.stop()];
    the flag tells whether [stop()] was called.  An exception ends the
    method in its [catch] block, which only logs. *)
Definition shutdown_begin (unregisterAll_throws trayDestroy_throws : option Thrown)
    (a : UnsubscriberApp) : UnsubscriberApp * bool :=
  let s :=
    andThen (with_health Health.stop a, None) (fun a1 =>
    andThen (call UnregisterAll unregisterAll_throws a1) (fun a2 =>
    andThen (call TrayDestroy trayDestroy_throws a2) (fun a3 =>
    (act BackendStop a3, None)))) in
  match snd s with
  | None => (fst s, true)
  | Some _ => (fst s, false)
  end.

(** [shutdown()] once [stop()] has resolved, then the rest of the
    [before-quit] handler, lines 240-243. *)
Definition shutdown_stopped (destroyWindow_throws : option Thrown)
    (a : UnsubscriberApp) : UnsubscriberApp :=
  act (AppExit 0) (fst (destroyWindow destroyWindow_throws a)).

(** The [before-quit] handler when [shutdown()] ended in its [catch]
    block before [stop()] was called. *)
Definition shutdown_caught (a : UnsubscriberApp) : UnsubscriberApp :=
  act (AppExit 0) a.

(** ** Sample states *)

Definition demo_running : UnsubscriberApp :=
  {| isInitialized := true;
     healthCheckService := Health.after Health.demo_started;
     windowManager_mainWindow := Some 0%nat; monitor_mainWindow := Some 0%nat;
     windowsCreated := 1;
     log := [RegisterAll; CreateTray; CreateMainWindow; BackendStart; RunStartupChecks] |}.

End App.

(* ================================================================== *)
(** * The status indicator of the renderer
      (src/renderer/components/AccountListItem.tsx, second part;
       hook [useHealthCheck] of src/renderer/types/electron.d.ts, second
       part) *)
(* ================================================================== *)

Module Renderer.
Import JS JSString Shared.

(** [useHealthCheck]: the state starts healthy and is replaced by every
    [health:status] message; [received] has the newest message first. *)
Definition useHealthCheck (received : list HealthCheckStatus) : HealthCheckStatus :=
  hd {| hs_isHealthy := true; hs_consecutiveFailures := 0;
        hs_lastCheck := None; hs_error := None |} received.

(** [getStatusColor], lines 87-92. *)
Definition getStatusColor (isLoading : bool) (backendStatus : BackendStatus)
    (healthStatus : HealthCheckStatus) : string :=
  if isLoading then "#808080"
  else if negb (bs_isRunning backendStatus) then "#dc3545"
  else if negb (hs_isHealthy healthStatus) then "#dc3545"
  else "#28a745".

(** [getStatusText], lines 94-99. *)
Definition getStatusText (isLoading : bool) (backendStatus : BackendStatus)
    (healthStatus : HealthCheckStatus) : string :=
  if isLoading then "Initializing..."
  else if negb (bs_isRunning backendStatus) then "Backend Offline"
  else if negb (hs_isHealthy healthStatus) then "Backend Unhealthy"
  else "Backend Running".

(** What an expression in braces puts on the screen: nothing for
    [false] and [null]; the text of a string or of a number; or one of the
    two elements of lines 109 and 112, the first with its content
    [Port: {backendStatus.port}], the second with its [title]. *)
Inductive Child :=
| Nothing
| Text (s : string)
| PortSpan (content : string)
| WarningSpan (title : string).

(** What [StatusIndicator] renders, lines 101-117: the colour of the dot,
    the text, and the two conditional children.  [a && b] is [a] when [a]
    is falsy: a port that is [null] renders nothing, the port 0 is rendered
    as the text of the number, and any other port gives the element; an
    unhealthy status whose error is the empty string renders that string. *)
Record Indicator := mkIndicator {
  dot : string;
  text : string;
  portDetail : Child;
  warning : Child
}.

Definition StatusIndicator (isLoading : bool) (backendStatus : BackendStatus)
    (healthStatus : HealthCheckStatus) : Indicator :=
  {| dot := getStatusColor isLoading backendStatus healthStatus;
     text := getStatusText isLoading backendStatus healthStatus;
     portDetail :=
       match bs_port backendStatus with
       | None => Nothing
       | Some n =>
           if truthy (Some n) then PortSpan ("Port: " ++ numberToString n)
           else Text (numberToString n)
       end;
     warning :=
       if negb (hs_isHealthy healthStatus)
       then match hs_error healthStatus with
            | None => Nothing
            | Some e => if truthyString (Some e) then WarningSpan e else Text e
            end
       else Nothing |}.

End Renderer.

(* ================================================================== *)
(** * class IPCHandlers (src/main/ipc/ipc-handlers.ts, second part)

    The account handlers, which all go through [getBaseUrl()] of the
    backend manager.  Each handler is one [async] method with a [try]
    statement around its body; what its awaited operations settle with is
    given to the handler, and the handler yields the operations it performs,
    oldest first, and how its own promise settles.  An outcome given for an
    operation that is not reached is not looked at. *)
(* ================================================================== *)

Module Ipc.
Import JS JSString Shared.

(** [interface TokenData], and of [interface Account] the fields that
    decide what a handler does.  A reply of the backend names these fields
    in snake case ([access_token], ...); the records stand for the data
    after the handler has copied it field by field. *)
Record TokenData := mkTokens {
  accessToken : string;
  refreshToken : string;
  expiresAt : Z;
  scope : string;
  tokenType : string
}.

Record Account := mkAccount { email : string; id : Z }.

(** Operations on the outside, oldest first in the list a handler yields. *)
Inductive Call :=
| AxiosGet (url : string)
| AxiosPost (url : string) (timeout : option Z)
| AxiosDelete (url : string)
| OpenExternal (url : string)
| ShowMessageBox (message detail : string)
| GetTokens (email : string)
| StoreTokens (email : string) (tokens : TokenData)
| UpdateAccessToken (email : string) (newAccessToken : string) (expiresAt : Z)
| DeleteTokens (email : string)
| SendAccountsUpdated.

Definition backendNotAvailable : Thrown := ErrorObject "Backend not available".

(** [const baseUrl = this.backendManager.getBaseUrl();
     if (!baseUrl) throw new Error('Backend not available');] *)
Definition requireBaseUrl (bm : Backend.BackendManager) : Thrown + string :=
  match Backend.getBaseUrl bm with
  | Some u => if truthyString (Some u) then inr u else inl backendNotAvailable
  | None => inl backendNotAvailable
  end.

(** [notifyAccountsUpdated()], lines 468-473 of the file; [usable] says
    whether the window manager has a window that is not destroyed. *)
Definition notifyAccountsUpdated (usable : bool) : list Call :=
  if usable then [SendAccountsUpdated] else [].

(** [handleGetAccounts()], lines 247-262: [reply] is how the request,
    followed by reading [response.data.accounts], ends. *)
Definition handleGetAccounts {A : Type} (bm : Backend.BackendManager)
    (reply : Settlement A) : list Call * Settlement A :=
  match requireBaseUrl bm with
  | inl e => ([], Rejected e)
  | inr baseUrl => ([AxiosGet (baseUrl ++ "/accounts/list")], reply)
  end.

(** [handleStartOAuth()], lines 268-291: [reply] is how the request ends
    and what [auth_url] and [state] of its body are; [opened] whether
    [shell.openExternal] fails. *)
Definition handleStartOAuth (bm : Backend.BackendManager)
    (reply : Settlement (string * string)) (opened : option Thrown)
  : list Call * Settlement (string * string) :=
  match requireBaseUrl bm with
  | inl e => ([], Rejected e)
  | inr baseUrl =>
      let post := AxiosPost (baseUrl ++ "/accounts/authorize/start") None in
      match reply with
      | Rejected e => ([post], Rejected e)
      | Fulfilled (auth_url, state) =>
          match opened with
          | Some e => ([post; OpenExternal auth_url], Rejected e)
          | None => ([post; OpenExternal auth_url], Fulfilled (auth_url, state))
          end
      end
  end.

(** How the request of [handleCompleteOAuth] and the reading of its body
    end: with the account and the tokens of the body; with an error of
    [axios] that carries a response (its status, and [response.data.detail],
    where [noBody] stands for a response without data, on which reading
    [detail] throws [typeError]); or with any other exception (no response,
    or a body without account or tokens). *)
Inductive Detail :=
| noBody (typeError : Thrown)
| body (detail : option string).

Inductive CompleteReply :=
| Completed (account : Account) (tokens : TokenData)
| ResponseError (status : Z) (data : Detail)
| OtherError (e : Thrown).

(** The [catch] block of [handleCompleteOAuth], lines 347-361 of the
    file, on an error of [axios] that has a response. *)
Definition oauthError (status : Z) (data : Detail) : Thrown :=
  if status =? 409 then ErrorObject "This account has already been added."
  else if status =? 408 then ErrorObject "OAuth timeout. Please try again."
  else
    match data with
    | noBody typeError => typeError
    | body detail => ErrorObject (orElse detail "OAuth failed")
    end.

(** [handleCompleteOAuth(state)], lines 296-362: [stored] says whether
    [tokenManager.storeTokens] fails. *)
Definition handleCompleteOAuth (bm : Backend.BackendManager) (state : string)
    (reply : CompleteReply) (stored : option Thrown) (usable : bool)
  : list Call * Settlement (Account * TokenData) :=
  match requireBaseUrl bm with
  | inl e => ([], Rejected e)
  | inr baseUrl =>
      let post :=
        AxiosPost (baseUrl ++ "/accounts/authorize/complete?state=" ++ state)
          (Some 310000) in
      match reply with
      | ResponseError status data => ([post], Rejected (oauthError status data))
      | OtherError e => ([post], Rejected e)
      | Completed account tokens =>
          let store := StoreTokens (email account) tokens in
          match stored with
          | Some e => ([post; store], Rejected e)
          | None =>
              (([post; store] ++ notifyAccountsUpdated usable)%list,
               Fulfilled (account, tokens))
          end
      end
  end.

(** [handleDeleteAccount(email)], lines 368-415: [hasWindow] is whether
    [getMainWindow()] returns a window, [answer] how the confirmation dialog
    ends (the index of the button), [deleted] whether the request fails,
    [tokensDeleted] how [tokenManager.deleteTokens] ends. *)
Definition handleDeleteAccount (bm : Backend.BackendManager) (email : string)
    (hasWindow : bool) (answer : Settlement Z) (deleted : option Thrown)
    (tokensDeleted : Settlement bool) (usable : bool)
  : list Call * Settlement bool :=
  if negb hasWindow then ([], Rejected (ErrorObject "Main window not available"))
  else
    let ask :=
      ShowMessageBox ("Are you sure you want to remove " ++ email ++ "?")
        "All associated history will be permanently deleted." in
    match answer with
    | Rejected e => ([ask], Rejected e)
    | Fulfilled response =>
        if response =? 0 then ([ask], Fulfilled false)
        else
          match requireBaseUrl bm with
          | inl e => ([ask], Rejected e)
          | inr baseUrl =>
              let del := AxiosDelete (baseUrl ++ "/accounts/" ++ email) in
              match deleted with
              | Some e => ([ask; del], Rejected e)
              | None =>
                  match tokensDeleted with
                  | Rejected e => ([ask; del; DeleteTokens email], Rejected e)
                  | Fulfilled _ =>
                      (([ask; del; DeleteTokens email] ++
                        notifyAccountsUpdated usable)%list,
                       Fulfilled true)
                  end
              end
          end
    end.

(** [handleRefreshToken(email)], lines 420-463: [tokens] is what
    [tokenManager.getTokens] resolves with, [reply] how the request ends
    and the tokens of its body, [updated] whether
    [tokenManager.updateAccessToken] fails. *)
Definition handleRefreshToken (bm : Backend.BackendManager) (email : string)
    (tokens : option TokenData) (reply : Settlement TokenData)
    (updated : option Thrown)
  : list Call * Settlement TokenData :=
  match tokens with
  | None => ([GetTokens email], Rejected (ErrorObject "No tokens found for account"))
  | Some _ =>
      match requireBaseUrl bm with
      | inl e => ([GetTokens email], Rejected e)
      | inr baseUrl =>
          let post :=
            AxiosPost (baseUrl ++ "/accounts/" ++ email ++ "/refresh-token") None in
          match reply with
          | Rejected e => ([GetTokens email; post], Rejected e)
          | Fulfilled newTokens =>
              let update :=
                UpdateAccessToken email (accessToken newTokens) (expiresAt newTokens) in
              match updated with
              | Some e => ([GetTokens email; post; update], Rejected e)
              | None => ([GetTokens email; post; update], Fulfilled newTokens)
              end
          end
      end
  end.

(** ** Sample data *)

Definition demo_tokens : TokenData :=
  {| accessToken := "ya29.a0"; refreshToken := "1//0g"; expiresAt := 1700003600;
     scope := "gmail.modify"; tokenType := "Bearer" |}.

Definition demo_account : Account := {| email := "user@example.com"; id := 1 |}.

End Ipc.

(* ================================================================== *)
(** * Properties of the port announcement pattern *)
(* ================================================================== *)

Module StringFacts.
Import JS.
Local Open Scope string_scope.

Lemma stripPrefix_spec : forall p s r,
  stripPrefix p s = Some r <-> s = p ++ r.
Proof.
  induction p as [|a p IH]; intros s r; simpl.
  - split; congruence.
  - destruct s as [|b s]; [split; discriminate|].
    destruct (Ascii.eqb_spec a b) as [->|Hne].
    + rewrite IH. split; congruence.
    + split; [discriminate | intros H; injection H; intros; congruence].
Qed.

Lemma matchHere_space : forall c s, isSpace c = true -> matchHere (String c s) = None.
Proof.
  intros c s Hc. unfold matchHere. cbn [stripPrefix].
  destruct (Ascii.eqb_spec "P"%char c) as [<-|_]; [discriminate Hc | reflexivity].
Qed.

Lemma matchPORT_eq : forall s,
  matchPORT s =
  match matchHere s with
  | Some ds => Some ds
  | None => match s with String _ s' => matchPORT s' | EmptyString => None end
  end.
Proof. destruct s; reflexivity. Qed.

Lemma matchPORT_trimStart : forall s, matchPORT (trimStart s) = matchPORT s.
Proof.
  induction s as [|c s IH]; [reflexivity|].
  cbn [trimStart]. destruct (isSpace c) eqn:Hc; [|reflexivity].
  rewrite IH. rewrite (matchPORT_eq (String c s)), (matchHere_space c s Hc).
  reflexivity.
Qed.

Lemma isDigit_not_space : forall c, isDigit c = true -> isSpace c = false.
Proof.
  intros c. unfold isDigit, isSpace.
  destruct (Nat.leb_spec 48 (nat_of_ascii c)), (Nat.leb_spec (nat_of_ascii c) 57);
    try discriminate. intros _.
  destruct (Nat.leb_spec 9 (nat_of_ascii c)), (Nat.leb_spec (nat_of_ascii c) 13),
    (Nat.eqb_spec (nat_of_ascii c) 32), (Nat.eqb_spec (nat_of_ascii c) 160);
    cbn; try reflexivity; lia.
Qed.

Lemma trimEnd_cons_nonspace : forall c s,
  isSpace c = false -> trimEnd (String c s) = String c (trimEnd s).
Proof.
  intros c s Hc. cbn [trimEnd]. rewrite Hc. destruct (trimEnd s); reflexivity.
Qed.

Lemma trimEnd_cons_shape : forall c s,
  trimEnd (String c s) = EmptyString \/ exists t, trimEnd (String c s) = String c t.
Proof.
  intros c s. cbn [trimEnd].
  destruct (trimEnd s); [destruct (isSpace c)|]; eauto.
Qed.

Lemma takeDigits_trimEnd : forall s, takeDigits (trimEnd s) = takeDigits s.
Proof.
  induction s as [|c s IH]; [reflexivity|].
  cbn [takeDigits]. destruct (isDigit c) eqn:Hd.
  - rewrite (trimEnd_cons_nonspace _ _ (isDigit_not_space _ Hd)).
    cbn [takeDigits]. rewrite Hd, IH. reflexivity.
  - destruct (trimEnd_cons_shape c s) as [->|[t ->]]; cbn [takeDigits];
      [|rewrite Hd]; reflexivity.
Qed.

(** A pattern without white space is found at the start of the trimmed
    string exactly when it is found at the start of the string. *)
Lemma stripPrefix_trimEnd : forall p s,
  (forall c, In c (list_ascii_of_string p) -> isSpace c = false) ->
  stripPrefix p (trimEnd s) = option_map trimEnd (stripPrefix p s).
Proof.
  induction p as [|a p IH]; intros s Hp; [reflexivity|].
  destruct s as [|b s]; [reflexivity|].
  cbn [stripPrefix]. destruct (Ascii.eqb_spec a b) as [<-|Hne].
  - rewrite trimEnd_cons_nonspace by (apply Hp; left; reflexivity).
    cbn [stripPrefix]. rewrite Ascii.eqb_refl.
    apply IH. intros c Hc. apply Hp. right. exact Hc.
  - destruct (trimEnd_cons_shape b s) as [->|[t ->]]; cbn [stripPrefix option_map];
      [reflexivity|].
    destruct (Ascii.eqb_spec a b); [contradiction | reflexivity].
Qed.

Lemma matchHere_trimEnd : forall s, matchHere (trimEnd s) = matchHere s.
Proof.
  intros s. unfold matchHere. rewrite stripPrefix_trimEnd.
  - destruct (stripPrefix "PORT:" s); cbn [option_map]; [|reflexivity].
    rewrite takeDigits_trimEnd. reflexivity.
  - intros c Hc. cbn in Hc.
    repeat (destruct Hc as [<-|Hc]; [reflexivity|]). contradiction.
Qed.

Lemma matchPORT_trimEnd : forall s, matchPORT (trimEnd s) = matchPORT s.
Proof.
  induction s as [|c s IH]; [reflexivity|].
  rewrite (matchPORT_eq (trimEnd (String c s))), matchHere_trimEnd.
  rewrite (matchPORT_eq (String c s)).
  destruct (matchHere (String c s)); [reflexivity|].
  rewrite <- IH. cbn [trimEnd].
  destruct (trimEnd s) as [|x t]; [destruct (isSpace c)|]; reflexivity.
Qed.

(** Trimming the chunk does not change what the pattern finds in it. *)
Lemma matchPORT_trim : forall s, matchPORT (trim s) = matchPORT s.
Proof.
  intros s. unfold trim. rewrite matchPORT_trimEnd. apply matchPORT_trimStart.
Qed.

Lemma append_assoc_s : forall a b c : string, (a ++ b) ++ c = a ++ (b ++ c).
Proof. induction a as [|x a IH]; intros; cbn; [|rewrite IH]; reflexivity. Qed.

Lemma takeDigits_split : forall s, s = takeDigits s ++ dropDigits s.
Proof.
  induction s as [|c s IH]; [reflexivity|].
  cbn [takeDigits dropDigits]. destruct (isDigit c); cbn; [f_equal; exact IH | reflexivity].
Qed.

Lemma takeDigits_allDigits : forall s, allDigits (takeDigits s) = true.
Proof.
  induction s as [|c s IH]; [reflexivity|].
  cbn [takeDigits]. destruct (isDigit c) eqn:Hd; [|reflexivity].
  unfold allDigits in *. cbn. rewrite Hd. exact IH.
Qed.

Lemma dropDigits_start : forall s, startsWithDigit (dropDigits s) = false.
Proof.
  induction s as [|c s IH]; [reflexivity|].
  cbn [dropDigits]. destruct (isDigit c) eqn:Hd; [exact IH | exact Hd].
Qed.

(** What a match at the start of [s] captures. *)
Lemma matchHere_Some : forall s ds,
  matchHere s = Some ds ->
  exists rest,
    s = "PORT:" ++ ds ++ rest /\ ds <> EmptyString /\
    allDigits ds = true /\ startsWithDigit rest = false.
Proof.
  intros s ds H. unfold matchHere in H.
  destruct (stripPrefix "PORT:" s) as [r|] eqn:Hp; [|discriminate].
  apply stripPrefix_spec in Hp.
  destruct (takeDigits r) as [|d t] eqn:Ht; [discriminate|].
  injection H as <-. exists (dropDigits r). rewrite <- Ht.
  repeat split.
  - rewrite Hp. f_equal. apply takeDigits_split.
  - rewrite Ht. discriminate.
  - apply takeDigits_allDigits.
  - apply dropDigits_start.
Qed.

Lemma matchHere_None : forall s,
  matchHere s = None <->
  (forall d rest, s = "PORT:" ++ String d rest -> isDigit d = false).
Proof.
  intros s. unfold matchHere. split.
  - intros H d rest ->.
    assert (Hp : stripPrefix "PORT:" ("PORT:" ++ String d rest) = Some (String d rest))
      by (apply stripPrefix_spec; reflexivity).
    rewrite Hp in H. cbn [takeDigits] in H.
    destruct (isDigit d); [discriminate | reflexivity].
  - intros H. destruct (stripPrefix "PORT:" s) as [r|] eqn:Hp; [|reflexivity].
    apply stripPrefix_spec in Hp. destruct r as [|d r]; [reflexivity|].
    cbn [takeDigits]. rewrite (H d r Hp). reflexivity.
Qed.

(** The pattern finds nothing exactly in the chunks without an
    announcement. *)
Lemma matchPORT_None : forall s, matchPORT s = None <-> ~ hasAnnouncement s.
Proof.
  induction s as [|c s IH].
  - split; [|reflexivity]. intros _ (pre & d & rest & H & _).
    destruct pre; discriminate.
  - rewrite matchPORT_eq. split.
    + destruct (matchHere (String c s)) eqn:Hh; [discriminate|].
      intros Hs (pre & d & rest & H & Hd).
      destruct pre as [|x pre].
      * rewrite (proj1 (matchHere_None _) Hh d rest H) in Hd. discriminate.
      * cbn in H. injection H as _ H. apply (proj1 IH Hs). now exists pre, d, rest.
    + intros Hn. destruct (matchHere (String c s)) eqn:Hh.
      * exfalso. apply Hn. destruct (matchHere_Some _ _ Hh) as (rest & H & Hne & Hall & _).
        destruct s0 as [|d t]; [contradiction|].
        exists EmptyString, d, (t ++ rest). split; [exact H|].
        unfold allDigits in Hall. cbn in Hall. now apply andb_true_iff in Hall.
      * apply IH. intros (pre & d & rest & H & Hd). apply Hn.
        exists (String c pre), d, rest. split; [cbn; now f_equal | exact Hd].
Qed.

Lemma matchHere_app_None : forall a b,
  matchHere (a ++ b) = None -> matchHere a = None.
Proof.
  intros a b H. apply matchHere_None. intros d rest ->.
  apply (proj1 (matchHere_None _) H d (rest ++ b)). reflexivity.
Qed.

(** What a match captures: the digits after the leftmost [PORT:] that is
    followed by a digit, as many as there are. *)
Lemma matchPORT_Some : forall s ds,
  matchPORT s = Some ds ->
  exists pre rest,
    s = pre ++ "PORT:" ++ ds ++ rest /\ ds <> EmptyString /\
    allDigits ds = true /\ startsWithDigit rest = false /\
    ~ hasAnnouncement (pre ++ "PORT:").
Proof.
  induction s as [|c s IH]; intros ds H; [discriminate|].
  rewrite matchPORT_eq in H. destruct (matchHere (String c s)) eqn:Hh.
  - injection H as ->. destruct (matchHere_Some _ _ Hh) as (rest & Hs & Hne & Hall & Hr).
    exists EmptyString, rest. repeat split; try assumption.
    apply matchPORT_None. reflexivity.
  - destruct (IH ds H) as (pre & rest & Hs & Hne & Hall & Hr & Hleft).
    exists (String c pre), rest. repeat split; try assumption.
    + cbn. now f_equal.
    + intros (p0 & d & r0 & Heq & Hd). destruct p0 as [|x p0].
      * assert (Hn : matchHere (String c pre ++ "PORT:") = None).
        { apply (matchHere_app_None _ (ds ++ rest)).
          rewrite append_assoc_s.
          change (matchHere (String c (pre ++ "PORT:" ++ ds ++ rest)) = None).
          rewrite <- Hs. exact Hh. }
        rewrite Heq in Hn.
        rewrite (proj1 (matchHere_None _) Hn d r0 eq_refl) in Hd. discriminate.
      * cbn in Heq. injection Heq as _ Heq. apply Hleft. now exists p0, d, r0.
Qed.

(** A line feed ends a match: what follows it in a chunk is looked at only
    when the text before it holds no announcement. *)
Lemma takeDigits_line : forall a b, takeDigits (a ++ String "010" b) = takeDigits a.
Proof.
  induction a as [|c a IH]; intros b; [reflexivity|].
  cbn [append takeDigits]. rewrite IH. reflexivity.
Qed.

Lemma matchHere_line : forall l rest,
  matchHere (l ++ String "010" rest) = matchHere l.
Proof.
  intros l rest. unfold matchHere.
  do 5 (destruct l as [|? l]; [reflexivity|]; cbn [append stripPrefix];
        destruct (Ascii.eqb _ _); [|reflexivity]).
  cbn [stripPrefix]. rewrite takeDigits_line. reflexivity.
Qed.

Lemma matchPORT_line : forall l rest,
  matchPORT (l ++ String "010" rest) =
  match matchPORT l with
  | Some ds => Some ds
  | None => matchPORT rest
  end.
Proof.
  induction l as [|c l IH]; intros rest.
  - cbn [append]. rewrite matchPORT_eq. reflexivity.
  - rewrite (matchPORT_eq (String c l)).
    rewrite matchPORT_eq. rewrite (matchHere_line (String c l) rest).
    destruct (matchHere (String c l)); [reflexivity|].
    cbn [append]. apply IH.
Qed.

End StringFacts.

(* ================================================================== *)
(** * Properties of the numbers read from digits *)
(* ================================================================== *)

Module NumberFacts.
Import JS.

Lemma safe_below_infinity : 2 ^ 53 < INFINITY.
Proof. vm_compute. reflexivity. Qed.

(** An integer below 2^53 is a double. *)
Lemma toDouble_safe : forall z, z < 2 ^ 53 -> toDouble z = z.
Proof.
  intros z H. unfold toDouble.
  destruct (Z.ltb_spec z (2 ^ 53)); [reflexivity | lia].
Qed.

Lemma toDouble_nonneg : forall z, 0 <= z -> 0 <= toDouble z.
Proof.
  intros z Hz. unfold toDouble.
  destruct (Z.ltb_spec z (2 ^ 53)) as [_|Hbig]; [exact Hz|].
  set (e := Z.log2 z - 52).
  assert (Hq : 0 <= z / 2 ^ e) by (apply Z.div_pos; [exact Hz | apply Z.pow_pos_nonneg; [lia|]; unfold e; pose proof (Z.log2_le_mono _ _ Hbig) as Hl; rewrite Z.log2_pow2 in Hl by lia; lia]).
  assert (Hp : 0 <= 2 ^ e) by (apply Z.pow_nonneg; lia).
  match goal with
  | |- 0 <= (if INFINITY <=? ?v then _ else _) =>
      assert (Hv : 0 <= v); [|destruct (Z.leb_spec INFINITY v); [vm_compute; discriminate | exact Hv]]
  end.
  apply Z.mul_nonneg_nonneg; [|exact Hp].
  destruct (z mod 2 ^ e <? 2 ^ (e - 1)); [exact Hq|].
  destruct (2 ^ (e - 1) <? z mod 2 ^ e); [lia|].
  destruct (Z.even (z / 2 ^ e)); lia.
Qed.

Lemma parseInt_nonneg : forall ds, 0 <= decimalValue ds -> 0 <= parseInt ds.
Proof. intros ds H. apply toDouble_nonneg. exact H. Qed.

(** Below 2^53 a number is printed with all its digits. *)
Lemma numberToString_safe : forall n, n < 2 ^ 53 -> numberToString n = decimal n.
Proof.
  intros n H. unfold numberToString. pose proof safe_below_infinity as Hi.
  destruct (Z.leb_spec INFINITY n); [lia|].
  destruct (Z.ltb_spec n (2 ^ 53)); [reflexivity | lia].
Qed.

End NumberFacts.

(* ================================================================== *)
(** * Properties of the backend supervisor *)
(* ================================================================== *)

Module BackendFacts.
Import JS Shared Backend Lifecycle.
Local Open Scope list_scope.

(** ** The promise store *)

Lemma settleAt_length : forall A p (v : A) l,
  List.length (settleAt p v l) = List.length l.
Proof.
  intros A p v l. revert p. induction l as [|x l IH]; intros [|p];
    try destruct x; cbn; try reflexivity; now rewrite IH.
Qed.

Lemma nth_settleAt_eq : forall A p (v : A) l,
  nth p l None = None -> (p < List.length l)%nat ->
  nth p (settleAt p v l) None = Some v.
Proof.
  intros A p v l. revert p. induction l as [|x l IH]; intros [|p] Hn Hl;
    try destruct x; cbn in *; try lia; try discriminate; try reflexivity;
    apply IH; (exact Hn || lia).
Qed.

Lemma nth_settleAt_keep : forall A p q (v r : A) l,
  nth p l None = Some r -> nth p (settleAt q v l) None = Some r.
Proof.
  intros A p q v r l. revert p q. induction l as [|x l IH]; intros [|p] [|q] Hn;
    try destruct x; cbn in *; try discriminate; try assumption;
    apply IH; exact Hn.
Qed.

Lemma Forall_settleAt : forall A (P : option A -> Prop) p v l,
  Forall P l -> P (Some v) -> Forall P (settleAt p v l).
Proof.
  intros A P p v l Hl Hv. revert p.
  induction Hl as [|x l Hx Hl IH]; intros [|p]; try destruct x; cbn;
    try constructor; auto.
Qed.

Lemma nth_snoc_new : forall A (l : list (option A)) x,
  nth (List.length l) (l ++ [x]) None = x.
Proof.
  intros. rewrite app_nth2 by lia. now rewrite Nat.sub_diag.
Qed.

(** No exception of the [try] block reaches the boundary of the [async]
    function. *)
Lemma tryCatch_no_throw : forall c e, tryCatch c <> Throw e.
Proof. intros [v|e'|k] e; discriminate. Qed.

(** ** The invariant of the promises *)

Lemma fresh_wf : WF fresh.
Proof. split; [discriminate | constructor]. Qed.

Ltac good_status :=
  cbv [goodEntry goodStatus bs_isRunning bs_port bs_pid bs_error];
  first [ left; split; reflexivity
        | right; repeat split; discriminate ].

(** Projections of updated environments. *)
Ltac proj_simpl :=
  unfold settlement, settle in *;
  cbn [this task starts stops live nextHandle killTimers staleIntervals effects
       process port isRunning startupPromise
       with_this set_task set_starts set_stops set_live set_nextHandle
       set_killTimers set_staleIntervals emit settle settlement
       set_process set_port set_isRunning set_startupPromise
       onStdout onClose onError onCloseStop
       fst snd taskPromise] in *.

(** Unfolds one turn of the event loop in [H], deciding each test of the
    code as it is reached. *)
Ltac open_bstep H :=
  cbn [step] in H;
  repeat
    (unfold start, stop, _startInternal, forceKill, closeEvent, waitForPort,
       waitForHealthy, healthLoop, afterProbe, afterPort, isLive, onStdout in H;
     cbn [this task starts stops live nextHandle killTimers staleIntervals effects
          process port isRunning startupPromise
          with_this set_task set_starts set_stops set_live set_nextHandle
          set_killTimers set_staleIntervals emit
          set_process set_port set_isRunning set_startupPromise] in H;
     match type of H with
     | context [match task ?w with _ => _ end] => destruct (task w) eqn:?
     | context [match startupPromise ?m with _ => _ end] =>
         destruct (startupPromise m) eqn:?
     | context [if isRunning ?m then _ else _] => destruct (isRunning m) eqn:?
     | context [match port ?m with _ => _ end] => destruct (port m) eqn:?
     | context [match process ?m with _ => _ end] => destruct (process m) eqn:?
     | context [match killTimers ?w with _ => _ end] => destruct (killTimers w) eqn:?
     | context [match staleIntervals ?w with _ => _ end] =>
         destruct (staleIntervals w) eqn:?
     | context [if existsb ?f ?l then _ else _] => destruct (existsb f l) eqn:?
     | context [match announcedPort ?d with _ => _ end] =>
         destruct (announcedPort d) eqn:?
     | context [if Z.eqb ?a ?b then _ else _] => destruct (Z.eqb_spec a b)
     | context [if Z.ltb ?a ?b then _ else _] => destruct (Z.ltb_spec a b)
     | context [match ?x with _ => _ end] => is_var x; destruct x
     end);
  cbn [insideTry tryCatch finallyBlock asyncBoundary catchBlock fst snd] in H.

Lemma step_wf : forall ev w w', WF w -> step ev w = Some w' -> WF w'.
Proof.
  intros ev w w' [H1 H2] Hs.
  destruct ev; open_bstep Hs; try discriminate Hs; injection Hs as <-.
  all: split; proj_simpl.
  all: try assumption.
  all: try (intros q Hq; try discriminate Hq; try (injection Hq as <-);
            first [ destruct (H1 _ eq_refl) as (H1a & H1b & H1c)
                  | destruct (H1 _ Hq) as (H1a & H1b & H1c)
                  | idtac ]).
  all: try solve [repeat split; assumption].
  all: try solve [rewrite nth_snoc_new, length_app; cbn; repeat split; lia].
  all: repeat first
         [ assumption
         | apply Forall_settleAt
         | apply Forall_app; split
         | apply Forall_cons
         | apply Forall_nil
         | exact I
         | good_status ].
  all: try solve [repeat split; congruence].
  - left. split; [cbn; assumption | reflexivity].
  - match goal with Ht : task w = _ |- _ => rewrite Ht in Hq end.
    injection Hq as <-. repeat split; assumption.
Qed.

Ltac by_eval := vm_compute; reflexivity.

Lemma brun_app : forall a b w,
  run (a ++ b) w = match run a w with Some w1 => run b w1 | None => None end.
Proof.
  induction a as [|ev a IH]; intros b w; cbn [run app]; [reflexivity|].
  destruct (step ev w); [apply IH | reflexivity].
Qed.

Lemma run_wf : forall evs w w', WF w -> run evs w = Some w' -> WF w'.
Proof.
  induction evs as [|ev evs IH]; cbn [run]; intros w w' Hw Hr.
  - now injection Hr as <-.
  - destruct (step ev w) as [w1|] eqn:Hs; [|discriminate].
    eapply IH; [eapply step_wf; eassumption | exact Hr].
Qed.

(** ** The port *)

Lemma step_port : forall ev w w',
  step ev w = Some w' -> port (this w') = portStep ev (port (this w)).
Proof.
  intros ev w w' Hs.
  destruct ev; cbn [portStep]; open_bstep Hs; try discriminate Hs;
    injection Hs as <-; proj_simpl; try reflexivity; try congruence.
Qed.

Lemma run_port : forall evs w w',
  run evs w = Some w' -> port (this w') = portAfter evs (port (this w)).
Proof.
  induction evs as [|ev evs IH]; cbn [run]; intros w w' Hr.
  - now injection Hr as <-.
  - destruct (step ev w) as [w1|] eqn:Hs; [|discriminate].
    unfold portAfter. cbn [fold_left]. rewrite <- (step_port _ _ _ Hs).
    apply IH. exact Hr.
Qed.

Lemma announcedPort_spec : forall line,
  (hasAnnouncement line <-> exists n, announcedPort line = Some n) /\
  (forall n, announcedPort line = Some n ->
     exists pre ds rest,
       line = (pre ++ "PORT:" ++ ds ++ rest)%string /\ ds <> EmptyString /\
       allDigits ds = true /\ startsWithDigit rest = false /\
       ~ hasAnnouncement (pre ++ "PORT:")%string /\
       n = parseInt ds).
Proof.
  intros line. unfold announcedPort. rewrite StringFacts.matchPORT_trim. split.
  - split.
    + intros H. destruct (matchPORT line) as [ds|] eqn:Hm.
      * eexists. reflexivity.
      * exfalso. apply (proj1 (StringFacts.matchPORT_None line) Hm). exact H.
    + intros [n Hn]. destruct (matchPORT line) as [ds|] eqn:Hm; [|discriminate].
      destruct (StringFacts.matchPORT_Some _ _ Hm) as (pre & rest & Hs & Hne & Hall & _).
      destruct ds as [|d t]; [contradiction|].
      exists pre, d, (t ++ rest)%string. split; [exact Hs|].
      unfold allDigits in Hall. cbn in Hall. now apply andb_true_iff in Hall.
  - intros n Hn. destruct (matchPORT line) as [ds|] eqn:Hm; [|discriminate].
    injection Hn as <-.
    destruct (StringFacts.matchPORT_Some _ _ Hm)
      as (pre & rest & Hs & Hne & Hall & Hr & Hleft).
    exists pre, ds, rest. repeat split; assumption.
Qed.

Lemma feed_snoc : forall lines line m,
  feed (lines ++ [line]) m = onStdout line (feed lines m).
Proof. intros. unfold feed. rewrite fold_left_app. reflexivity. Qed.

Lemma announcedPort_line : forall line rest,
  announcedPort (line ++ String "010" rest) =
  match announcedPort line with
  | Some n => Some n
  | None => announcedPort rest
  end.
Proof.
  intros line rest. unfold announcedPort.
  rewrite !StringFacts.matchPORT_trim, StringFacts.matchPORT_line.
  destruct (matchPORT line); reflexivity.
Qed.

Lemma announcedPort_unlines : forall lines,
  announcedPort (unlines lines) = spec_discoveredPort lines.
Proof.
  induction lines as [|line rest IH]; [reflexivity|].
  cbn [unlines spec_discoveredPort]. rewrite announcedPort_line, IH. reflexivity.
Qed.

(** C2 (amended).  The [stdout] listener runs once per chunk of output,
    and a chunk can hold several lines.  A chunk that contains [PORT:]
    followed by a digit sets [this.port] to the number read from the digits
    after the leftmost such [PORT:] (as many as follow), also when a port
    was already known; a chunk without the pattern leaves the manager
    unchanged.  So within one chunk the first line that announces a port
    is taken and the later lines of that chunk are ignored, while over a
    sequence of chunks the last chunk that announces a port decides.  The
    lines "noise", "PORT:54321", "more noise" give port 54321, whether they
    come as three chunks or as one. *)
Theorem C2_first_in_chunk_last_chunk_wins :
  forall chunks chunk m,
    (~ hasAnnouncement chunk -> feed (chunks ++ [chunk]) m = feed chunks m) /\
    (hasAnnouncement chunk ->
       exists pre ds rest,
         chunk = (pre ++ "PORT:" ++ ds ++ rest)%string /\ ds <> EmptyString /\
         allDigits ds = true /\ startsWithDigit rest = false /\
         ~ hasAnnouncement (pre ++ "PORT:")%string /\
         port (feed (chunks ++ [chunk]) m) = Some (parseInt ds)) /\
    (forall line rest,
       announcedPort (line ++ String "010" rest) =
         match announcedPort line with
         | Some n => Some n
         | None => announcedPort rest
         end) /\
    (forall lines,
       announcedPort (unlines lines) = spec_discoveredPort lines /\
       port (feed (chunks ++ [unlines lines]) m) =
         match spec_discoveredPort lines with
         | Some n => Some n
         | None => port (feed chunks m)
         end) /\
    port (feed ["noise"; "PORT:54321"; "more noise"] initial) = Some 54321 /\
    port (feed [unlines ["noise"; "PORT:54321"; "more noise"]] initial) = Some 54321 /\
    port (feed [unlines ["PORT:54321"; "PORT:60000"]] initial) = Some 54321 /\
    port (feed [("PORT:54321" ++ String "010" "PORT:60000")%string] initial)
      = Some 54321 /\
    port (feed [unlines ["PORT:54321"]; unlines ["PORT:60000"]] initial) = Some 60000.
Proof.
  intros chunks chunk m. rewrite feed_snoc. unfold onStdout.
  destruct (announcedPort_spec chunk) as [Hiff Hval].
  split; [|split; [|split; [|split]]].
  - intros Hn. destruct (announcedPort chunk) as [n|] eqn:Ha; [|reflexivity].
    exfalso. apply Hn, Hiff. now exists n.
  - intros Hh. apply Hiff in Hh as [n Hn].
    destruct (Hval n Hn) as (pre & ds & rest & H1 & H2 & H3 & H4 & H5 & H6).
    rewrite Hn.
    exists pre, ds, rest. repeat split; try assumption.
    cbn. now rewrite H6.
  - apply announcedPort_line.
  - intros lines. split; [apply announcedPort_unlines|].
    rewrite feed_snoc. unfold onStdout. rewrite announcedPort_unlines.
    destruct (spec_discoveredPort lines); reflexivity.
  - repeat split; by_eval.
Qed.

Lemma has_announcement_demo : hasAnnouncement "PORT:60000".
Proof. exists EmptyString, "6"%char, "0000". split; reflexivity. Qed.

Lemma C2_first_in_chunk_last_chunk_wins_witness :
  hasAnnouncement "PORT:60000" /\
  exists pre ds rest,
    "PORT:60000" = (pre ++ "PORT:" ++ ds ++ rest)%string /\ ds <> EmptyString /\
    allDigits ds = true /\ startsWithDigit rest = false /\
    ~ hasAnnouncement (pre ++ "PORT:")%string /\
    port (feed (["PORT:54321"] ++ ["PORT:60000"]) initial) = Some (parseInt ds).
Proof.
  split; [exact has_announcement_demo|].
  exact (proj1 (proj2 (C2_first_in_chunk_last_chunk_wins
                         ["PORT:54321"] "PORT:60000" initial))
           has_announcement_demo).
Defined.

(** C2 as stated does not hold: a second announcement is not ignored
    when it comes in a chunk of its own.  After the chunks "PORT:54321",
    "PORT:60000" the port is 60000, where the first-match reading gives
    54321; and when both arrive before the next poll of [waitForPort],
    [start()] itself resolves with port 60000. *)
Lemma C2_later_announcement_overwrites :
  port (feed ["PORT:54321"; "PORT:60000"] initial) = Some 60000 /\
  spec_discoveredPort ["PORT:54321"; "PORT:60000"] = Some 54321 /\
  port (feed ["PORT:54321"; "PORT:60000"] initial)
    <> spec_discoveredPort ["PORT:54321"; "PORT:60000"] /\
  option_map (fun w => (port (this w), settlement w 0%nat))
    (run [CallStart (SpawnReturns (Some 4242)); StdoutData 0 "PORT:54321";
          StdoutData 0 "PORT:60000"; PortPoll 200; ProbeReply ProbeHealthy 300]
       fresh)
  = Some (Some 60000,
          Some (Fulfilled {| bs_isRunning := true; bs_port := Some 60000;
                             bs_pid := Some 4242; bs_error := None |})).
Proof. vm_compute. repeat split. discriminate. Qed.

(** C5 (amended).  When a child process emits [close], at any time and
    whether or not [stop()] was called, the running flag, the port and the
    process are cleared, so [getStatus()] then reports [isRunning = false],
    [port = null], [pid = null] and [getBaseUrl()] is [null].  The port
    that [getStatus()] reports after any sequence of events is the last
    announcement that no [close] or [error] event has followed, and [null]
    when there is none ([portAfter]); it does not depend on the running
    flag. *)
Theorem C5_exit_clears_state :
  (forall w h code w',
     step (ProcessClose h code) w = Some w' ->
     getStatus (this w') =
       {| bs_isRunning := false; bs_port := None; bs_pid := None; bs_error := None |} /\
     getBaseUrl (this w') = None /\
     process (this w') = None) /\
  (forall evs w w',
     run evs w = Some w' ->
     bs_port (getStatus (this w')) = portAfter evs (port (this w))).
Proof.
  split.
  - intros w h code w' Hs. open_bstep Hs; try discriminate Hs;
      injection Hs as <-; repeat split.
  - intros evs w w' Hr. cbn [getStatus bs_port]. apply run_port. exact Hr.
Qed.

Lemma C5_exit_clears_state_witness :
  step (ProcessClose 0 (Some 1)) (after demo_startup)
    = Some (after (demo_startup ++ [ProcessClose 0 (Some 1)])) /\
  isRunning (this (after demo_startup)) = true /\
  getStatus (this (after (demo_startup ++ [ProcessClose 0 (Some 1)]))) =
    {| bs_isRunning := false; bs_port := None; bs_pid := None; bs_error := None |}.
Proof.
  assert (H : step (ProcessClose 0 (Some 1)) (after demo_startup)
              = Some (after (demo_startup ++ [ProcessClose 0 (Some 1)]))) by by_eval.
  split; [exact H|]. split; [by_eval|].
  exact (proj1 (proj1 C5_exit_clears_state _ _ _ _ H)).
Defined.

(** C5 as stated does not hold in its last part: between the announcement
    and the next poll of [waitForPort], [getStatus()] reports the port
    54321 while [isRunning] is still false.  A port can even be reported
    while no process is tracked at all: when a first attempt timed out with
    its child 0 still alive, a second attempt spawned child 1, child 1
    exited and child 0 then announces its port. *)
Lemma C5_port_reported_before_running :
  option_map (fun w => getStatus (this w))
    (run [CallStart (SpawnReturns (Some 4242)); StdoutData 0 "PORT:54321"] fresh)
  = Some {| bs_isRunning := false; bs_port := Some 54321;
            bs_pid := Some 4242; bs_error := None |} /\
  option_map (fun w => (getStatus (this w), process (this w)))
    (run [CallStart (SpawnReturns (Some 4242)); PortTimeout;
          CallStart (SpawnReturns (Some 4243)); ProcessClose 1 (Some 1);
          StdoutData 0 "PORT:54321"] fresh)
  = Some ({| bs_isRunning := false; bs_port := Some 54321;
             bs_pid := None; bs_error := None |}, None).
Proof. split; by_eval. Qed.

(** ** Settled promises *)

Lemma nth_settle_new : forall A (v : A) (l : list (option A)),
  nth (List.length l) (settleAt (List.length l) v (l ++ [None])) None = Some v.
Proof.
  intros. apply nth_settleAt_eq.
  - apply nth_snoc_new.
  - rewrite length_app. cbn. lia.
Qed.

Lemma step_settled : forall ev w w' p r,
  step ev w = Some w' -> settlement w p = Some r -> settlement w' p = Some r.
Proof.
  intros ev w w' p r Hs Hp.
  assert (Hlt : (p < List.length (starts w))%nat).
  { unfold settlement in Hp. destruct (Nat.lt_ge_cases p (List.length (starts w)));
      [assumption|]. rewrite nth_overflow in Hp by assumption. discriminate. }
  destruct ev; open_bstep Hs; try discriminate Hs; injection Hs as <-;
    proj_simpl; try assumption;
    try (apply nth_settleAt_keep); try (rewrite app_nth1 by assumption);
    assumption.
Qed.

Lemma run_settled : forall evs w w' p r,
  run evs w = Some w' -> settlement w p = Some r -> settlement w' p = Some r.
Proof.
  induction evs as [|ev evs IH]; cbn [run]; intros w w' p r Hr Hp.
  - now injection Hr as <-.
  - destruct (step ev w) as [w1|] eqn:Hs; [|discriminate].
    eapply IH; [exact Hr | eapply step_settled; eassumption].
Qed.

Lemma reachable_wf : forall pre w, run pre fresh = Some w -> WF w.
Proof. intros pre w H. eapply run_wf; [apply fresh_wf | exact H]. Qed.

Lemma settled_good : forall w p r,
  WF w -> settlement w p = Some r -> exists st, r = Fulfilled st /\ goodStatus st.
Proof.
  intros w p r [_ Hall] Hp. unfold settlement in Hp.
  assert (Hin : In (Some r) (starts w)).
  { rewrite <- Hp. apply nth_In.
    destruct (Nat.lt_ge_cases p (List.length (starts w))); [assumption|].
    rewrite nth_overflow in Hp by assumption. discriminate. }
  rewrite Forall_forall in Hall. specialize (Hall _ Hin). cbn in Hall.
  destruct r as [st|e]; [|contradiction]. now exists st.
Qed.

(** C9.  [start()] never rejects.  In every state the manager can reach,
    every promise of [start()] that has settled is fulfilled with a status,
    and that status either has [isRunning = true] and no error, or has
    [isRunning = false], no port, no pid and an error message.  In
    particular: when [spawn] throws, the promise is fulfilled at once with
    the message of the exception; when the startup timeout fires while the
    port is awaited, it is fulfilled with "Backend did not announce port
    within timeout"; when the readiness loop finds its deadline passed, it
    is fulfilled with "Backend did not become healthy within timeout".
    An attempt in flight can always be ended by one timer-driven event, so
    the promise does settle. *)
Theorem C9_start_never_rejects :
  forall pre w,
    run pre fresh = Some w ->
    (forall p r, settlement w p = Some r ->
       exists st, r = Fulfilled st /\
         ((bs_isRunning st = true /\ bs_error st = None) \/
          (bs_isRunning st = false /\ bs_port st = None /\ bs_pid st = None /\
           bs_error st <> None))) /\
    (forall e,
       startupPromise (this w) = None -> isRunning (this w) = false ->
       settlement (fst (start (SpawnThrows e) w)) (snd (start (SpawnThrows e) w)) =
         Some (Fulfilled {| bs_isRunning := false; bs_port := None; bs_pid := None;
                            bs_error := Some (messageOf e) |})) /\
    (forall p pid,
       task w = AwaitPort p pid ->
       exists w',
         step PortTimeout w = Some w' /\
         settlement w' p =
           Some (Fulfilled {| bs_isRunning := false; bs_port := None; bs_pid := None;
                   bs_error := Some "Backend did not announce port within timeout" |})) /\
    (forall p port_ pid startTime healthUrl now,
       task w = AwaitRetry p port_ pid startTime healthUrl ->
       BACKEND_STARTUP_TIMEOUT_MS <= now - startTime ->
       exists w',
         step (RetryWake now) w = Some w' /\
         settlement w' p =
           Some (Fulfilled {| bs_isRunning := false; bs_port := None; bs_pid := None;
                   bs_error := Some "Backend did not become healthy within timeout" |})) /\
    (forall p,
       taskPromise (task w) = Some p ->
       exists ev w' st,
         step ev w = Some w' /\ settlement w' p = Some (Fulfilled st)).
Proof.
  intros pre w Hpre. pose proof (reachable_wf _ _ Hpre) as Hwf.
  split; [|split; [|split; [|split]]].
  - intros p r Hp. exact (settled_good _ _ _ Hwf Hp).
  - intros e Hsp Hrun. unfold start. rewrite Hsp. unfold _startInternal.
    cbn [this set_starts isRunning]. rewrite Hrun.
    cbn [insideTry tryCatch finallyBlock asyncBoundary fst snd].
    proj_simpl. apply nth_settle_new.
  - intros p pid Ht. destruct (wf_task _ Hwf p) as (_ & Hpend & Hlt);
      [rewrite Ht; reflexivity|].
    eexists. split; [cbn [step]; rewrite Ht; reflexivity|].
    cbn [insideTry tryCatch finallyBlock asyncBoundary fst snd]. proj_simpl.
    apply nth_settleAt_eq; assumption.
  - intros p port_ pid startTime healthUrl now Ht Hlate.
    destruct (wf_task _ Hwf p) as (_ & Hpend & Hlt); [rewrite Ht; reflexivity|].
    eexists. split; [cbn [step]; rewrite Ht; reflexivity|].
    unfold healthLoop. destruct (Z.ltb_spec (now - startTime) BACKEND_STARTUP_TIMEOUT_MS);
      [lia|].
    cbn [insideTry tryCatch finallyBlock asyncBoundary fst snd]. proj_simpl.
    apply nth_settleAt_eq; assumption.
  - (* a timer alone ends any attempt in flight *)
    intros p Hp. destruct (wf_task _ Hwf p Hp) as (_ & Hpend & Hlt).
    destruct (task w) as [|q pid|q port_ pid t0 url|q port_ pid t0 url] eqn:Ht;
      cbn [taskPromise] in Hp; try discriminate Hp; injection Hp as ->.
    + exists PortTimeout. eexists. eexists.
      split; [cbn [step]; rewrite Ht; reflexivity|].
      cbn [insideTry tryCatch finallyBlock asyncBoundary fst snd]. proj_simpl.
      apply nth_settleAt_eq; assumption.
    + exists (ProbeReply ProbeOther (t0 + BACKEND_STARTUP_TIMEOUT_MS)). eexists. eexists.
      split; [cbn [step]; rewrite Ht; reflexivity|].
      unfold afterProbe, healthLoop.
      destruct (Z.ltb_spec (t0 + BACKEND_STARTUP_TIMEOUT_MS - t0)
                  BACKEND_STARTUP_TIMEOUT_MS); [lia|].
      cbn [insideTry tryCatch finallyBlock asyncBoundary fst snd]. proj_simpl.
      apply nth_settleAt_eq; assumption.
    + exists (RetryWake (t0 + BACKEND_STARTUP_TIMEOUT_MS)). eexists. eexists.
      split; [cbn [step]; rewrite Ht; reflexivity|].
      unfold healthLoop.
      destruct (Z.ltb_spec (t0 + BACKEND_STARTUP_TIMEOUT_MS - t0)
                  BACKEND_STARTUP_TIMEOUT_MS); [lia|].
      cbn [insideTry tryCatch finallyBlock asyncBoundary fst snd]. proj_simpl.
      apply nth_settleAt_eq; assumption.
Qed.

(** ** The first steps of an attempt, and a promise left stored *)

Lemma start_idle : forall w pid w1,
  startupPromise (this w) = None -> isRunning (this w) = false ->
  step (CallStart (SpawnReturns pid)) w = Some w1 ->
  task w1 = AwaitPort (List.length (starts w)) (orNull pid) /\
  port (this w1) = port (this w) /\
  isRunning (this w1) = false /\
  process (this w1) = Some {| handle := nextHandle w; cp_pid := pid |} /\
  live w1 = nextHandle w :: live w /\
  nextHandle w1 = S (nextHandle w) /\
  startupPromise (this w1) = Some (List.length (starts w)) /\
  starts w1 = starts w ++ [None] /\
  effects w1 =
    [StartReturned (List.length (starts w)); SetInterval 100;
     SetTimeout BACKEND_STARTUP_TIMEOUT_MS;
     Spawn {| handle := nextHandle w; cp_pid := pid |}] ++ effects w.
Proof.
  intros w pid w1 Hsp Hrun Hs.
  cbn [step] in Hs. unfold start in Hs. rewrite Hsp in Hs.
  unfold _startInternal in Hs. cbn [this set_starts isRunning] in Hs.
  rewrite Hrun in Hs.
  cbn [insideTry tryCatch finallyBlock asyncBoundary fst snd] in Hs.
  injection Hs as <-. unfold waitForPort. proj_simpl.
  repeat split; assumption.
Qed.

(** The tick of [waitForPort] that sees port [n], lines 160-166 and
    120-124, then [waitForHealthy] up to its first request. *)
Lemma poll_sees_port : forall w p pid n now w1,
  task w = AwaitPort p pid -> port (this w) = Some n -> n <> 0 ->
  step (PortPoll now) w = Some w1 ->
  task w1 = AwaitProbe p n pid now (healthUrlOf n) /\
  isRunning (this w1) = true /\ port (this w1) = Some n /\
  process (this w1) = process (this w) /\ live w1 = live w /\
  startupPromise (this w1) = startupPromise (this w) /\
  starts w1 = starts w /\
  effects w1 = HttpGet (healthUrlOf n) 2000 :: effects w.
Proof.
  intros w p pid n now w1 Ht Hport Hn Hs.
  cbn [step] in Hs. rewrite Ht, Hport in Hs.
  unfold afterPort, waitForHealthy in Hs.
  cbn [this with_this port set_isRunning] in Hs. rewrite Hport in Hs.
  destruct (Z.eqb_spec n 0) as [Hz|_]; [contradiction|].
  unfold healthLoop in Hs. rewrite Z.sub_diag in Hs.
  change (0 <? BACKEND_STARTUP_TIMEOUT_MS) with true in Hs.
  cbn [insideTry tryCatch finallyBlock asyncBoundary fst snd] in Hs.
  injection Hs as <-. proj_simpl. repeat split; assumption.
Qed.

Lemma step_cached : forall ev w w' p,
  Cached p w -> step ev w = Some w' ->
  Cached p w' /\ spawned w' = spawned w /\ starts w' = starts w.
Proof.
  intros ev w w' p [Hsp Ht] Hs. unfold Cached, spawned.
  destruct ev; cbn [step] in Hs; rewrite ?Ht in Hs;
    unfold start in Hs; rewrite ?Hsp in Hs;
    open_bstep Hs; try discriminate Hs; injection Hs as <-; proj_simpl;
    repeat split; assumption.
Qed.

Lemma run_cached : forall evs w w' p,
  Cached p w -> run evs w = Some w' ->
  Cached p w' /\ spawned w' = spawned w /\ starts w' = starts w.
Proof.
  induction evs as [|ev evs IH]; cbn [run]; intros w w' p Hc Hr.
  - injection Hr as <-. repeat split; try reflexivity; apply Hc.
  - destruct (step ev w) as [w1|] eqn:Hs; [|discriminate].
    destruct (step_cached _ _ _ _ Hc Hs) as (Hc1 & Ha & Hb).
    destruct (IH _ _ _ Hc1 Hr) as (Hc2 & Ha2 & Hb2).
    repeat split; try apply Hc2; congruence.
Qed.

(** ** A start attempt in flight *)






(** ** Waiting for the port *)

Lemma step_await_port : forall ev w w' p pid,
  WF w -> task w = AwaitPort p pid -> port (this w) = None ->
  isRunning (this w) = false ->
  announces ev = false -> isPortTimeout ev = false ->
  step ev w = Some w' ->
  task w' = AwaitPort p pid /\ port (this w') = None /\
  isRunning (this w') = false /\ probeCount w' = probeCount w.
Proof.
  intros ev w w' p pid [H1 _] Ht Hport Hrun Ha Hto Hs.
  destruct (H1 p) as (Hsp & _); [rewrite Ht; reflexivity|].
  destruct ev; cbn [announces isPortTimeout] in Ha, Hto; try discriminate Hto;
    open_bstep Hs; try discriminate Hs; try congruence;
    injection Hs as <-; unfold probeCount; proj_simpl; repeat split;
    try assumption; try congruence.
Qed.

Lemma run_await_port : forall evs w w' p pid,
  WF w -> task w = AwaitPort p pid -> port (this w) = None ->
  isRunning (this w) = false ->
  existsb announces evs = false -> existsb isPortTimeout evs = false ->
  run evs w = Some w' ->
  task w' = AwaitPort p pid /\ port (this w') = None /\
  isRunning (this w') = false /\ probeCount w' = probeCount w.
Proof.
  induction evs as [|ev evs IH]; cbn [run existsb];
    intros w w' p pid Hwf Ht Hport Hrun Ha Hto Hr.
  - injection Hr as <-. repeat split; assumption.
  - apply orb_false_iff in Ha as [Ha1 Ha2]. apply orb_false_iff in Hto as [Hto1 Hto2].
    destruct (step ev w) as [w1|] eqn:Hs; [|discriminate].
    destruct (step_await_port _ _ _ _ _ Hwf Ht Hport Hrun Ha1 Hto1 Hs)
      as (Ht1 & Hp1 & Hr1 & Hc1).
    destruct (IH w1 w' p pid (step_wf _ _ _ Hwf Hs) Ht1 Hp1 Hr1 Ha2 Hto2 Hr)
      as (Ht2 & Hp2 & Hr2 & Hc2).
    repeat split; try assumption. congruence.
Qed.

(** C4 (amended).  On an idle manager with no port recorded (as on a
    new manager and after every [close] or [error] event of a child), if no
    chunk of output carries an announcement before the startup timeout
    (armed with 30000 ms) fires, the promise of [start()] is fulfilled with
    [isRunning = false] and the error "Backend did not announce port within
    timeout", the manager is not running, and no readiness request was
    issued during the run.  [start()] does not clear [this.port]: when a
    port [n] other than 0 is still recorded, the first tick of the poll
    takes it although nothing was announced since the call, the manager is
    marked as running and a readiness request is sent to port [n]; a healthy
    reply then fulfils the promise with [isRunning = true]. *)
Theorem C4_startup_timeout :
  forall pre w pid,
    run pre fresh = Some w ->
    startupPromise (this w) = None ->
    isRunning (this w) = false ->
    (forall evs w',
       port (this w) = None ->
       existsb announces evs = false ->
       existsb isPortTimeout evs = false ->
       run (CallStart (SpawnReturns pid) :: evs ++ [PortTimeout]) w = Some w' ->
       settlement w' (List.length (starts w)) =
         Some (Fulfilled {| bs_isRunning := false; bs_port := None; bs_pid := None;
                 bs_error := Some "Backend did not announce port within timeout" |}) /\
       probeCount w' = probeCount w /\
       task w' = NoTask /\
       isRunning (this w') = false /\
       (exists w1, step (CallStart (SpawnReturns pid)) w = Some w1 /\
                   In (SetTimeout 30000) (effects w1))) /\
    (forall n now w',
       port (this w) = Some n -> n <> 0 ->
       run [CallStart (SpawnReturns pid); PortPoll now] w = Some w' ->
       isRunning (this w') = true /\
       probeCount w' = S (probeCount w) /\
       effects w' =
         HttpGet (healthUrlOf n) 2000 ::
         [StartReturned (List.length (starts w)); SetInterval 100;
          SetTimeout BACKEND_STARTUP_TIMEOUT_MS;
          Spawn {| handle := nextHandle w; cp_pid := pid |}] ++ effects w /\
       exists w'',
         step (ProbeReply ProbeHealthy now) w' = Some w'' /\
         settlement w'' (List.length (starts w)) =
           Some (Fulfilled (started n (orNull pid)))) /\
    port (this fresh) = None /\
    (forall h code w0 w1,
       step (ProcessClose h code) w0 = Some w1 -> port (this w1) = None) /\
    (forall h w0 w1,
       step (ProcessError h) w0 = Some w1 -> port (this w1) = None).
Proof.
  intros pre w pid Hpre Hsp Hrun.
  pose proof (reachable_wf _ _ Hpre) as Hwf.
  split; [|split; [|split; [|split]]].
  - intros evs w' Hport Ha Hto Hr.
    cbn [run] in Hr.
    destruct (step (CallStart (SpawnReturns pid)) w) as [w1|] eqn:Hs; [|discriminate].
    pose proof (step_wf _ _ _ Hwf Hs) as Hwf1.
    assert (Hw1 : task w1 = AwaitPort (List.length (starts w)) (orNull pid) /\
                  port (this w1) = None /\ isRunning (this w1) = false /\
                  probeCount w1 = probeCount w /\ In (SetTimeout 30000) (effects w1)).
    { cbn [step] in Hs. unfold start in Hs. rewrite Hsp in Hs.
      unfold _startInternal in Hs. cbn [this set_starts isRunning] in Hs.
      rewrite Hrun in Hs.
      cbn [insideTry tryCatch finallyBlock asyncBoundary fst snd] in Hs.
      injection Hs as <-. unfold waitForPort, probeCount. proj_simpl.
      repeat split; try assumption. cbn. tauto. }
    destruct Hw1 as (Ht1 & Hp1 & Hr1 & Hc1 & Hin).
    rewrite brun_app in Hr.
    destruct (run evs w1) as [w2|] eqn:Hr2; [|discriminate].
    destruct (run_await_port _ _ _ _ _ Hwf1 Ht1 Hp1 Hr1 Ha Hto Hr2)
      as (Ht2 & Hp2 & Hrn2 & Hc2).
    pose proof (run_wf _ _ _ Hwf1 Hr2) as Hwf2.
    destruct (wf_task _ Hwf2 (List.length (starts w))) as (_ & Hpend & Hlt);
      [rewrite Ht2; reflexivity|].
    cbn [run step] in Hr. rewrite Ht2 in Hr.
    cbn [insideTry tryCatch finallyBlock asyncBoundary fst snd] in Hr.
    injection Hr as <-. unfold probeCount in *. proj_simpl.
    split; [apply nth_settleAt_eq; assumption|].
    split; [congruence|]. split; [reflexivity|]. split; [assumption|].
    exists w1. split; [reflexivity | exact Hin].
  - intros n now w' Hport Hn Hr. cbn [run] in Hr.
    destruct (step (CallStart (SpawnReturns pid)) w) as [w1|] eqn:Hs1; [|discriminate].
    pose proof (step_wf _ _ _ Hwf Hs1) as Hwf1.
    destruct (start_idle _ _ _ Hsp Hrun Hs1)
      as (Ht1 & Hp1 & _ & Hpr1 & _ & _ & _ & _ & He1).
    rewrite Hport in Hp1.
    destruct (step (PortPoll now) w1) as [w2|] eqn:Hs2; [|discriminate].
    injection Hr as <-.
    pose proof (step_wf _ _ _ Hwf1 Hs2) as Hwf2.
    destruct (poll_sees_port _ _ _ _ _ _ Ht1 Hp1 Hn Hs2)
      as (Ht2 & Hr2 & Hp2 & Hpr2 & _ & _ & _ & He2).
    split; [exact Hr2|].
    split; [unfold probeCount; rewrite He2, He1; reflexivity|].
    split; [rewrite He2, He1; reflexivity|].
    destruct (wf_task _ Hwf2 (List.length (starts w))) as (_ & Hpend & Hlt);
      [rewrite Ht2; reflexivity|].
    eexists. split; [cbn [step]; rewrite Ht2; reflexivity|].
    cbn [afterProbe insideTry tryCatch finallyBlock asyncBoundary fst snd].
    proj_simpl. apply nth_settleAt_eq; assumption.
  - reflexivity.
  - intros h code w0 w1 Hs. open_bstep Hs; try discriminate Hs;
      injection Hs as <-; reflexivity.
  - intros h w0 w1 Hs. open_bstep Hs; try discriminate Hs;
      injection Hs as <-; reflexivity.
Qed.

(** C4 as stated does not hold.  A first attempt times out and its child
    announces port 54321 afterwards; [start()] is called again and the new
    child prints nothing: no announcement appears after that call, yet the
    first tick of the poll takes the recorded port, a readiness request is
    sent, and the promise is fulfilled with [isRunning = true]. *)
Lemma C4_stale_port_is_probed :
  existsb announces demo_silent_restart = false /\
  option_map
    (fun w => (settlement w 0%nat, settlement w 1%nat, probeCount w,
               isRunning (this w)))
    (run (demo_stale_port ++ demo_silent_restart) fresh)
  = Some (Some (Fulfilled {| bs_isRunning := false; bs_port := None; bs_pid := None;
                  bs_error := Some "Backend did not announce port within timeout" |}),
          Some (Fulfilled {| bs_isRunning := true; bs_port := Some 54321;
                             bs_pid := Some 4243; bs_error := None |}),
          1%nat, true).
Proof. split; by_eval. Qed.

(** ** The readiness wait *)

Lemma step_probing : forall ev w w' p,
  WF w -> probing p (task w) -> isProbeEvent ev = true ->
  step ev w = Some w' ->
  process (this w') = process (this w) /\
  port (this w') = port (this w) /\
  isRunning (this w') = isRunning (this w) /\
  (probing p (task w') \/
   (task w' = NoTask /\ startupPromise (this w') = None /\
    (settlement w' p = Some (failed healthTimeoutError) \/
     exists port_ pid,
       settlement w' p =
         Some (Fulfilled {| bs_isRunning := true; bs_port := Some port_;
                            bs_pid := pid; bs_error := None |})))).
Proof.
  intros ev w w' p [H1 _] Hpr Hev Hs.
  destruct ev; try discriminate Hev; open_bstep Hs; try discriminate Hs;
    cbn [probing taskPromise] in Hpr, H1; try contradiction; subst;
    destruct (H1 _ eq_refl) as (_ & Hpend & Hlt);
    injection Hs as <-; proj_simpl; repeat split;
    try (left; reflexivity).
  all: right; repeat split.
  all: try (left; apply nth_settleAt_eq; assumption).
  all: right; eexists _, _; apply nth_settleAt_eq; assumption.
Qed.

Lemma run_probing : forall evs w w' p,
  WF w -> probing p (task w) -> forallb isProbeEvent evs = true ->
  run evs w = Some w' ->
  process (this w') = process (this w) /\
  port (this w') = port (this w) /\
  isRunning (this w') = isRunning (this w) /\
  (probing p (task w') \/
   (task w' = NoTask /\ startupPromise (this w') = None /\
    (settlement w' p = Some (failed healthTimeoutError) \/
     exists port_ pid,
       settlement w' p =
         Some (Fulfilled {| bs_isRunning := true; bs_port := Some port_;
                            bs_pid := pid; bs_error := None |})))).
Proof.
  induction evs as [|ev evs IH]; cbn [run forallb]; intros w w' p Hwf Hpr Hev Hr.
  - injection Hr as <-. repeat split. left. exact Hpr.
  - apply andb_true_iff in Hev as [Hev1 Hev2].
    destruct (step ev w) as [w1|] eqn:Hs; [|discriminate].
    destruct (step_probing _ _ _ _ Hwf Hpr Hev1 Hs) as (Ha & Hb & Hc & Hd).
    destruct Hd as [Hpr1|(Ht1 & Hsp1 & Hset1)].
    + destruct (IH w1 w' p (step_wf _ _ _ Hwf Hs) Hpr1 Hev2 Hr) as (Ha' & Hb' & Hc' & Hd').
      repeat split; first [congruence | exact Hd'].
    + destruct evs as [|ev2 evs].
      * injection Hr as <-. repeat split; try assumption. right. repeat split; assumption.
      * exfalso. cbn [run forallb] in Hr, Hev2.
        apply andb_true_iff in Hev2 as [Hev2 _].
        destruct ev2; try discriminate Hev2; cbn [step] in Hr; rewrite Ht1 in Hr;
          discriminate Hr.
Qed.

(** C10.  When the port [n] has been announced and the readiness wait then
    ends in its timeout (the process stays alive meanwhile: only replies of
    the readiness requests and ends of the pauses occur), [start()] is
    fulfilled with the failed status ([isRunning = false], no port, no
    pid), yet the manager keeps [isRunning = true], the port [n] and the
    tracked process: [getStatus()] reports [isRunning = true] with port [n],
    and [getBaseUrl()] is the URL of port [n].  Only the stored startup
    promise is cleared. *)
Theorem C10_failed_readiness_keeps_state :
  forall pre w p pid n now evs w' st,
    run pre fresh = Some w ->
    task w = AwaitPort p pid ->
    port (this w) = Some n ->
    forallb isProbeEvent evs = true ->
    run (PortPoll now :: evs) w = Some w' ->
    settlement w' p = Some (Fulfilled st) ->
    bs_error st = Some "Backend did not become healthy within timeout" ->
    bs_isRunning st = false /\ bs_port st = None /\ bs_pid st = None /\
    isRunning (this w') = true /\
    port (this w') = Some n /\
    process (this w') = process (this w) /\
    getStatus (this w') =
      {| bs_isRunning := true; bs_port := Some n;
         bs_pid := orNull (match process (this w) with
                           | Some c => cp_pid c
                           | None => None
                           end);
         bs_error := None |} /\
    getBaseUrl (this w') = Some ("http://127.0.0.1:" ++ numberToString n)%string /\
    startupPromise (this w') = None /\
    task w' = NoTask.
Proof.
  intros pre w p pid n now evs w' st Hpre Ht Hport Hev Hr Hset Herr.
  pose proof (reachable_wf _ _ Hpre) as Hwf.
  destruct (wf_task _ Hwf p) as (_ & Hpend & Hlt); [rewrite Ht; reflexivity|].
  cbn [run] in Hr.
  destruct (step (PortPoll now) w) as [w1|] eqn:Hs; [|discriminate].
  pose proof (step_wf _ _ _ Hwf Hs) as Hwf1.
  cbn [step] in Hs. rewrite Ht, Hport in Hs.
  unfold afterPort, waitForHealthy in Hs.
  cbn [this with_this port set_isRunning] in Hs. rewrite Hport in Hs.
  destruct (Z.eqb_spec n 0) as [Hz|Hnz].
  - (* port 0: [waitForHealthy] throws at once, with another message *)
    exfalso.
    cbn [insideTry tryCatch finallyBlock asyncBoundary fst snd] in Hs.
    injection Hs as <-.
    assert (Hs1 : settlement
              (set_task NoTask
                 (settle p (Fulfilled (catchBlock portUnavailableError))
                    (with_this (set_startupPromise None)
                       (with_this (set_isRunning true) w)))) p =
              Some (failed portUnavailableError)).
    { proj_simpl. apply nth_settleAt_eq; assumption. }
    rewrite (run_settled _ _ _ _ _ Hr Hs1) in Hset.
    injection Hset as <-. discriminate Herr.
  - unfold healthLoop in Hs. rewrite Z.sub_diag in Hs.
    change (0 <? BACKEND_STARTUP_TIMEOUT_MS) with true in Hs.
    cbn [insideTry tryCatch finallyBlock asyncBoundary fst snd] in Hs.
    injection Hs as Hw1.
    assert (Hf : process (this w1) = process (this w) /\ port (this w1) = Some n /\
                 isRunning (this w1) = true /\ probing p (task w1)).
    { rewrite <- Hw1. proj_simpl. repeat split; first [assumption | reflexivity]. }
    destruct Hf as (Hf1 & Hf2 & Hf3 & Hf4).
    destruct (run_probing _ _ _ _ Hwf1 Hf4 Hev Hr) as (Ha & Hb & Hc & Hd).
    rewrite Hf1 in Ha. rewrite Hf2 in Hb. rewrite Hf3 in Hc.
    destruct Hd as [Hpr|(Htask & Hsp & Hres)].
    + (* still probing: the promise would be pending *)
      exfalso. pose proof (run_wf _ _ _ Hwf1 Hr) as Hwf'.
      destruct (task w') eqn:Ht'; cbn [probing] in Hpr; try contradiction; subst;
        (destruct (wf_task _ Hwf' p) as (_ & Hpend' & _);
         [rewrite Ht'; reflexivity | congruence]).
    + destruct Hres as [Hfail|(port_ & pid_ & Hok)].
      * rewrite Hfail in Hset. injection Hset as <-.
        repeat split; try assumption.
        -- unfold getStatus. rewrite Ha, Hb, Hc. reflexivity.
        -- unfold getBaseUrl. rewrite Hb. cbn [truthy option_map].
           destruct (Z.eqb_spec n 0); [contradiction | reflexivity].
      * exfalso. rewrite Hok in Hset. injection Hset as <-. discriminate Herr.
Qed.

(** ** Stopping *)

Lemma step_quiescent : forall ev w w', Quiescent w -> step ev w = Some w' -> Quiescent w'.
Proof.
  intros ev w w' Hq Hs. unfold Quiescent in *.
  destruct ev; open_bstep Hs; try discriminate Hs; injection Hs as <-;
    proj_simpl; try exact Hq; try (intros; discriminate);
    try (intros _; repeat split; fail);
    try (intros Hl; destruct (Hq Hl) as (Ha & Hb & Hc); repeat split; congruence).
  intros Hl. rewrite Hl in *. discriminate.
Qed.

Lemma reachable_quiescent : forall pre w, run pre fresh = Some w -> Quiescent w.
Proof.
  intros pre. assert (H : forall w0 w, Quiescent w0 -> run pre w0 = Some w -> Quiescent w).
  { induction pre as [|ev pre IH]; cbn [run]; intros w0 w Hq Hr.
    - now injection Hr as <-.
    - destruct (step ev w0) as [w1|] eqn:Hs; [|discriminate].
      eapply IH; [eapply step_quiescent; eassumption | exact Hr]. }
  intros w Hr. apply (H fresh w); [|exact Hr]. intros _. repeat split.
Qed.

Lemma nth_error_resolveStops_other : forall h h' l p,
  h <> h' -> nth_error l p = Some (Some h, false) ->
  nth_error (resolveStops h' l) p = Some (Some h, false).
Proof.
  intros h h' l p Hne Hn. unfold resolveStops.
  rewrite nth_error_map, Hn. cbn.
  destruct (Nat.eqb_spec h' h); [congruence | reflexivity].
Qed.

Lemma nth_error_resolveStops_same : forall h l p,
  nth_error l p = Some (Some h, false) ->
  nth_error (resolveStops h l) p = Some (Some h, true).
Proof.
  intros h l p Hn. unfold resolveStops.
  rewrite nth_error_map, Hn. cbn. now rewrite Nat.eqb_refl.
Qed.

Lemma step_stop_pending : forall ev w w' p h,
  nth_error (stops w) p = Some (Some h, false) ->
  isCloseOf h ev = false -> step ev w = Some w' ->
  nth_error (stops w') p = Some (Some h, false).
Proof.
  intros ev w w' p h Hn Hev Hs.
  assert (Hlt : (p < List.length (stops w))%nat)
    by (apply nth_error_Some; congruence).
  destruct ev; cbn [isCloseOf] in Hev; open_bstep Hs; try discriminate Hs;
    injection Hs as <-; proj_simpl; try assumption;
    try (rewrite nth_error_app1 by assumption; assumption);
    apply nth_error_resolveStops_other; try assumption;
    intros ->; rewrite Nat.eqb_refl in Hev; discriminate.
Qed.

Lemma run_stop_pending : forall evs w w' p h,
  nth_error (stops w) p = Some (Some h, false) ->
  existsb (isCloseOf h) evs = false -> run evs w = Some w' ->
  nth_error (stops w') p = Some (Some h, false).
Proof.
  induction evs as [|ev evs IH]; cbn [run existsb]; intros w w' p h Hn Hev Hr.
  - now injection Hr as <-.
  - apply orb_false_iff in Hev as [Hev1 Hev2].
    destruct (step ev w) as [w1|] eqn:Hs; [|discriminate].
    eapply IH; [eapply step_stop_pending; eassumption | exact Hev2 | exact Hr].
Qed.

Lemma step_grace : forall ev w w',
  graceEvent ev = true -> step ev w = Some w' ->
  process (this w') = process (this w) /\ (killTimers w <= killTimers w')%nat.
Proof.
  intros ev w w' Hev Hs.
  destruct ev; try discriminate Hev; open_bstep Hs; try discriminate Hs;
    injection Hs as <-; proj_simpl; split; try reflexivity; try lia; congruence.
Qed.

Lemma run_grace : forall evs w w',
  forallb graceEvent evs = true -> run evs w = Some w' ->
  process (this w') = process (this w) /\ (killTimers w <= killTimers w')%nat.
Proof.
  induction evs as [|ev evs IH]; cbn [run forallb]; intros w w' Hev Hr.
  - injection Hr as <-. split; [reflexivity | lia].
  - apply andb_true_iff in Hev as [Hev1 Hev2].
    destruct (step ev w) as [w1|] eqn:Hs; [|discriminate].
    destruct (step_grace _ _ _ Hev1 Hs) as [Ha Hb].
    destruct (IH _ _ Hev2 Hr) as [Ha' Hb']. split; [congruence | lia].
Qed.

Lemma step_timer_armed : forall ev w w',
  isKillTimer ev = false -> step ev w = Some w' ->
  (killTimers w <= killTimers w')%nat.
Proof.
  intros ev w w' Hev Hs.
  destruct ev; try discriminate Hev; open_bstep Hs; try discriminate Hs;
    injection Hs as <-; proj_simpl; lia.
Qed.

Lemma run_timer_armed : forall evs w w',
  existsb isKillTimer evs = false -> run evs w = Some w' ->
  (killTimers w <= killTimers w')%nat.
Proof.
  induction evs as [|ev evs IH]; cbn [run existsb]; intros w w' Hev Hr.
  - injection Hr as <-. lia.
  - apply orb_false_iff in Hev as [Hev1 Hev2].
    destruct (step ev w) as [w1|] eqn:Hs; [|discriminate].
    pose proof (step_timer_armed _ _ _ Hev1 Hs).
    pose proof (IH _ _ Hev2 Hr). lia.
Qed.

(** C8 (amended).  With a process tracked, [stop()] sends SIGTERM to it
    (and no other signal), arms the 5000 ms timer and returns a pending
    promise; the fields of the manager are untouched.  When the timer
    fires, SIGKILL is sent to whatever process is tracked at that moment,
    and to none when [this.process] is [null] then: it goes to the stopped
    process when no child has exited and [start()] was not called since
    [stop()].  The promise stays pending until the stopped process emits
    [close]; at that event it is resolved and the running flag, the port
    and the process are cleared.  With no process tracked, [stop()] returns
    a resolved promise and changes nothing: the running flag and the port
    stay as they are, and they are clear whenever no spawned child is still
    alive. *)
Theorem C8_stop_graceful_then_forced :
  forall pre w,
    run pre fresh = Some w ->
    (forall c,
       process (this w) = Some c ->
       exists w1,
         stop w = (w1, List.length (stops w)) /\
         effects w1 = SetTimeout 5000 :: Kill (handle c) SIGTERM :: effects w /\
         this w1 = this w /\
         nth_error (stops w1) (List.length (stops w)) = Some (Some (handle c), false) /\
         (forall evs w2,
            existsb isKillTimer evs = false -> run evs w1 = Some w2 ->
            exists w3,
              step KillTimer w2 = Some w3 /\
              effects w3 =
                match process (this w2) with
                | Some c' => Kill (handle c') SIGKILL :: effects w2
                | None => effects w2
                end /\
              this w3 = this w2 /\ stops w3 = stops w2 /\
              (forallb graceEvent evs = true -> process (this w2) = Some c)) /\
         (forall evs w2,
            existsb (isCloseOf (handle c)) evs = false -> run evs w1 = Some w2 ->
            nth_error (stops w2) (List.length (stops w)) =
              Some (Some (handle c), false) /\
            forall code w3,
              step (ProcessClose (handle c) code) w2 = Some w3 ->
              nth_error (stops w3) (List.length (stops w)) =
                Some (Some (handle c), true) /\
              isRunning (this w3) = false /\ port (this w3) = None /\
              process (this w3) = None)) /\
    (process (this w) = None ->
     exists w1,
       stop w = (w1, List.length (stops w)) /\
       nth_error (stops w1) (List.length (stops w)) = Some (None, true) /\
       this w1 = this w /\ effects w1 = effects w /\ live w1 = live w /\
       (live w = [] -> isRunning (this w1) = false /\ port (this w1) = None)) /\
    (forall w2 w3,
       step KillTimer w2 = Some w3 ->
       effects w3 =
         match process (this w2) with
         | Some c' => Kill (handle c') SIGKILL :: effects w2
         | None => effects w2
         end /\
       this w3 = this w2 /\ stops w3 = stops w2 /\ live w3 = live w2).
Proof.
  intros pre w Hpre. split; [|split].
  - intros c Hc. unfold stop. rewrite Hc.
    eexists. split; [reflexivity|].
    assert (Hn : nth_error
                   (stops
                      (set_killTimers
                         (S (killTimers
                               (emit (Kill (handle c) SIGTERM)
                                  (set_stops (stops w ++ [(Some (handle c), false)]) w))))
                         (emit (SetTimeout 5000)
                            (emit (Kill (handle c) SIGTERM)
                               (set_stops (stops w ++ [(Some (handle c), false)]) w)))))
                   (List.length (stops w)) = Some (Some (handle c), false)).
    { proj_simpl. rewrite nth_error_app2 by lia. now rewrite Nat.sub_diag. }
    split; [reflexivity|]. split; [reflexivity|]. split; [exact Hn|]. split.
    + intros evs w2 Hev Hr. pose proof (run_timer_armed _ _ _ Hev Hr) as Hk.
      proj_simpl. cbn [step]. destruct (killTimers w2) as [|k] eqn:Hk2; [lia|].
      eexists. split; [reflexivity|]. unfold forceKill.
      cbn [this set_killTimers].
      split; [destruct (process (this w2)); reflexivity|].
      split; [destruct (process (this w2)); reflexivity|].
      split; [destruct (process (this w2)); reflexivity|].
      intros Hg. destruct (run_grace _ _ _ Hg Hr) as [Hp _].
      proj_simpl. rewrite Hp. exact Hc.
    + intros evs w2 Hev Hr.
      pose proof (run_stop_pending _ _ _ _ _ Hn Hev Hr) as Hn2.
      split; [exact Hn2|]. intros code w3 Hs.
      open_bstep Hs; try discriminate Hs; injection Hs as <-; proj_simpl;
        (split; [apply nth_error_resolveStops_same; exact Hn2 | repeat split]).
  - intros Hnone. unfold stop. rewrite Hnone.
    eexists. split; [reflexivity|]. proj_simpl.
    split; [rewrite nth_error_app2 by lia; now rewrite Nat.sub_diag|].
    split; [reflexivity|]. split; [reflexivity|]. split; [reflexivity|].
    intros Hl. destruct (reachable_quiescent _ _ Hpre Hl) as (_ & Hb & Hc).
    split; assumption.
  - intros w2 w3 Hs. cbn [step] in Hs.
    destruct (killTimers w2); [discriminate Hs|]. injection Hs as <-.
    unfold forceKill. cbn [this set_killTimers].
    destruct (process (this w2)); repeat split.
Qed.

(** C8 as stated does not hold.  First run: child 0 of a timed-out
    attempt exits while a second attempt waits for the port of child 1, so
    the manager ends up running on port 5000 with no process tracked;
    [stop()] then resolves at once, sends no signal, and leaves
    [isRunning = true] and the port in place while child 1 runs on.  Second
    run: the second attempt succeeds with child 1 tracked and [stop()] sends
    it SIGTERM; child 0 exits during the grace period, which clears
    [this.process]; when the timer fires no SIGKILL is sent, child 1 is
    still alive and the promise of [stop()] is still pending. *)
Lemma C8_stop_without_kill_or_clearing :
  option_map
    (fun w => (process (this w), live w,
               nth_error (stops (fst (stop w))) 0,
               isRunning (this (fst (stop w))), port (this (fst (stop w))),
               signals (fst (stop w))))
    (run demo_untracked fresh)
  = Some (None, [1%nat], Some (None, true), true, Some 5000, []) /\
  option_map
    (fun w => (process (this w), live w, nth_error (stops w) 0,
               signals w, filter isSigkill (effects w), killTimers w))
    (run (demo_second_attempt ++ [CallStop; ProcessClose 0 (Some 1); KillTimer])
       fresh)
  = Some (None, [1%nat], Some (Some 1%nat, false),
          [Kill 1 SIGTERM], [], 0%nat).
Proof. split; by_eval. Qed.

(** ** Instances on sample runs *)


Lemma C4_startup_timeout_witness :
  run (CallStart (SpawnReturns (Some 4242)) :: demo_waiting ++ [PortTimeout]) fresh =
    Some (after (CallStart (SpawnReturns (Some 4242)) :: demo_waiting ++ [PortTimeout])) /\
  settlement (after (CallStart (SpawnReturns (Some 4242)) :: demo_waiting ++ [PortTimeout]))
    (List.length (starts fresh)) =
    Some (Fulfilled {| bs_isRunning := false; bs_port := None; bs_pid := None;
            bs_error := Some "Backend did not announce port within timeout" |}) /\
  probeCount (after (CallStart (SpawnReturns (Some 4242)) :: demo_waiting ++ [PortTimeout]))
    = probeCount fresh.
Proof.
  assert (H0 : run [] fresh = Some fresh) by reflexivity.
  assert (H1 : run (CallStart (SpawnReturns (Some 4242)) :: demo_waiting ++ [PortTimeout])
                 fresh =
               Some (after (CallStart (SpawnReturns (Some 4242))
                              :: demo_waiting ++ [PortTimeout]))) by by_eval.
  assert (H2 : startupPromise (this fresh) = None) by reflexivity.
  assert (H3 : isRunning (this fresh) = false) by reflexivity.
  assert (H4 : port (this fresh) = None) by reflexivity.
  assert (H5 : existsb announces demo_waiting = false) by by_eval.
  assert (H6 : existsb isPortTimeout demo_waiting = false) by by_eval.
  pose proof (proj1 (C4_startup_timeout [] fresh (Some 4242) H0 H2 H3)
                demo_waiting
                (after (CallStart (SpawnReturns (Some 4242))
                          :: demo_waiting ++ [PortTimeout]))
                H4 H5 H6 H1) as (Ha & Hb & _).
  exact (conj H1 (conj Ha Hb)).
Defined.

Lemma C9_start_never_rejects_witness :
  run demo_health_timeout fresh = Some (after demo_health_timeout) /\
  settlement (after demo_health_timeout) 0%nat =
    Some (Fulfilled {| bs_isRunning := false; bs_port := None; bs_pid := None;
            bs_error := Some "Backend did not become healthy within timeout" |}) /\
  exists st,
    Fulfilled {| bs_isRunning := false; bs_port := None; bs_pid := None;
                 bs_error := Some "Backend did not become healthy within timeout" |}
      = Fulfilled st /\
    ((bs_isRunning st = true /\ bs_error st = None) \/
     (bs_isRunning st = false /\ bs_port st = None /\ bs_pid st = None /\
      bs_error st <> None)).
Proof.
  assert (H1 : run demo_health_timeout fresh = Some (after demo_health_timeout))
    by by_eval.
  assert (H2 : settlement (after demo_health_timeout) 0%nat =
    Some (Fulfilled {| bs_isRunning := false; bs_port := None; bs_pid := None;
            bs_error := Some "Backend did not become healthy within timeout" |}))
    by by_eval.
  split; [exact H1|]. split; [exact H2|].
  exact (proj1 (C9_start_never_rejects demo_health_timeout (after demo_health_timeout) H1)
           0%nat _ H2).
Defined.

Lemma C10_failed_readiness_keeps_state_witness :
  run demo_announced fresh = Some (after demo_announced) /\
  run (PortPoll 100 :: demo_probes) (after demo_announced) =
    Some (after (demo_announced ++ PortPoll 100 :: demo_probes)) /\
  getStatus (this (after (demo_announced ++ PortPoll 100 :: demo_probes))) =
    {| bs_isRunning := true; bs_port := Some 54321;
       bs_pid := orNull (match process (this (after demo_announced)) with
                         | Some c => cp_pid c
                         | None => None
                         end);
       bs_error := None |} /\
  getBaseUrl (this (after (demo_announced ++ PortPoll 100 :: demo_probes))) =
    Some ("http://127.0.0.1:" ++ numberToString 54321)%string.
Proof.
  assert (H1 : run demo_announced fresh = Some (after demo_announced)) by by_eval.
  assert (H2 : task (after demo_announced) = AwaitPort 0%nat (Some 4242)) by by_eval.
  assert (H3 : port (this (after demo_announced)) = Some 54321) by by_eval.
  assert (H4 : forallb isProbeEvent demo_probes = true) by by_eval.
  assert (H5 : run (PortPoll 100 :: demo_probes) (after demo_announced) =
               Some (after (demo_announced ++ PortPoll 100 :: demo_probes))) by by_eval.
  assert (H6 : settlement (after (demo_announced ++ PortPoll 100 :: demo_probes)) 0%nat =
               Some (Fulfilled (catchBlock healthTimeoutError))) by by_eval.
  assert (H7 : bs_error (catchBlock healthTimeoutError) =
               Some "Backend did not become healthy within timeout") by reflexivity.
  pose proof (C10_failed_readiness_keeps_state demo_announced (after demo_announced)
                0%nat (Some 4242) 54321 100 demo_probes
                (after (demo_announced ++ PortPoll 100 :: demo_probes))
                (catchBlock healthTimeoutError) H1 H2 H3 H4 H5 H6 H7)
    as (_ & _ & _ & _ & _ & _ & Hst & Hurl & _).
  exact (conj H1 (conj H5 (conj Hst Hurl))).
Defined.

Lemma C8_stop_graceful_then_forced_witness :
  run demo_startup fresh = Some (after demo_startup) /\
  process (this (after demo_startup)) = Some {| handle := 0; cp_pid := Some 4242 |} /\
  exists w1,
    stop (after demo_startup) = (w1, List.length (stops (after demo_startup))) /\
    effects w1 =
      SetTimeout 5000
      :: Kill (handle {| handle := 0; cp_pid := Some 4242 |}) SIGTERM
      :: effects (after demo_startup) /\
    forall w2,
      run demo_grace w1 = Some w2 ->
      exists w3,
        step KillTimer w2 = Some w3 /\
        effects w3 =
          Kill (handle {| handle := 0; cp_pid := Some 4242 |}) SIGKILL :: effects w2.
Proof.
  assert (H1 : run demo_startup fresh = Some (after demo_startup)) by by_eval.
  assert (H2 : process (this (after demo_startup)) =
               Some {| handle := 0; cp_pid := Some 4242 |}) by by_eval.
  assert (H3 : forallb graceEvent demo_grace = true) by by_eval.
  assert (H4 : existsb isKillTimer demo_grace = false) by by_eval.
  split; [exact H1|]. split; [exact H2|].
  destruct (proj1 (C8_stop_graceful_then_forced demo_startup (after demo_startup) H1)
              {| handle := 0; cp_pid := Some 4242 |} H2)
    as (w1 & Ha & Hb & _ & _ & Hkill & _).
  exists w1. split; [exact Ha|]. split; [exact Hb|].
  intros w2 Hr. destruct (Hkill demo_grace w2 H4 Hr) as (w3 & Hs & He & _ & _ & Hp).
  exists w3. split; [exact Hs|]. rewrite (Hp H3) in He. exact He.
Defined.

End BackendFacts.

(* ================================================================== *)
(** * Properties of the health monitor *)
(* ================================================================== *)

Module HealthFacts.
Import JS Shared Health.

Ltac eval_health :=
  cbv [step start performCheck afterCheck handleFailure handleSuccess handleCriticalFailure
    stop notifyRenderer setMainWindow windowUsable getStatus with_status with_this
    set_armed set_nextTimer set_pendingChecks set_pendingDialogs set_checksBegun emit
    set_status set_intervalId set_isRunning set_mainWindow set_isHealthy
    set_consecutiveFailures set_lastCheck set_error isArmed
    HEALTH_CHECK_FAILURE_THRESHOLD cf healthy
    this armed nextTimer pendingChecks pendingDialogs checksBegun effects
    status intervalId isRunning mainWindow destroyed
    hs_isHealthy hs_consecutiveFailures hs_lastCheck hs_error negb] in *.

Ltac split_tests :=
  repeat match goal with
    | H : context [Z.leb ?a ?b] |- _ => destruct (Z.leb_spec a b)
    | |- context [Z.leb ?a ?b] => destruct (Z.leb_spec a b)
    | H : context [Z.ltb ?a ?b] |- _ => destruct (Z.ltb_spec a b)
    | |- context [Z.ltb ?a ?b] => destruct (Z.ltb_spec a b)
    | H : context [Nat.eq_dec ?a ?b] |- _ => destruct (Nat.eq_dec a b)
    | |- context [Nat.eq_dec ?a ?b] => destruct (Nat.eq_dec a b)
    end.

Ltac destruct_env w :=
  let h := fresh "h" in let c := fresh "c" in let l := fresh "l" in
  let e := fresh "e" in let iid := fresh "iid" in let r := fresh "r" in
  let mw := fresh "mw" in
  destruct w as [[[h c l e] iid r mw] ? ? ? ? ? ?];
  destruct r; destruct iid; destruct mw as [[[|]]|].

(** ** The invariant of the monitor *)

Lemma fresh_inv : Inv fresh.
Proof. split; reflexivity || discriminate. Qed.

Ltac open_step H :=
  cbv [step start performCheck afterCheck isArmed] in H;
  repeat match type of H with
    | context [Backend.getBaseUrl ?b] => destruct (Backend.getBaseUrl b) eqn:?
    | context [existsb ?f ?l] => destruct (existsb f l)
    end.

Lemma step_inv : forall ev w w', Inv w -> step ev w = Some w' -> Inv w'.
Proof.
  intros ev w w' [H1 H2 H3 H4] Hs.
  destruct_env w;
  destruct ev as [bm now| | | |id bm now|[| |] now|];
  open_step Hs;
  eval_health; try discriminate; cbn [remove] in *;
  split_tests;
  repeat match goal with
    | H : context [match ?x with O => _ | S _ => _ end] |- _ => destruct x
    end; try discriminate;
  injection Hs as <-; subst; split; eval_health; cbn [remove]; split_tests;
  try reflexivity; try congruence; try lia; try (intros; congruence).
Qed.

Lemma run_app : forall a b w,
  run (a ++ b)%list w = match run a w with Some w1 => run b w1 | None => None end.
Proof.
  induction a as [|ev a IH]; intros b w; simpl; [reflexivity|].
  destruct (step ev w); [apply IH | reflexivity].
Qed.

Lemma run_inv : forall tr w w', Inv w -> run tr w = Some w' -> Inv w'.
Proof.
  induction tr as [|ev tr IH]; simpl; intros w w' Hi Hr.
  - now injection Hr as <-.
  - destruct (step ev w) as [w1|] eqn:Hs; [|discriminate].
    eapply IH; [eapply step_inv; eassumption | exact Hr].
Qed.

(** ** Runs without success, [start()] or [stop()] *)

Lemma step_quiet : forall ev w w',
  Inv w -> quiet ev = true -> step ev w = Some w' ->
  cf w' = cf w + (if isFailure ev then 1 else 0) /\
  (isRunning (this w) = true -> cf w' < 3 ->
   isRunning (this w') = true /\ intervalId (this w') = intervalId (this w)).
Proof.
  intros ev w w' [H1 H2 H3 H4] Hq Hs.
  destruct_env w;
  destruct ev as [bm now| | | |id bm now|[| |] now|]; try discriminate Hq;
  cbv [isFailure];
  open_step Hs;
  eval_health; try discriminate; cbn [remove] in *;
  split_tests;
  repeat match goal with
    | H : context [match ?x with O => _ | S _ => _ end] |- _ => destruct x
    end; try discriminate;
  injection Hs as <-; subst; eval_health; split;
  try reflexivity; try lia; intros; try discriminate; try lia; try (split; reflexivity).
Qed.

Lemma step_idle : forall ev w w',
  Inv w -> isRunning (this w) = false -> isCallStart ev = false ->
  step ev w = Some w' ->
  checksBegun w' = checksBegun w /\ isRunning (this w') = false.
Proof.
  intros ev w w' [H1 H2 H3 H4] Hr Hq Hs.
  destruct_env w; try discriminate;
  destruct ev as [bm now| | | |id bm now|[| |] now|]; try discriminate Hq;
  eval_health; subst; cbn [existsb] in *; try discriminate;
  split_tests;
  repeat match goal with
    | H : context [match ?x with O => _ | S _ => _ end] |- _ => destruct x
    end; try discriminate;
  injection Hs as <-; split; reflexivity.
Qed.

Lemma run_idle : forall tr w w',
  Inv w -> isRunning (this w) = false -> existsb isCallStart tr = false ->
  run tr w = Some w' ->
  checksBegun w' = checksBegun w /\ isRunning (this w') = false.
Proof.
  induction tr as [|ev tr IH]; simpl; intros w w' Hi Hr Hq Hs.
  - injection Hs as <-. now split.
  - apply orb_false_iff in Hq as [Hq1 Hq2].
    destruct (step ev w) as [w1|] eqn:E; [|discriminate].
    destruct (step_idle _ _ _ Hi Hr Hq1 E) as [Hc Hr1].
    destruct (IH w1 w' (step_inv _ _ _ Hi E) Hr1 Hq2 Hs) as [Hc' Hr'].
    split; congruence.
Qed.

Lemma failures_cons : forall ev tr,
  failures (ev :: tr) = (if isFailure ev then 1 else 0) + failures tr.
Proof.
  intros ev tr. unfold failures. cbn [filter].
  destruct (isFailure ev); cbn [List.length]; lia.
Qed.

Lemma run_quiet : forall tr w w',
  Inv w -> forallb quiet tr = true -> run tr w = Some w' ->
  cf w' = cf w + failures tr /\
  (isRunning (this w) = true -> cf w' < 3 ->
   isRunning (this w') = true /\ intervalId (this w') = intervalId (this w)).
Proof.
  induction tr as [|ev tr IH]; intros w w' Hi Hq Hs.
  - simpl in Hs. injection Hs as <-. unfold failures; simpl. split; [lia|auto].
  - simpl in Hq, Hs. apply andb_true_iff in Hq as [Hq1 Hq2].
    destruct (step ev w) as [w1|] eqn:E; [|discriminate].
    destruct (step_quiet _ _ _ Hi Hq1 E) as [Hc Hk].
    destruct (IH w1 w' (step_inv _ _ _ Hi E) Hq2 Hs) as [Hc' Hk'].
    rewrite failures_cons. split; [lia|].
    intros Hr Hlt.
    assert (0 <= failures tr) by (unfold failures; lia).
    destruct Hk as [Hr1 Hi1]; [exact Hr | lia |].
    destruct (Hk' Hr1 Hlt) as [Hr2 Hi2]. split; congruence.
Qed.

Lemma inv_unhealthy : forall w, Inv w -> (healthy w = false <-> 3 <= cf w).
Proof.
  intros w [H1 _ _ _]. rewrite H1. unfold HEALTH_CHECK_FAILURE_THRESHOLD.
  destruct (Z.ltb_spec (cf w) 3); split; intros; try discriminate; try lia; reflexivity.
Qed.

Lemma inv_not_running : forall w,
  Inv w -> isRunning (this w) = false -> intervalId (this w) = None /\ armed w = [].
Proof.
  intros w [_ H2 H3 _] Hr. rewrite Hr in H3.
  destruct (intervalId (this w)); [discriminate|]. now split.
Qed.

(** C1.  The failure threshold is 3.  From any reachable state in which
    the monitor is running (it is then healthy), along any events that
    contain no successful check and no call of [start()] or [stop()]: the
    counter grows by the number of failed checks; as long as it is below 3
    the monitor stays healthy and its interval stays armed; when it reaches
    exactly 3 the monitor is unhealthy, not running, and no interval is
    armed, and from then on, whatever happens short of a new [start()], no
    further check is begun. *)
Theorem C1_threshold_stops_polling :
  forall pre w tr w',
    run pre fresh = Some w ->
    isRunning (this w) = true ->
    forallb quiet tr = true ->
    run tr w = Some w' ->
    HEALTH_CHECK_FAILURE_THRESHOLD = 3 /\
    healthy w = true /\
    cf w' = cf w + failures tr /\
    (cf w + failures tr < 3 ->
       healthy w' = true /\ isRunning (this w') = true /\
       armed w' = armed w /\ armed w' <> []) /\
    (cf w + failures tr = 3 ->
       healthy w' = false /\ isRunning (this w') = false /\
       intervalId (this w') = None /\ armed w' = [] /\
       forall later w'',
         existsb isCallStart later = false -> run later w' = Some w'' ->
         checksBegun w'' = checksBegun w' /\ armed w'' = []).
Proof.
  intros pre w tr w' Hpre Hrun Hq Htr.
  assert (Hi : Inv w) by (eapply run_inv; [apply fresh_inv | exact Hpre]).
  assert (Hi' : Inv w') by (eapply run_inv; eassumption).
  destruct (run_quiet _ _ _ Hi Hq Htr) as [Hc Hk].
  split; [reflexivity|]. split; [|split; [exact Hc|split]].
  - destruct (healthy w) eqn:E; [reflexivity|].
    rewrite (inv_stopped _ Hi E) in Hrun. discriminate.
  - intros Hlt. destruct Hk as [Hr' Hid]; [exact Hrun | lia |].
    assert (Hh : healthy w' = true).
    { destruct (healthy w') eqn:E; [reflexivity|].
      apply (inv_unhealthy _ Hi') in E. lia. }
    assert (Ha : armed w' = armed w).
    { rewrite (inv_armed _ Hi'), (inv_armed _ Hi), Hid. reflexivity. }
    repeat split; try assumption.
    rewrite (inv_armed _ Hi'). pose proof (inv_running _ Hi') as Hx.
    rewrite Hr' in Hx. destruct (intervalId (this w')); discriminate.
  - intros Heq.
    assert (Hh : healthy w' = false) by (apply (inv_unhealthy _ Hi'); lia).
    assert (Hr' : isRunning (this w') = false) by (apply (inv_stopped _ Hi'), Hh).
    destruct (inv_not_running _ Hi' Hr') as [Hid Ha].
    repeat split; try assumption.
    + eapply run_idle; eassumption.
    + match goal with
      | Hl : existsb isCallStart _ = false, Hrl : run _ w' = Some _ |- _ =>
          destruct (run_idle _ _ _ Hi' Hr' Hl Hrl) as [_ Hr'']
      end.
      apply inv_not_running; [eapply run_inv; eassumption | exact Hr''].
Qed.

(** C6.  In every state with a check pending (whatever the number of
    failures so far), a healthy reply sets [isHealthy = true],
    [consecutiveFailures = 0], [error = null], [lastCheck] to the current
    time, and sends the new status to the main window when there is one
    that is not destroyed (nothing is sent otherwise); the schedule is
    unchanged. *)
Theorem C6_success_resets :
  forall now w k,
    pendingChecks w = S k ->
    exists w',
      step (Reply ReplyHealthy now) w = Some w' /\
      status (this w') =
        {| hs_isHealthy := true; hs_consecutiveFailures := 0;
           hs_lastCheck := Some now; hs_error := None |} /\
      effects w' =
        (if windowUsable (this w)
         then Send (getStatus (this w')) :: effects w
         else effects w) /\
      isRunning (this w') = isRunning (this w) /\
      armed w' = armed w.
Proof.
  intros now w k Hp.
  destruct w as [[[h c l e] iid r mw] ar nt pc pd cb eff].
  cbn [pendingChecks] in Hp. subst pc.
  eexists. split; [reflexivity|].
  destruct mw as [[[|]]|]; repeat split.
Qed.

Ltac by_eval := vm_compute; reflexivity.

Lemma C6_success_resets_witness :
  pendingChecks (after demo_two_failures) = 1%nat /\
  cf (after demo_two_failures) = 2 /\
  exists w',
    step (Reply ReplyHealthy 11020) (after demo_two_failures) = Some w' /\
    status (this w') =
      {| hs_isHealthy := true; hs_consecutiveFailures := 0;
         hs_lastCheck := Some 11020; hs_error := None |} /\
    effects w' =
      (if windowUsable (this (after demo_two_failures))
       then Send (getStatus (this w')) :: effects (after demo_two_failures)
       else effects (after demo_two_failures)) /\
    isRunning (this w') = isRunning (this (after demo_two_failures)) /\
    armed w' = armed (after demo_two_failures).
Proof.
  assert (H1 : pendingChecks (after demo_two_failures) = 1%nat) by by_eval.
  split; [exact H1|]. split; [by_eval|].
  exact (C6_success_resets 11020 (after demo_two_failures) 0%nat H1).
Defined.

Lemma C1_threshold_stops_polling_witness :
  run demo_started fresh = Some (after demo_started) /\
  run demo_three_failures (after demo_started) =
    Some (after (demo_started ++ demo_three_failures)) /\
  cf (after demo_started) + failures demo_three_failures = 3 /\
  healthy (after (demo_started ++ demo_three_failures)) = false /\
  armed (after (demo_started ++ demo_three_failures)) = [].
Proof.
  assert (H1 : run demo_started fresh = Some (after demo_started)) by by_eval.
  assert (H2 : run demo_three_failures (after demo_started) =
               Some (after (demo_started ++ demo_three_failures))) by by_eval.
  assert (H3 : cf (after demo_started) + failures demo_three_failures = 3) by by_eval.
  assert (H4 : isRunning (this (after demo_started)) = true) by by_eval.
  assert (H5 : forallb quiet demo_three_failures = true) by by_eval.
  destruct (C1_threshold_stops_polling demo_started (after demo_started)
              demo_three_failures (after (demo_started ++ demo_three_failures))
              H1 H4 H5 H2) as [_ [_ [_ [_ Hthree]]]].
  destruct (Hthree H3) as [Hh [_ [_ [Ha _]]]].
  exact (conj H1 (conj H2 (conj H3 (conj Hh Ha)))).
Defined.

(** ** When [isHealthy] changes *)

Lemma step_flip : forall ev w w',
  Inv w -> step ev w = Some w' ->
  (healthy w = true -> healthy w' = false ->
     isFailure ev = true /\ cf w = 2 /\ cf w' = 3) /\
  (healthy w = false -> healthy w' = true ->
     (isSuccess ev = true /\ cf w' = 0) \/
     (exists bm now, ev = CallStart bm now /\
        cf w' = match Backend.getBaseUrl bm with None => 1 | Some _ => 0 end)).
Proof.
  intros ev w w' [H1 H2 H3 H4] Hs.
  destruct_env w;
  destruct ev as [bm now| | | |id bm now|[| |] now|];
  cbv [isFailure isSuccess];
  open_step Hs;
  eval_health; try discriminate; cbn [remove] in *;
  split_tests;
  repeat match goal with
    | H : context [match ?x with O => _ | S _ => _ end] |- _ => destruct x
    end; try discriminate;
  injection Hs as <-; subst; eval_health; split; intros; try discriminate;
  try (repeat split; (reflexivity || lia)).
  all: try (left; split; reflexivity).
  all: right; exists bm, now; split; [reflexivity|];
    match goal with H : Backend.getBaseUrl _ = _ |- _ => rewrite H end; reflexivity.
Qed.

(** C7 (amended).  In every reachable state, [isHealthy] is false exactly
    when [consecutiveFailures] is at least the threshold, before and after
    every event.  [isHealthy] goes from true to false only on a failed
    check that brings the counter to the threshold.  It goes from false to
    true only on a successful check, after which the counter is 0, or on
    [start()], which resets the counter before its immediate check (the
    counter is 1 afterwards when that check finds no backend URL, else
    0). *)
Theorem C7_health_invariant :
  forall pre w,
    run pre fresh = Some w ->
    (healthy w = false <-> (HEALTH_CHECK_FAILURE_THRESHOLD <= cf w)%Z) /\
    forall ev w',
      step ev w = Some w' ->
      (healthy w' = false <-> (HEALTH_CHECK_FAILURE_THRESHOLD <= cf w')%Z) /\
      (healthy w = true -> healthy w' = false ->
         isFailure ev = true /\ cf w' = HEALTH_CHECK_FAILURE_THRESHOLD) /\
      (healthy w = false -> healthy w' = true ->
         (isSuccess ev = true /\ cf w' = 0) \/
         (exists bm now, ev = CallStart bm now /\
            cf w' = match Backend.getBaseUrl bm with None => 1 | Some _ => 0 end)).
Proof.
  intros pre w Hpre.
  assert (Hi : Inv w) by (eapply run_inv; [apply fresh_inv | exact Hpre]).
  split; [apply inv_unhealthy, Hi|].
  intros ev w' Hs.
  destruct (step_flip ev w w' Hi Hs) as [Hdown Hup].
  split; [apply inv_unhealthy; eapply step_inv; eassumption|].
  split; [|exact Hup].
  intros Ha Hb. destruct (Hdown Ha Hb) as [Hf [_ Hc]]. split; assumption.
Qed.

Lemma C7_health_invariant_witness :
  run (demo_started ++ demo_three_failures) fresh =
    Some (after (demo_started ++ demo_three_failures)) /\
  (healthy (after (demo_started ++ demo_three_failures)) = false <->
   (HEALTH_CHECK_FAILURE_THRESHOLD <= cf (after (demo_started ++ demo_three_failures)))%Z).
Proof.
  assert (H1 : run (demo_started ++ demo_three_failures) fresh =
               Some (after (demo_started ++ demo_three_failures))) by by_eval.
  split; [exact H1|].
  exact (proj1 (C7_health_invariant _ _ H1)).
Defined.

(** C7 as stated does not hold in its last part: after the threshold was
    reached, [start()] by itself sets [isHealthy] back to [true]; no check
    succeeded, and the counter is 1 afterwards because the immediate check
    found no backend URL. *)
Lemma C7_restart_flips_without_success :
  let before := (demo_started ++ demo_three_failures)%list in
  let restart := CallStart Backend.initial 20000 in
  option_map (fun w => (healthy w, cf w)) (run before fresh) = Some (false, 3) /\
  option_map (fun w => (healthy w, cf w)) (run (before ++ [restart])%list fresh)
    = Some (true, 1) /\
  isSuccess restart = false /\
  existsb isSuccess (before ++ [restart])%list = false.
Proof. vm_compute. repeat split. Qed.

End HealthFacts.

(* ================================================================== *)
(** * Numbers in announcements and URLs *)
(* ================================================================== *)

Module AnnouncementFacts.
Import JS Shared Backend Lifecycle.
Local Open Scope string_scope.

Lemma decimalValue_parseFrom : forall ds, decimalValue ds = parseFrom 0 ds.
Proof. reflexivity. Qed.

Lemma parseInt_parseFrom : forall ds, parseInt ds = toDouble (parseFrom 0 ds).
Proof. reflexivity. Qed.

Lemma parseFrom_cons : forall acc c s,
  parseFrom acc (String c s) = parseFrom (10 * acc + digitValue c) s.
Proof. reflexivity. Qed.

Lemma parseFrom_app : forall a b acc,
  parseFrom acc (a ++ b) = parseFrom (parseFrom acc a) b.
Proof.
  induction a as [|c a IH]; intros b acc; [reflexivity|].
  cbn [append]. rewrite !parseFrom_cons. apply IH.
Qed.

Lemma parseFrom_shift : forall b acc,
  parseFrom acc b = acc * 10 ^ Z.of_nat (String.length b) + parseFrom 0 b.
Proof.
  induction b as [|c b IH]; intros acc.
  - cbn. lia.
  - rewrite !parseFrom_cons. rewrite (IH (10 * acc + digitValue c)).
    rewrite (IH (10 * 0 + digitValue c)).
    cbn [String.length]. rewrite Nat2Z.inj_succ, Z.pow_succ_r by lia. ring.
Qed.

Ltac digit_values :=
  change (digitValue "0") with 0 in *; change (digitValue "1") with 1 in *;
  change (digitValue "2") with 2 in *; change (digitValue "3") with 3 in *;
  change (digitValue "4") with 4 in *; change (digitValue "5") with 5 in *;
  change (digitValue "6") with 6 in *; change (digitValue "7") with 7 in *;
  change (digitValue "8") with 8 in *; change (digitValue "9") with 9 in *.

Lemma parseFrom_uint_acc : forall d acc,
  parseFrom (Z.pos acc) (NilEmpty.string_of_uint d) = Z.pos (Pos.of_uint_acc d acc).
Proof.
  induction d; intros acc; cbn [NilEmpty.string_of_uint Pos.of_uint_acc];
    [reflexivity|..]; rewrite parseFrom_cons; digit_values;
    rewrite <- IHd; f_equal; lia.
Qed.

Lemma parseFrom_uint : forall d,
  parseFrom 0 (NilEmpty.string_of_uint d) = Z.of_N (Pos.of_uint d).
Proof.
  induction d; cbn [NilEmpty.string_of_uint Pos.of_uint];
    [reflexivity|..]; rewrite parseFrom_cons; digit_values;
    [exact IHd|..]; cbn [Z.mul Z.add Z.of_N]; apply parseFrom_uint_acc.
Qed.

Lemma allDigits_uint : forall d, allDigits (NilEmpty.string_of_uint d) = true.
Proof.
  unfold allDigits. induction d; cbn [NilEmpty.string_of_uint list_ascii_of_string forallb];
    [reflexivity|..]; rewrite IHd; reflexivity.
Qed.

Lemma to_uint_not_nil : forall p, Pos.to_uint p <> Decimal.Nil.
Proof.
  intros p H.
  pose proof (DecimalPos.Unsigned.of_to p) as Hp. rewrite H in Hp. discriminate Hp.
Qed.

Lemma decimal_pos : forall p,
  decimal (Z.pos p) = NilEmpty.string_of_uint (Pos.to_uint p).
Proof.
  intros p. unfold decimal. cbn [Z.to_int NilZero.string_of_int].
  unfold NilZero.string_of_uint.
  destruct (Pos.to_uint p) eqn:H; try reflexivity.
  exfalso. exact (to_uint_not_nil p H).
Qed.

(** The digits of a non-negative integer write that integer. *)
Lemma decimal_round_trip : forall n,
  0 <= n ->
  decimal n <> EmptyString /\ allDigits (decimal n) = true /\
  decimalValue (decimal n) = n.
Proof.
  intros n Hn. destruct n as [|p|p]; [repeat split; discriminate| |lia].
  rewrite decimal_pos. repeat split.
  - pose proof (to_uint_not_nil p). destruct (Pos.to_uint p); try discriminate.
    contradiction.
  - apply allDigits_uint.
  - rewrite decimalValue_parseFrom, parseFrom_uint, DecimalPos.Unsigned.of_to.
    reflexivity.
Qed.

Lemma parseFrom_nonneg : forall ds acc,
  allDigits ds = true -> 0 <= acc -> 0 <= parseFrom acc ds.
Proof.
  unfold allDigits.
  induction ds as [|c ds IH]; intros acc Hd Hacc; [exact Hacc|].
  cbn [list_ascii_of_string forallb] in Hd. rewrite parseFrom_cons.
  apply andb_true_iff in Hd as [Hc Hl]. apply IH; [exact Hl|].
  unfold isDigit in Hc. apply andb_true_iff in Hc as [Hlo Hhi].
  apply Nat.leb_le in Hlo. unfold digitValue. lia.
Qed.

Lemma takeDigits_all : forall ds, allDigits ds = true -> takeDigits ds = ds.
Proof.
  unfold allDigits. induction ds as [|c ds IH]; cbn [list_ascii_of_string forallb takeDigits];
    intros H; [reflexivity|].
  apply andb_true_iff in H as [Hc Hd]. rewrite Hc, (IH Hd). reflexivity.
Qed.

Lemma allDigits_app : forall a b,
  allDigits (a ++ b) = allDigits a && allDigits b.
Proof.
  unfold allDigits. induction a as [|c a IH]; intros b; [reflexivity|].
  cbn [append list_ascii_of_string forallb]. rewrite IH. apply andb_assoc.
Qed.

(** A chunk that starts with [PORT:] and continues with digits only. *)
Lemma announcedPort_exact : forall ds,
  ds <> EmptyString -> allDigits ds = true ->
  announcedPort ("PORT:" ++ ds) = Some (parseInt ds).
Proof.
  intros ds Hne Hd. unfold announcedPort. rewrite StringFacts.matchPORT_trim.
  rewrite StringFacts.matchPORT_eq. unfold matchHere.
  assert (Hp : stripPrefix "PORT:" ("PORT:" ++ ds) = Some ds)
    by (apply StringFacts.stripPrefix_spec; reflexivity).
  rewrite Hp, (takeDigits_all _ Hd).
  destruct ds; [contradiction | reflexivity].
Qed.

(** Digits alone announce nothing. *)
Lemma digits_announce_nothing : forall ds,
  allDigits ds = true -> matchPORT ds = None.
Proof.
  induction ds as [|c ds IH]; intros Hd; [reflexivity|].
  unfold allDigits in Hd. cbn [list_ascii_of_string forallb] in Hd.
  apply andb_true_iff in Hd as [Hc Hd].
  rewrite StringFacts.matchPORT_eq.
  assert (Hh : matchHere (String c ds) = None).
  { unfold matchHere. cbn [stripPrefix].
    destruct (Ascii.eqb_spec "P"%char c) as [<-|_]; [discriminate Hc | reflexivity]. }
  rewrite Hh. apply IH. exact Hd.
Qed.

Lemma matchPORT_skip : forall c s,
  Ascii.eqb "P" c = false -> matchPORT (String c s) = matchPORT s.
Proof.
  intros c s H. rewrite StringFacts.matchPORT_eq. unfold matchHere.
  cbn [stripPrefix]. rewrite H. reflexivity.
Qed.

(** X1.  The number in an announcement and in the URL.  For a port [n]
    from 0 up to the largest integer that JavaScript numbers hold exactly,
    the text [`${n}`] is a non-empty sequence of decimal digits that
    [parseInt] reads back as [n]; and a chunk [PORT:] followed by that text
    makes the listener record exactly [n].  So the digits at the end of
    [getBaseUrl()] are those of the port the backend announced, in
    canonical form. *)
Theorem X1_port_text_round_trip :
  forall n,
    0 <= n -> n <= MAX_SAFE_INTEGER ->
    numberToString n <> EmptyString /\
    allDigits (numberToString n) = true /\
    parseInt (numberToString n) = n /\
    announcedPort ("PORT:" ++ numberToString n) = Some n /\
    (n <> 0 ->
     getBaseUrl (onStdout ("PORT:" ++ numberToString n) initial) =
       Some ("http://127.0.0.1:" ++ numberToString n)).
Proof.
  intros n Hn Hmax.
  assert (Hsafe : n < 2 ^ 53) by (unfold MAX_SAFE_INTEGER in Hmax; lia).
  assert (H : numberToString n <> EmptyString /\
              allDigits (numberToString n) = true /\
              parseInt (numberToString n) = n).
  { rewrite (NumberFacts.numberToString_safe _ Hsafe).
    destruct (decimal_round_trip n Hn) as (H1 & H2 & H3).
    repeat split; try assumption.
    unfold parseInt. rewrite H3. apply NumberFacts.toDouble_safe. exact Hsafe. }
  destruct H as (H1 & H2 & H3).
  assert (H4 : announcedPort ("PORT:" ++ numberToString n) = Some n).
  { rewrite (announcedPort_exact _ H1 H2), H3. reflexivity. }
  repeat split; try assumption.
  intros Hnz. unfold onStdout. rewrite H4. unfold getBaseUrl.
  cbn [port set_port initial truthy option_map].
  destruct (Z.eqb_spec n 0); [contradiction | reflexivity].
Qed.

(** X2.  Chunks are not lines.  The listener looks at each chunk of
    output by itself.  When a chunk ends inside the digits of an
    announcement, the port recorded is the number that [parseInt] reads
    from the digits of the first chunk: the rest of the digits, arriving as
    the next chunk, change nothing.  The same text in one chunk gives the
    number read from all the digits; as long as these write an integer of at
    most 2^53 - 1, that number is the first one, shifted by the length of
    the rest, plus the number of the rest.  When a chunk ends inside the
    word [PORT:], neither part announces anything and the manager is
    unchanged. *)
Theorem X2_announcement_cut_by_chunk_boundary :
  forall a b m,
    a <> EmptyString -> allDigits a = true -> allDigits b = true ->
    port (feed ["PORT:" ++ a; b] m) = Some (parseInt a) /\
    port (feed ["PORT:" ++ a ++ b] m) = Some (parseInt (a ++ b)) /\
    (decimalValue (a ++ b) <= MAX_SAFE_INTEGER ->
     parseInt (a ++ b) =
       parseInt a * 10 ^ Z.of_nat (String.length b) + parseInt b) /\
    (forall s1 s2,
       s1 ++ s2 = "PORT:" -> s1 <> EmptyString -> s2 <> EmptyString ->
       feed [s1; s2 ++ a] m = m).
Proof.
  intros a b m Hne Ha Hb. split; [|split; [|split]].
  - unfold feed. cbn [fold_left]. unfold onStdout.
    rewrite (announcedPort_exact _ Hne Ha).
    assert (Hnb : announcedPort b = None).
    { unfold announcedPort. rewrite StringFacts.matchPORT_trim.
      rewrite (digits_announce_nothing _ Hb). reflexivity. }
    rewrite Hnb. reflexivity.
  - unfold feed. cbn [fold_left]. unfold onStdout.
    assert (Hab : allDigits (a ++ b) = true) by (rewrite allDigits_app, Ha, Hb; reflexivity).
    assert (Hne' : a ++ b <> EmptyString) by (destruct a; [contradiction | discriminate]).
    rewrite (announcedPort_exact _ Hne' Hab). reflexivity.
  - intros Hmax. unfold MAX_SAFE_INTEGER in Hmax.
    rewrite decimalValue_parseFrom, parseFrom_app, parseFrom_shift in Hmax.
    pose proof (parseFrom_nonneg a 0 Ha (Z.le_refl 0)) as Hna.
    pose proof (parseFrom_nonneg b 0 Hb (Z.le_refl 0)) as Hnb.
    assert (Hpow : 1 <= 10 ^ Z.of_nat (String.length b))
      by (apply (Z.pow_le_mono_r 10 0); lia).
    rewrite !parseInt_parseFrom, parseFrom_app, parseFrom_shift.
    rewrite !NumberFacts.toDouble_safe by nia. reflexivity.
  - intros s1 s2 Hs H1 H2.
    assert (Hcases : (s1 = "P" /\ s2 = "ORT:") \/ (s1 = "PO" /\ s2 = "RT:") \/
                     (s1 = "POR" /\ s2 = "T:") \/ (s1 = "PORT" /\ s2 = ":")).
    { destruct s1 as [|c1 s1]; [contradiction|]. cbn in Hs. injection Hs as -> Hs.
      destruct s1 as [|c2 s1]; [left; cbn in Hs; subst; auto|].
      cbn in Hs. injection Hs as -> Hs.
      destruct s1 as [|c3 s1]; [right; left; cbn in Hs; subst; auto|].
      cbn in Hs. injection Hs as -> Hs.
      destruct s1 as [|c4 s1]; [right; right; left; cbn in Hs; subst; auto|].
      cbn in Hs. injection Hs as -> Hs.
      destruct s1 as [|c5 s1]; [right; right; right; cbn in Hs; subst; auto|].
      cbn in Hs. injection Hs as -> Hs.
      destruct s1; [cbn in Hs; subst; contradiction | discriminate Hs]. }
    pose proof (digits_announce_nothing _ Ha) as Hna.
    unfold feed. cbn [fold_left]. unfold onStdout, announcedPort.
    rewrite !StringFacts.matchPORT_trim.
    destruct Hcases as [[-> ->]|[[-> ->]|[[-> ->]|[-> ->]]]];
      cbn [append]; rewrite !matchPORT_skip by reflexivity;
      rewrite Hna; reflexivity.
Qed.

(** ** Instances *)

Lemma X1_port_text_round_trip_witness :
  0 <= 54321 /\ 54321 <= MAX_SAFE_INTEGER /\
  parseInt (numberToString 54321) = 54321 /\
  announcedPort ("PORT:" ++ numberToString 54321) = Some 54321.
Proof.
  assert (H1 : 0 <= 54321) by lia.
  assert (H2 : 54321 <= MAX_SAFE_INTEGER) by (vm_compute; discriminate).
  destruct (X1_port_text_round_trip 54321 H1 H2) as (_ & _ & H3 & H4 & _).
  exact (conj H1 (conj H2 (conj H3 H4))).
Defined.

Lemma X2_announcement_cut_by_chunk_boundary_witness :
  "54" <> EmptyString /\ allDigits "54" = true /\ allDigits "321" = true /\
  port (feed ["PORT:" ++ "54"; "321"] initial) = Some (parseInt "54") /\
  decimalValue ("54" ++ "321") <= MAX_SAFE_INTEGER /\
  parseInt ("54" ++ "321") =
    parseInt "54" * 10 ^ Z.of_nat (String.length "321") + parseInt "321" /\
  feed ["PO"; "RT:" ++ "54"] initial = initial.
Proof.
  assert (H1 : "54" <> EmptyString) by discriminate.
  assert (H2 : allDigits "54" = true) by reflexivity.
  assert (H3 : allDigits "321" = true) by reflexivity.
  assert (H4 : decimalValue ("54" ++ "321") <= MAX_SAFE_INTEGER)
    by (vm_compute; discriminate).
  destruct (X2_announcement_cut_by_chunk_boundary "54" "321" initial H1 H2 H3)
    as (Ha & _ & Hb & Hc).
  refine (conj H1 (conj H2 (conj H3 (conj Ha (conj H4 (conj (Hb H4) _)))))).
  apply (Hc "PO" "RT:"); [reflexivity | discriminate | discriminate].
Defined.

End AnnouncementFacts.

(* ================================================================== *)
(** * Further properties of the backend supervisor *)
(* ================================================================== *)

Module LifecycleFacts.
Import JS Shared Backend Lifecycle.
Import BackendFacts.
Local Open Scope list_scope.

(** ** The readiness loop *)

Lemma step_probingAt : forall ev w w' p n pid t0 url,
  WF w -> probingAt p n pid t0 url (task w) -> duringProbe ev = true ->
  step ev w = Some w' ->
  (probingAt p n pid t0 url (task w') \/ task w' = NoTask) /\
  process (this w') = process (this w) /\
  isRunning (this w') = isRunning (this w) /\
  live w' = live w /\
  exists new, effects w' = new ++ effects w /\ Forall (probeEffect url) new.
Proof.
  intros ev w w' p n pid t0 url [H1 _] Hpr Hev Hs.
  destruct Hpr as [Ht|Ht]; destruct ev; try discriminate Hev;
    cbn [step] in Hs; rewrite ?Ht in Hs;
    open_bstep Hs; try discriminate Hs; injection Hs as <-; proj_simpl;
    rewrite ?Ht.
  all: repeat split.
  all: try (left; left; reflexivity).
  all: try (left; right; reflexivity).
  all: try (right; reflexivity).
  all: try solve [exists []; split; [reflexivity | constructor]].
  all: try solve [eexists [_]; split; [reflexivity|];
                  repeat constructor; first [left; reflexivity | right; reflexivity]].
Qed.

Lemma step_after_probe : forall ev w w',
  task w = NoTask -> duringProbe ev = true -> step ev w = Some w' ->
  task w' = NoTask /\ process (this w') = process (this w) /\
  isRunning (this w') = isRunning (this w) /\ live w' = live w /\
  effects w' = effects w /\ starts w' = starts w /\
  startupPromise (this w') = startupPromise (this w).
Proof.
  intros ev w w' Ht Hev Hs.
  destruct ev; try discriminate Hev; cbn [step] in Hs; rewrite ?Ht in Hs;
    open_bstep Hs; try discriminate Hs; injection Hs as <-; proj_simpl;
    repeat split; assumption.
Qed.

Lemma run_probingAt : forall evs w w' p n pid t0 url,
  WF w -> probingAt p n pid t0 url (task w) \/ task w = NoTask ->
  forallb duringProbe evs = true ->
  run evs w = Some w' ->
  (probingAt p n pid t0 url (task w') \/ task w' = NoTask) /\
  process (this w') = process (this w) /\
  isRunning (this w') = isRunning (this w) /\
  live w' = live w /\
  exists new, effects w' = new ++ effects w /\ Forall (probeEffect url) new.
Proof.
  induction evs as [|ev evs IH]; cbn [run forallb]; intros w w' p n pid t0 url Hwf Hpr Hev Hr.
  - injection Hr as <-. repeat split; try assumption. exists []. split; [reflexivity|constructor].
  - apply andb_true_iff in Hev as [Hev1 Hev2].
    destruct (step ev w) as [w1|] eqn:Hs; [|discriminate].
    pose proof (step_wf _ _ _ Hwf Hs) as Hwf1.
    assert (H1 : (probingAt p n pid t0 url (task w1) \/ task w1 = NoTask) /\
                 process (this w1) = process (this w) /\
                 isRunning (this w1) = isRunning (this w) /\
                 live w1 = live w /\
                 exists new, effects w1 = new ++ effects w /\ Forall (probeEffect url) new).
    { destruct Hpr as [Hpr|Hno].
      - exact (step_probingAt _ _ _ _ _ _ _ _ Hwf Hpr Hev1 Hs).
      - destruct (step_after_probe _ _ _ Hno Hev1 Hs) as (A & B & C & D & E & _).
        repeat split; try assumption; [right; exact A|].
        exists []. split; [exact E | constructor]. }
    destruct H1 as (Ha & Hb & Hc & Hd & new1 & He1 & Hf1).
    destruct (IH w1 w' p n pid t0 url Hwf1 Ha Hev2 Hr) as (Ha' & Hb' & Hc' & Hd' & new2 & He2 & Hf2).
    repeat split; try congruence; try assumption.
    exists (new2 ++ new1). split.
    + rewrite He2, He1. apply app_assoc.
    + apply Forall_app. split; assumption.
Qed.

(** ** A call of [start()] on an idle manager *)

Lemma step_noise : forall ev w w',
  noise ev = true -> step ev w = Some w' -> w' = w.
Proof.
  intros ev w [t k s st l nh kt si ef] Hn Hs.
  destruct ev; try discriminate Hn; cbn [noise] in Hn; cbn [step] in Hs;
    destruct (isLive h w); try discriminate Hs.
  - unfold onStdout in Hs. destruct (announcedPort data); [discriminate Hn|].
    destruct w. cbn in Hs. now injection Hs as <- <- <- <- <- <- <- <- <-.
  - now injection Hs as <-.
Qed.

Lemma run_noise : forall evs w w',
  forallb noise evs = true -> run evs w = Some w' -> w' = w.
Proof.
  induction evs as [|ev evs IH]; cbn [run forallb]; intros w w' Hn Hr.
  - now injection Hr as <-.
  - apply andb_true_iff in Hn as [Hn1 Hn2].
    destruct (step ev w) as [w1|] eqn:Hs; [|discriminate].
    rewrite (step_noise _ _ _ Hn1 Hs) in Hr. now apply IH.
Qed.

(** X3.  The successful start.  On an idle manager [start()] spawns the
    child; output without an announcement, ticks of the poll and any other
    event but the timeout leave the attempt waiting; the chunk that
    announces port [n] (not 0) sets the port, and the next tick of the poll
    sees it: the manager is marked running and the first readiness request
    goes out.  Whatever replies, pauses and output follow, the healthy reply
    fulfils the promise with [isRunning = true], port [n] (the port the
    poll saw), the pid of the child ([null] when it has none) and no error;
    the stored promise is cleared.  Between the tick and the end the manager
    only sent requests to [http://127.0.0.1:n/health] with a timeout of
    2000 ms and armed 500 ms pauses. *)
Theorem X3_start_succeeds :
  forall pre w pid0 quiet h data n chatter now probes now' w',
    run pre fresh = Some w ->
    startupPromise (this w) = None ->
    isRunning (this w) = false ->
    port (this w) = None ->
    existsb announces quiet = false ->
    existsb isPortTimeout quiet = false ->
    announcedPort data = Some n ->
    n <> 0 ->
    forallb noise chatter = true ->
    forallb duringProbe probes = true ->
    run (CallStart (SpawnReturns pid0) :: quiet ++ StdoutData h data :: chatter ++
         PortPoll now :: probes ++ [ProbeReply ProbeHealthy now']) w = Some w' ->
    settlement w' (List.length (starts w)) =
      Some (Fulfilled (started n (orNull pid0))) /\
    isRunning (this w') = true /\
    port (this w') = portAfter probes (Some n) /\
    startupPromise (this w') = None /\
    task w' = NoTask /\
    exists w0 new,
      run (CallStart (SpawnReturns pid0) :: quiet ++ StdoutData h data :: chatter) w
        = Some w0 /\
      effects w' = new ++ HttpGet (healthUrlOf n) 2000 :: effects w0 /\
      Forall (probeEffect (healthUrlOf n)) new.
Proof.
  intros pre w pid0 quiet h data n chatter now probes now' w'
    Hpre Hsp Hrun Hport Hq1 Hq2 Hdata Hn Hch Hpr Hr.
  pose proof (reachable_wf _ _ Hpre) as Hwf.
  cbn [run] in Hr.
  destruct (step (CallStart (SpawnReturns pid0)) w) as [w1|] eqn:Hs1; [|discriminate].
  pose proof (step_wf _ _ _ Hwf Hs1) as Hwf1.
  destruct (start_idle _ _ _ Hsp Hrun Hs1) as (Ht1 & Hp1 & Hr1 & _).
  rewrite Hport in Hp1.
  rewrite brun_app in Hr.
  destruct (run quiet w1) as [w2|] eqn:Hr2; [|discriminate].
  destruct (run_await_port _ _ _ _ _ Hwf1 Ht1 Hp1 Hr1 Hq1 Hq2 Hr2) as (Ht2 & Hp2 & Hrn2 & _).
  pose proof (run_wf _ _ _ Hwf1 Hr2) as Hwf2.
  cbn [run] in Hr.
  destruct (step (StdoutData h data) w2) as [w3|] eqn:Hs3; [|discriminate].
  pose proof (step_wf _ _ _ Hwf2 Hs3) as Hwf3.
  assert (H3 : task w3 = AwaitPort (List.length (starts w)) (orNull pid0) /\
               port (this w3) = Some n).
  { cbn [step] in Hs3. destruct (isLive h w2); [|discriminate].
    injection Hs3 as <-. unfold onStdout. rewrite Hdata. proj_simpl.
    split; [exact Ht2 | reflexivity]. }
  destruct H3 as (Ht3 & Hp3).
  rewrite brun_app in Hr.
  destruct (run chatter w3) as [w4|] eqn:Hr4; [|discriminate].
  pose proof (run_noise _ _ _ Hch Hr4) as ->.
  cbn [run] in Hr.
  destruct (step (PortPoll now) w3) as [w5|] eqn:Hs5; [|discriminate].
  pose proof (step_wf _ _ _ Hwf3 Hs5) as Hwf5.
  destruct (poll_sees_port _ _ _ _ _ _ Ht3 Hp3 Hn Hs5)
    as (Ht5 & Hrn5 & Hp5 & _ & _ & _ & _ & He5).
  rewrite brun_app in Hr.
  destruct (run probes w5) as [w6|] eqn:Hr6; [|discriminate].
  pose proof (run_wf _ _ _ Hwf5 Hr6) as Hwf6.
  destruct (run_probingAt probes w5 w6 (List.length (starts w)) n (orNull pid0) now
              (healthUrlOf n) Hwf5 (or_introl (or_introl Ht5)) Hpr Hr6)
    as (Ht6 & _ & Hrn6 & _ & new & He6 & Hf6).
  pose proof (run_port _ _ _ Hr6) as Hp6. rewrite Hp5 in Hp6.
  cbn [run step] in Hr.
  destruct Ht6 as [[Ht6|Ht6]|Ht6]; rewrite Ht6 in Hr; try discriminate Hr.
  destruct (wf_task _ Hwf6 (List.length (starts w))) as (_ & Hpend & Hlt);
    [rewrite Ht6; reflexivity|].
  cbn [afterProbe insideTry tryCatch finallyBlock asyncBoundary fst snd] in Hr.
  injection Hr as <-. proj_simpl.
  split; [apply nth_settleAt_eq; assumption|].
  split; [congruence|]. split; [exact Hp6|]. split; [reflexivity|].
  split; [reflexivity|].
  exists w3, new. split.
  - cbn [run]. rewrite Hs1, brun_app, Hr2. cbn [run]. rewrite Hs3. exact Hr4.
  - split; [|exact Hf6]. rewrite He6, He5. reflexivity.
Qed.

(** X4.  Port 0.  [waitForPort] resolves as soon as [this.port] is not
    [null], also with the number 0, and [isRunning] is set; [waitForHealthy]
    then finds [this.port] falsy and throws before any request.  [start()]
    is fulfilled with the error "Cannot check health: port not available",
    while the manager stays marked as running with port 0: [getStatus()]
    reports [isRunning = true], [port = 0], and [getBaseUrl()] is [null]. *)
Theorem X4_port_zero :
  forall pre w p pid now,
    run pre fresh = Some w ->
    task w = AwaitPort p pid ->
    port (this w) = Some 0 ->
    exists w',
      step (PortPoll now) w = Some w' /\
      settlement w' p =
        Some (Fulfilled {| bs_isRunning := false; bs_port := None; bs_pid := None;
                bs_error := Some "Cannot check health: port not available" |}) /\
      bs_isRunning (getStatus (this w')) = true /\
      bs_port (getStatus (this w')) = Some 0 /\
      getBaseUrl (this w') = None /\
      effects w' = effects w /\
      task w' = NoTask /\
      startupPromise (this w') = None.
Proof.
  intros pre w p pid now Hpre Ht Hport.
  pose proof (reachable_wf _ _ Hpre) as Hwf.
  destruct (wf_task _ Hwf p) as (_ & Hpend & Hlt); [rewrite Ht; reflexivity|].
  eexists. split.
  - cbn [step]. rewrite Ht, Hport. reflexivity.
  - unfold afterPort, waitForHealthy.
    cbn [this with_this port set_isRunning]. rewrite Hport.
    cbn [Z.eqb insideTry tryCatch finallyBlock asyncBoundary fst snd].
    unfold getStatus, getBaseUrl. proj_simpl. rewrite Hport.
    repeat split. apply nth_settleAt_eq; assumption.
Qed.

(** ** A promise that stays stored *)

(** X5.  [start()] on a manager that is already running.  With no promise
    stored and [isRunning = true], [_startInternal] returns before its
    [try] statement, so its [finally] never clears the promise that
    [start()] then stores.  From then on, whatever happens (the backend may
    exit), every call of [start()] returns that same promise, fulfilled
    with the status read at the first call, and no process is ever spawned
    again. *)
Theorem X5_start_while_running_is_cached :
  forall pre w sp evs w',
    run pre fresh = Some w ->
    startupPromise (this w) = None ->
    isRunning (this w) = true ->
    run (CallStart sp :: evs) w = Some w' ->
    startupPromise (this w') = Some (List.length (starts w)) /\
    settlement w' (List.length (starts w)) = Some (Fulfilled (getStatus (this w))) /\
    bs_isRunning (getStatus (this w)) = true /\
    (forall sp', start sp' w' = (w', List.length (starts w))) /\
    spawned w' = spawned w.
Proof.
  intros pre w sp evs w' Hpre Hsp Hrun Hr.
  cbn [run] in Hr.
  destruct (step (CallStart sp) w) as [w1|] eqn:Hs; [|discriminate].
  assert (H1 : Cached (List.length (starts w)) w1 /\ spawned w1 = spawned w /\
               settlement w1 (List.length (starts w)) =
                 Some (Fulfilled (getStatus (this w))) /\
               task w = NoTask).
  { pose proof (reachable_wf _ _ Hpre) as [Hwf _].
    assert (Ht : task w = NoTask).
    { destruct (task w) eqn:Ht; [reflexivity| | |];
        destruct (Hwf _ eq_refl) as (Hx & _); congruence. }
    cbn [step] in Hs. unfold start in Hs. rewrite Hsp in Hs.
    unfold _startInternal in Hs. cbn [this set_starts isRunning] in Hs.
    rewrite Hrun in Hs. cbn [asyncBoundary] in Hs. injection Hs as <-.
    unfold Cached, spawned. proj_simpl. repeat split; try assumption.
    apply nth_settle_new. }
  destruct H1 as (Hc & Hsp1 & Hset & _).
  destruct (run_cached _ _ _ _ Hc Hr) as ([Hc1 Hc2] & Ha & Hb).
  split; [exact Hc1|]. split.
  { unfold settlement in *. rewrite Hb. exact Hset. }
  split; [exact Hrun|]. split.
  { intros sp'. unfold start. rewrite Hc1. reflexivity. }
  congruence.
Qed.

(** X6.  [spawn] throws.  When [child_process.spawn] throws inside
    [_startInternal], the [catch] block builds the failed status and the
    [finally] block clears [startupPromise] while [_startInternal] is still
    running inside [start()]; [start()] then stores the promise of that
    call.  So the promise of the failed attempt stays stored: every later
    call of [start()] returns it, fulfilled with the message of the
    exception, and no later call spawns a process. *)
Theorem X6_spawn_failure_is_cached :
  forall pre w e evs w',
    run pre fresh = Some w ->
    startupPromise (this w) = None ->
    isRunning (this w) = false ->
    run (CallStart (SpawnThrows e) :: evs) w = Some w' ->
    startupPromise (this w') = Some (List.length (starts w)) /\
    settlement w' (List.length (starts w)) =
      Some (Fulfilled {| bs_isRunning := false; bs_port := None; bs_pid := None;
                         bs_error := Some (messageOf e) |}) /\
    (forall sp', start sp' w' = (w', List.length (starts w))) /\
    spawned w' = spawned w.
Proof.
  intros pre w e evs w' Hpre Hsp Hrun Hr.
  cbn [run] in Hr.
  destruct (step (CallStart (SpawnThrows e)) w) as [w1|] eqn:Hs; [|discriminate].
  assert (H1 : Cached (List.length (starts w)) w1 /\ spawned w1 = spawned w /\
               settlement w1 (List.length (starts w)) =
                 Some (Fulfilled (catchBlock e))).
  { cbn [step] in Hs. unfold start in Hs. rewrite Hsp in Hs.
    unfold _startInternal in Hs. cbn [this set_starts isRunning] in Hs.
    rewrite Hrun in Hs.
    cbn [insideTry tryCatch finallyBlock asyncBoundary fst snd] in Hs.
    injection Hs as <-.
    unfold Cached, spawned. proj_simpl. repeat split.
    apply nth_settle_new. }
  destruct H1 as (Hc & Hsp1 & Hset).
  destruct (run_cached _ _ _ _ Hc Hr) as ([Hc1 Hc2] & Ha & Hb).
  split; [exact Hc1|]. split.
  { unfold settlement in *. rewrite Hb. exact Hset. }
  split.
  { intros sp'. unfold start. rewrite Hc1. reflexivity. }
  congruence.
Qed.

(** ** After a timeout *)

Lemma step_idleTick : forall ev w w' p pid,
  task w = AwaitPort p pid -> port (this w) = None ->
  idleTick ev = true -> step ev w = Some w' -> w' = w.
Proof.
  intros ev w w' p pid Ht Hport Hi Hs.
  destruct ev; cbn [idleTick] in Hi; try (cbn [noise] in Hi; discriminate Hi);
    try (eapply step_noise; eassumption).
  cbn [step] in Hs. rewrite Ht, Hport in Hs. now injection Hs as <-.
Qed.

Lemma run_idleTick : forall evs w w' p pid,
  task w = AwaitPort p pid -> port (this w) = None ->
  forallb idleTick evs = true -> run evs w = Some w' -> w' = w.
Proof.
  induction evs as [|ev evs IH]; cbn [run forallb]; intros w w' p pid Ht Hport Hi Hr.
  - now injection Hr as <-.
  - apply andb_true_iff in Hi as [Hi1 Hi2].
    destruct (step ev w) as [w1|] eqn:Hs; [|discriminate].
    rewrite (step_idleTick _ _ _ _ _ Ht Hport Hi1 Hs) in Hr. eapply IH; eassumption.
Qed.

(** X7.  A start attempt that times out does not end its child.  On an
    idle manager [start()] spawns a child; while the child prints nothing
    that announces a port, the ticks of the poll change nothing, and the
    startup timeout fulfils the promise with the timeout error.  No signal
    is sent to the child and it stays the tracked process.  The stored
    promise is cleared, so the next [start()] begins a new attempt with a
    new promise and spawns a second child while the first is still alive. *)
Theorem X7_timeout_leaves_child_running :
  forall pre w pid evs pid2 w',
    run pre fresh = Some w ->
    startupPromise (this w) = None ->
    isRunning (this w) = false ->
    port (this w) = None ->
    forallb idleTick evs = true ->
    run (CallStart (SpawnReturns pid) :: evs ++
         [PortTimeout; CallStart (SpawnReturns pid2)]) w = Some w' ->
    settlement w' (List.length (starts w)) =
      Some (Fulfilled {| bs_isRunning := false; bs_port := None; bs_pid := None;
              bs_error := Some "Backend did not announce port within timeout" |}) /\
    signals w' = signals w /\
    spawned w' =
      [Spawn {| handle := S (nextHandle w); cp_pid := pid2 |};
       Spawn {| handle := nextHandle w; cp_pid := pid |}] ++ spawned w /\
    live w' = S (nextHandle w) :: nextHandle w :: live w /\
    process (this w') = Some {| handle := S (nextHandle w); cp_pid := pid2 |} /\
    task w' = AwaitPort (S (List.length (starts w))) (orNull pid2) /\
    settlement w' (S (List.length (starts w))) = None /\
    (exists w1,
       run (CallStart (SpawnReturns pid) :: evs ++ [PortTimeout]) w = Some w1 /\
       process (this w1) = Some {| handle := nextHandle w; cp_pid := pid |} /\
       live w1 = nextHandle w :: live w /\
       startupPromise (this w1) = None).
Proof.
  intros pre w pid evs pid2 w' Hpre Hsp Hrun Hport Hi Hr.
  pose proof (reachable_wf _ _ Hpre) as Hwf.
  cbn [run] in Hr.
  destruct (step (CallStart (SpawnReturns pid)) w) as [w1|] eqn:Hs1; [|discriminate].
  pose proof (step_wf _ _ _ Hwf Hs1) as Hwf1.
  destruct (start_idle _ _ _ Hsp Hrun Hs1)
    as (Ht1 & Hp1 & Hr1 & Hpr1 & Hl1 & Hn1 & Hsp1 & Hst1 & He1).
  rewrite Hport in Hp1.
  rewrite brun_app in Hr.
  destruct (run evs w1) as [w2|] eqn:Hr2; [|discriminate].
  pose proof (run_idleTick _ _ _ _ _ Ht1 Hp1 Hi Hr2) as ->.
  cbn [run] in Hr.
  destruct (step PortTimeout w1) as [w3|] eqn:Hs3; [|discriminate].
  pose proof (step_wf _ _ _ Hwf1 Hs3) as Hwf3.
  destruct (wf_task _ Hwf1 (List.length (starts w))) as (_ & Hpend & Hlt);
    [rewrite Ht1; reflexivity|].
  assert (H3 : startupPromise (this w3) = None /\ isRunning (this w3) = false /\
               process (this w3) = process (this w1) /\ live w3 = live w1 /\
               nextHandle w3 = nextHandle w1 /\ effects w3 = effects w1 /\
               List.length (starts w3) = List.length (starts w1) /\
               settlement w3 (List.length (starts w)) =
                 Some (failed portTimeoutError)).
  { cbn [step] in Hs3. rewrite Ht1 in Hs3.
    cbn [insideTry tryCatch finallyBlock asyncBoundary fst snd] in Hs3.
    injection Hs3 as <-. proj_simpl. repeat split; try assumption.
    - apply settleAt_length.
    - apply nth_settleAt_eq; assumption. }
  destruct H3 as (Hsp3 & Hrn3 & Hpr3 & Hl3 & Hn3 & He3 & Hst3 & Hset3).
  destruct (step (CallStart (SpawnReturns pid2)) w3) as [w4|] eqn:Hs4; [|discriminate].
  injection Hr as <-.
  destruct (start_idle _ _ _ Hsp3 Hrn3 Hs4)
    as (Ht4 & Hp4 & Hr4 & Hpr4 & Hl4 & Hn4 & Hsp4 & Hst4 & He4).
  pose proof (step_wf _ _ _ Hwf3 Hs4) as Hwf4.
  assert (Hlen : List.length (starts w3) = S (List.length (starts w))).
  { rewrite Hst3, Hst1, length_app. cbn. lia. }
  rewrite Hlen in *.
  split; [exact (step_settled _ _ _ _ _ Hs4 Hset3)|].
  unfold signals, spawned. rewrite He4, He3, He1, Hn3, Hn1.
  split; [reflexivity|]. split; [reflexivity|].
  split; [rewrite Hl4, Hl3, Hl1, Hn3, Hn1; reflexivity|].
  split; [rewrite Hpr4, Hn3, Hn1; reflexivity|].
  split; [exact Ht4|].
  split; [apply (wf_task _ Hwf4); rewrite Ht4; reflexivity|].
  exists w3. split.
  - cbn [run]. rewrite Hs1, brun_app, Hr2. cbn [run]. rewrite Hs3. reflexivity.
  - rewrite Hpr3, Hl3. repeat split; assumption.
Qed.

(** ** Handles *)

Lemma Forall_remove : forall (P : nat -> Prop) h l,
  Forall P l -> Forall P (remove Nat.eq_dec h l).
Proof.
  intros P h l Hl. induction Hl as [|x l Hx Hl IH]; cbn; [constructor|].
  destruct (Nat.eq_dec h x); [exact IH | constructor; assumption].
Qed.

Lemma Forall_lt_S : forall n l,
  Forall (fun h => (h < n)%nat) l -> Forall (fun h => (h < S n)%nat) l.
Proof. intros n l H. eapply Forall_impl; [|exact H]. cbn. intros; lia. Qed.

Lemma fresh_handles : HandlesFresh fresh.
Proof. split; [discriminate | constructor]. Qed.

Lemma step_handles : forall ev w w',
  HandlesFresh w -> step ev w = Some w' -> HandlesFresh w'.
Proof.
  intros ev w w' [H1 H2] Hs. unfold HandlesFresh.
  destruct ev; open_bstep Hs; try discriminate Hs; injection Hs as <-; proj_simpl.
  all: try (split; assumption).
  all: try (split; [discriminate | apply Forall_remove; assumption]).
  all: try (split; [intros c' Hc'; apply H1; congruence | assumption]).
  all: split;
    [ intros c' Hc'; injection Hc' as <-; cbn; lia
    | constructor; [lia | apply Forall_lt_S; assumption] ].
Qed.

Lemma reachable_handles : forall pre w, run pre fresh = Some w -> HandlesFresh w.
Proof.
  intros pre. generalize fresh_handles. generalize fresh.
  induction pre as [|ev pre IH]; cbn [run]; intros w0 H0 w Hr.
  - now injection Hr as <-.
  - destruct (step ev w0) as [w1|] eqn:Hs; [|discriminate].
    exact (IH _ (step_handles _ _ _ H0 Hs) _ Hr).
Qed.

(** X8.  The 5000 ms timer of [stop()] is never cancelled, and when it
    fires it kills whatever process is tracked then.  If the stopped process
    exits in time and [start()] spawns a new one before the timer fires,
    the timer sends SIGKILL to the new process, which [stop()] never
    addressed. *)
Theorem X8_kill_timer_hits_restarted_process :
  forall pre w c code pid w',
    run pre fresh = Some w ->
    process (this w) = Some c ->
    startupPromise (this w) = None ->
    run [CallStop; ProcessClose (handle c) code; CallStart (SpawnReturns pid);
         KillTimer] w = Some w' ->
    handle c <> nextHandle w /\
    process (this w') = Some {| handle := nextHandle w; cp_pid := pid |} /\
    effects w' =
      Kill (nextHandle w) SIGKILL ::
      [StartReturned (List.length (starts w)); SetInterval 100;
       SetTimeout BACKEND_STARTUP_TIMEOUT_MS;
       Spawn {| handle := nextHandle w; cp_pid := pid |}] ++
      [StopReturned (List.length (stops w)); SetTimeout 5000;
       Kill (handle c) SIGTERM] ++ effects w.
Proof.
  intros pre w c code pid w' Hpre Hproc Hsp Hr.
  destruct (reachable_handles _ _ Hpre) as [Hfresh _].
  specialize (Hfresh _ Hproc).
  split; [lia|].
  cbn [run] in Hr.
  destruct (step CallStop w) as [w1|] eqn:Hs1; [|discriminate].
  cbn [step] in Hs1. unfold stop in Hs1. rewrite Hproc in Hs1. injection Hs1 as Hw1.
  destruct (step (ProcessClose (handle c) code) w1) as [w2|] eqn:Hs2; [|discriminate].
  assert (H2 : startupPromise (this w2) = None /\ isRunning (this w2) = false /\
               nextHandle w2 = nextHandle w /\ starts w2 = starts w /\
               killTimers w2 = S (killTimers w) /\
               effects w2 = [StopReturned (List.length (stops w)); SetTimeout 5000;
                             Kill (handle c) SIGTERM] ++ effects w).
  { rewrite <- Hw1 in Hs2. open_bstep Hs2; try discriminate Hs2;
      injection Hs2 as <-; proj_simpl; repeat split; assumption. }
  destruct H2 as (Hsp2 & Hrn2 & Hn2 & Hst2 & Hk2 & He2).
  destruct (step (CallStart (SpawnReturns pid)) w2) as [w3|] eqn:Hs3; [|discriminate].
  destruct (start_idle _ _ _ Hsp2 Hrn2 Hs3)
    as (_ & _ & _ & Hpr3 & _ & _ & _ & _ & He3).
  assert (Hk3 : killTimers w3 = S (killTimers w)).
  { rewrite <- Hk2. clear - Hs3 Hsp2 Hrn2.
    cbn [step] in Hs3. unfold start in Hs3. rewrite Hsp2 in Hs3.
    unfold _startInternal in Hs3. cbn [this set_starts isRunning] in Hs3.
    rewrite Hrn2 in Hs3.
    cbn [insideTry tryCatch finallyBlock asyncBoundary fst snd] in Hs3.
    injection Hs3 as <-. unfold waitForPort. proj_simpl. reflexivity. }
  cbn [step] in Hr. rewrite Hk3 in Hr. unfold forceKill in Hr.
  cbn [this set_killTimers] in Hr. rewrite Hpr3 in Hr. injection Hr as <-.
  proj_simpl. rewrite Hpr3, He3, He2, Hn2, Hst2. split; reflexivity.
Qed.

(** ** Running implies a port *)

Lemma parseInt_nonneg_from : forall l acc,
  forallb isDigit l = true -> 0 <= acc ->
  0 <= fold_left (fun a c => 10 * a + digitValue c) l acc.
Proof.
  induction l as [|c l IH]; cbn [fold_left forallb]; intros acc Hd Hacc; [exact Hacc|].
  apply andb_true_iff in Hd as [Hc Hl]. apply IH; [exact Hl|].
  unfold isDigit in Hc. apply andb_true_iff in Hc as [Hlo Hhi].
  apply Nat.leb_le in Hlo. unfold digitValue. lia.
Qed.

Lemma announcedPort_nonneg : forall data n, announcedPort data = Some n -> 0 <= n.
Proof.
  intros data n H. unfold announcedPort in H.
  destruct (matchPORT (trim data)) as [ds|] eqn:Hm; [|discriminate].
  injection H as <-.
  destruct (StringFacts.matchPORT_Some _ _ Hm) as (pre & rest & _ & _ & Hall & _).
  unfold parseInt, decimalValue.
  apply NumberFacts.toDouble_nonneg, parseInt_nonneg_from; [exact Hall | lia].
Qed.

Lemma fresh_port_known : PortKnown fresh.
Proof. split; discriminate. Qed.

Lemma step_port_known : forall ev w w',
  PortKnown w -> step ev w = Some w' -> PortKnown w'.
Proof.
  intros ev w w' [H1 H2] Hs. unfold PortKnown.
  destruct ev; open_bstep Hs; try discriminate Hs; injection Hs as <-; proj_simpl.
  all: try (split; assumption).
  all: try (split; [discriminate | discriminate]).
  all: try (split; [intros _; discriminate |
                    intros k Hk; injection Hk as <-;
                    eapply announcedPort_nonneg; eassumption]).
  all: try (split; [intros _; congruence | assumption]).
  all: split;
    [ intros Hr; first [ congruence | apply H1; congruence
                       | exfalso; apply H1; congruence ]
    | intros k Hk; apply H2; congruence ].
Qed.

Lemma reachable_port_known : forall pre w, run pre fresh = Some w -> PortKnown w.
Proof.
  intros pre. generalize fresh_port_known. generalize fresh.
  induction pre as [|ev pre IH]; cbn [run]; intros w0 H0 w Hr.
  - now injection Hr as <-.
  - destruct (step ev w0) as [w1|] eqn:Hs; [|discriminate].
    exact (IH _ (step_port_known _ _ _ H0 Hs) _ Hr).
Qed.

(** X9.  In every state the manager can reach: when it is marked as
    running a port is recorded and some spawned child has not exited yet;
    a recorded port is never negative; [getBaseUrl()] is [null] exactly when
    no port or the port 0 is recorded, and otherwise it is the text
    [http://127.0.0.1:] followed by the recorded port as a template literal
    prints it.  For a port of at most 2^53 - 1 these are its decimal digits.
    A longer run of digits is read as the nearest double and printed in its
    shortest form: [PORT:9007199254740993] gives the URL of port
    9007199254740992, and [PORT:1000000000000000000000] gives
    [http://127.0.0.1:1e+21]. *)
Theorem X9_running_implies_port :
  forall pre w,
    run pre fresh = Some w ->
    (isRunning (this w) = true ->
       (exists n, port (this w) = Some n) /\ live w <> []) /\
    (forall n, port (this w) = Some n -> 0 <= n) /\
    (forall u, getBaseUrl (this w) = Some u ->
       exists n, port (this w) = Some n /\ 0 < n /\
                 u = ("http://127.0.0.1:" ++ numberToString n)%string) /\
    (getBaseUrl (this w) = None <-> port (this w) = None \/ port (this w) = Some 0) /\
    (forall n, port (this w) = Some n -> n <= MAX_SAFE_INTEGER ->
       numberToString n = decimal n /\ allDigits (numberToString n) = true /\
       decimalValue (numberToString n) = n) /\
    getBaseUrl (onStdout "PORT:9007199254740993" initial) =
      Some "http://127.0.0.1:9007199254740992"%string /\
    getBaseUrl (onStdout "PORT:1000000000000000000000" initial) =
      Some "http://127.0.0.1:1e+21"%string.
Proof.
  intros pre w Hpre.
  destruct (reachable_port_known _ _ Hpre) as [H1 H2].
  pose proof (reachable_quiescent _ _ Hpre) as Hq.
  split; [|split; [exact H2|split; [|split; [|split; [|split; by_eval]]]]].
  4:{ intros n Hn Hmax.
      assert (Hsafe : n < 2 ^ 53) by (unfold MAX_SAFE_INTEGER in Hmax; lia).
      rewrite (NumberFacts.numberToString_safe _ Hsafe).
      destruct (AnnouncementFacts.decimal_round_trip n (H2 n Hn)) as (_ & Hd & Hv).
      split; [reflexivity|]. split; assumption. }
  - intros Hrun. split.
    + destruct (port (this w)) as [n|] eqn:Hp; [now exists n|].
      exfalso. exact (H1 Hrun eq_refl).
    + intros Hl. destruct (Hq Hl) as (_ & _ & Hr). congruence.
  - intros u Hu. unfold getBaseUrl in Hu.
    destruct (port (this w)) as [n|] eqn:Hp; cbn [truthy option_map] in Hu;
      [|discriminate].
    destruct (Z.eqb_spec n 0) as [Hz|Hnz]; cbn [negb] in Hu; [discriminate|].
    injection Hu as <-. exists n. specialize (H2 n eq_refl).
    repeat split; [lia].
  - unfold getBaseUrl. destruct (port (this w)) as [n|] eqn:Hp;
      cbn [truthy option_map].
    + destruct (Z.eqb_spec n 0) as [Hz|Hnz]; cbn [negb]; split; intros H;
        try discriminate H; subst; auto.
      destruct H as [H|H]; [discriminate | injection H as ->; contradiction].
    + split; auto.
Qed.

Lemma close_clears_url : forall h code w w',
  step (ProcessClose h code) w = Some w' -> getBaseUrl (this w') = None.
Proof.
  intros h code w w' Hs. open_bstep Hs; try discriminate Hs;
    injection Hs as <-; reflexivity.
Qed.

(** X10.  A recorded port is reused.  [_startInternal] does not clear
    [this.port].  When a port [n] is still recorded as [start()] is called
    (announced by a child that an earlier, timed-out attempt left running),
    the first tick of the new poll resolves with [n] at once: the manager is
    marked as running and the first readiness request goes to port [n],
    before the new child has printed anything. *)
Theorem X10_recorded_port_is_reused :
  forall pre w n pid now w',
    run pre fresh = Some w ->
    startupPromise (this w) = None ->
    isRunning (this w) = false ->
    port (this w) = Some n ->
    n <> 0 ->
    run [CallStart (SpawnReturns pid); PortPoll now] w = Some w' ->
    task w' = AwaitProbe (List.length (starts w)) n (orNull pid) now (healthUrlOf n) /\
    isRunning (this w') = true /\
    port (this w') = Some n /\
    process (this w') = Some {| handle := nextHandle w; cp_pid := pid |} /\
    effects w' =
      HttpGet (healthUrlOf n) 2000 ::
      [StartReturned (List.length (starts w)); SetInterval 100;
       SetTimeout BACKEND_STARTUP_TIMEOUT_MS;
       Spawn {| handle := nextHandle w; cp_pid := pid |}] ++ effects w.
Proof.
  intros pre w n pid now w' Hpre Hsp Hrun Hport Hn Hr.
  cbn [run] in Hr.
  destruct (step (CallStart (SpawnReturns pid)) w) as [w1|] eqn:Hs1; [|discriminate].
  destruct (start_idle _ _ _ Hsp Hrun Hs1) as (Ht1 & Hp1 & _ & Hpr1 & _ & _ & _ & _ & He1).
  rewrite Hport in Hp1.
  destruct (step (PortPoll now) w1) as [w2|] eqn:Hs2; [|discriminate].
  injection Hr as <-.
  destruct (poll_sees_port _ _ _ _ _ _ Ht1 Hp1 Hn Hs2)
    as (Ht2 & Hr2 & Hp2 & Hpr2 & _ & _ & _ & He2).
  rewrite Hpr2, Hpr1, He2, He1. repeat split; assumption.
Qed.

(** ** The interval of a call that timed out *)

Lemma step_stale : forall ev w w',
  port (this w) = None -> announces ev = false -> step ev w = Some w' ->
  port (this w') = None /\ (staleIntervals w <= staleIntervals w')%nat.
Proof.
  intros ev w w' Hport Ha Hs.
  destruct ev; cbn [announces] in Ha; open_bstep Hs; try discriminate Hs;
    try congruence; injection Hs as <-; proj_simpl;
    split; try reflexivity; try assumption; try lia; congruence.
Qed.

(** X11.  The poll of a timed-out attempt is never cleared.
    [waitForPort] clears its 100 ms interval only in the tick that finds a
    port.  When its timeout fires first, the interval stays armed; as long
    as no chunk announces a port, it keeps ticking and is never cleared,
    whatever else happens (the process may exit, [stop()] and [start()] may
    be called).  Each such attempt adds one interval. *)
Theorem X11_poll_interval_leaks :
  forall w p pid evs w1 w',
    task w = AwaitPort p pid ->
    port (this w) = None ->
    existsb announces evs = false ->
    step PortTimeout w = Some w1 ->
    run evs w1 = Some w' ->
    staleIntervals w1 = S (staleIntervals w) /\
    (staleIntervals w1 <= staleIntervals w')%nat /\
    port (this w') = None /\
    step StalePoll w' = Some w'.
Proof.
  intros w p pid evs w1 w' Ht Hport Ha Hs Hr.
  assert (H1 : staleIntervals w1 = S (staleIntervals w) /\ port (this w1) = None).
  { cbn [step] in Hs. rewrite Ht in Hs.
    cbn [insideTry tryCatch finallyBlock asyncBoundary fst snd] in Hs.
    injection Hs as <-. proj_simpl. split; [reflexivity | assumption]. }
  destruct H1 as (Hk1 & Hp1).
  assert (H2 : forall evs w1 w', port (this w1) = None ->
            existsb announces evs = false -> run evs w1 = Some w' ->
            port (this w') = None /\ (staleIntervals w1 <= staleIntervals w')%nat).
  { clear. induction evs as [|ev evs IH]; cbn [run existsb]; intros w1 w' Hp Ha Hr.
    - injection Hr as <-. split; [assumption | lia].
    - apply orb_false_iff in Ha as [Ha1 Ha2].
      destruct (step ev w1) as [w2|] eqn:Hs; [|discriminate].
      destruct (step_stale _ _ _ Hp Ha1 Hs) as (Hp2 & Hk2).
      destruct (IH _ _ Hp2 Ha2 Hr) as (Hp3 & Hk3). split; [assumption | lia]. }
  destruct (H2 _ _ _ Hp1 Ha Hr) as (Hp' & Hk').
  split; [exact Hk1|]. split; [exact Hk'|]. split; [exact Hp'|].
  cbn [step]. destruct (staleIntervals w') eqn:Hk; [lia|].
  rewrite Hp'. reflexivity.
Qed.

(** ** Instances on sample runs *)

Lemma X3_start_succeeds_witness :
  run demo_success fresh = Some (after demo_success) /\
  settlement (after demo_success) 0%nat =
    Some (Fulfilled (started 54321 (Some 4242))).
Proof.
  assert (H0 : run [] fresh = Some fresh) by reflexivity.
  assert (H1 : run demo_success fresh = Some (after demo_success)) by by_eval.
  assert (H2 : existsb announces [StdoutData 0 "noise"; PortPoll 100] = false) by by_eval.
  assert (H3 : existsb isPortTimeout [StdoutData 0 "noise"; PortPoll 100] = false)
    by by_eval.
  assert (H4 : announcedPort "PORT:54321" = Some 54321) by by_eval.
  assert (H5 : 54321 <> 0) by discriminate.
  assert (H6 : forallb noise [StdoutData 0 "more noise"] = true) by by_eval.
  assert (H7 : forallb duringProbe [ProbeReply ProbeFailed 210; RetryWake 710] = true)
    by by_eval.
  pose proof (X3_start_succeeds [] fresh (Some 4242)
                [StdoutData 0 "noise"; PortPoll 100] 0%nat "PORT:54321" 54321
                [StdoutData 0 "more noise"] 200
                [ProbeReply ProbeFailed 210; RetryWake 710] 720 (after demo_success)
                H0 eq_refl eq_refl eq_refl H2 H3 H4 H5 H6 H7 H1) as (Ha & _).
  exact (conj H1 Ha).
Defined.

Lemma X4_port_zero_witness :
  run demo_port_zero fresh = Some (after demo_port_zero) /\
  exists w',
    step (PortPoll 100) (after demo_port_zero) = Some w' /\
    settlement w' 0%nat =
      Some (Fulfilled {| bs_isRunning := false; bs_port := None; bs_pid := None;
              bs_error := Some "Cannot check health: port not available" |}) /\
    bs_isRunning (getStatus (this w')) = true /\
    bs_port (getStatus (this w')) = Some 0 /\
    getBaseUrl (this w') = None.
Proof.
  assert (H1 : run demo_port_zero fresh = Some (after demo_port_zero)) by by_eval.
  assert (H2 : task (after demo_port_zero) = AwaitPort 0%nat (Some 4242)) by by_eval.
  assert (H3 : port (this (after demo_port_zero)) = Some 0) by by_eval.
  split; [exact H1|].
  destruct (X4_port_zero demo_port_zero (after demo_port_zero) 0%nat (Some 4242) 100
              H1 H2 H3) as (w' & Ha & Hb & Hc & Hd & He & _).
  exists w'. exact (conj Ha (conj Hb (conj Hc (conj Hd He)))).
Defined.

Lemma X5_start_while_running_is_cached_witness :
  run demo_startup fresh = Some (after demo_startup) /\
  run (CallStart (SpawnReturns (Some 4243)) :: demo_after_exit) (after demo_startup) =
    Some (after (demo_startup ++ CallStart (SpawnReturns (Some 4243)) :: demo_after_exit)) /\
  spawned (after (demo_startup ++ CallStart (SpawnReturns (Some 4243)) :: demo_after_exit))
    = spawned (after demo_startup).
Proof.
  assert (H1 : run demo_startup fresh = Some (after demo_startup)) by by_eval.
  assert (H2 : startupPromise (this (after demo_startup)) = None) by by_eval.
  assert (H3 : isRunning (this (after demo_startup)) = true) by by_eval.
  assert (H4 : run (CallStart (SpawnReturns (Some 4243)) :: demo_after_exit)
                 (after demo_startup) =
               Some (after (demo_startup ++
                            CallStart (SpawnReturns (Some 4243)) :: demo_after_exit)))
    by by_eval.
  destruct (X5_start_while_running_is_cached demo_startup (after demo_startup)
              (SpawnReturns (Some 4243)) demo_after_exit _ H1 H2 H3 H4)
    as (_ & _ & _ & _ & Ha).
  exact (conj H1 (conj H4 Ha)).
Defined.

Lemma X6_spawn_failure_is_cached_witness :
  run (CallStart (SpawnThrows (ErrorObject "spawn EPERM")) ::
       [CallStart (SpawnReturns (Some 4242))]) fresh =
    Some (after (CallStart (SpawnThrows (ErrorObject "spawn EPERM")) ::
                 [CallStart (SpawnReturns (Some 4242))])) /\
  spawned (after (CallStart (SpawnThrows (ErrorObject "spawn EPERM")) ::
                  [CallStart (SpawnReturns (Some 4242))])) = spawned fresh.
Proof.
  assert (H0 : run [] fresh = Some fresh) by reflexivity.
  assert (H1 : run (CallStart (SpawnThrows (ErrorObject "spawn EPERM")) ::
                    [CallStart (SpawnReturns (Some 4242))]) fresh =
               Some (after (CallStart (SpawnThrows (ErrorObject "spawn EPERM")) ::
                            [CallStart (SpawnReturns (Some 4242))]))) by by_eval.
  destruct (X6_spawn_failure_is_cached [] fresh (ErrorObject "spawn EPERM")
              [CallStart (SpawnReturns (Some 4242))] _ H0 eq_refl eq_refl H1)
    as (_ & _ & _ & Ha).
  exact (conj H1 Ha).
Defined.

Lemma X7_timeout_leaves_child_running_witness :
  run (CallStart (SpawnReturns (Some 4242)) :: demo_silent_child ++
       [PortTimeout; CallStart (SpawnReturns (Some 4243))]) fresh =
    Some (after (CallStart (SpawnReturns (Some 4242)) :: demo_silent_child ++
                 [PortTimeout; CallStart (SpawnReturns (Some 4243))])) /\
  live (after (CallStart (SpawnReturns (Some 4242)) :: demo_silent_child ++
               [PortTimeout; CallStart (SpawnReturns (Some 4243))]))
    = [1%nat; 0%nat] /\
  signals (after (CallStart (SpawnReturns (Some 4242)) :: demo_silent_child ++
                  [PortTimeout; CallStart (SpawnReturns (Some 4243))]))
    = signals fresh.
Proof.
  assert (H0 : run [] fresh = Some fresh) by reflexivity.
  assert (H1 : run (CallStart (SpawnReturns (Some 4242)) :: demo_silent_child ++
                    [PortTimeout; CallStart (SpawnReturns (Some 4243))]) fresh =
               Some (after (CallStart (SpawnReturns (Some 4242)) :: demo_silent_child ++
                            [PortTimeout; CallStart (SpawnReturns (Some 4243))])))
    by by_eval.
  assert (H2 : forallb idleTick demo_silent_child = true) by by_eval.
  destruct (X7_timeout_leaves_child_running [] fresh (Some 4242) demo_silent_child
              (Some 4243) _ H0 eq_refl eq_refl eq_refl H2 H1)
    as (_ & Ha & _ & Hb & _).
  exact (conj H1 (conj Hb Ha)).
Defined.

Lemma X8_kill_timer_hits_restarted_process_witness :
  run demo_startup fresh = Some (after demo_startup) /\
  process (this (after demo_startup)) = Some {| handle := 0; cp_pid := Some 4242 |} /\
  run [CallStop; ProcessClose 0 (Some 0); CallStart (SpawnReturns (Some 4243));
       KillTimer] (after demo_startup) =
    Some (after (demo_startup ++
                 [CallStop; ProcessClose 0 (Some 0);
                  CallStart (SpawnReturns (Some 4243)); KillTimer])) /\
  process (this (after (demo_startup ++
                        [CallStop; ProcessClose 0 (Some 0);
                         CallStart (SpawnReturns (Some 4243)); KillTimer])))
    = Some {| handle := nextHandle (after demo_startup); cp_pid := Some 4243 |}.
Proof.
  assert (H1 : run demo_startup fresh = Some (after demo_startup)) by by_eval.
  assert (H2 : process (this (after demo_startup)) =
               Some {| handle := 0; cp_pid := Some 4242 |}) by by_eval.
  assert (H3 : startupPromise (this (after demo_startup)) = None) by by_eval.
  assert (H4 : run [CallStop; ProcessClose 0 (Some 0);
                    CallStart (SpawnReturns (Some 4243)); KillTimer]
                 (after demo_startup) =
               Some (after (demo_startup ++
                            [CallStop; ProcessClose 0 (Some 0);
                             CallStart (SpawnReturns (Some 4243)); KillTimer])))
    by by_eval.
  destruct (X8_kill_timer_hits_restarted_process demo_startup (after demo_startup)
              {| handle := 0; cp_pid := Some 4242 |} (Some 0) (Some 4243) _
              H1 H2 H3 H4) as (_ & Ha & _).
  exact (conj H1 (conj H2 (conj H4 Ha))).
Defined.

Lemma X9_running_implies_port_witness :
  run demo_startup fresh = Some (after demo_startup) /\
  isRunning (this (after demo_startup)) = true /\
  (exists n, port (this (after demo_startup)) = Some n) /\
  live (after demo_startup) <> [].
Proof.
  assert (H1 : run demo_startup fresh = Some (after demo_startup)) by by_eval.
  assert (H2 : isRunning (this (after demo_startup)) = true) by by_eval.
  destruct (X9_running_implies_port demo_startup (after demo_startup) H1) as (Ha & _).
  destruct (Ha H2) as (Hb & Hc).
  exact (conj H1 (conj H2 (conj Hb Hc))).
Defined.

Lemma X10_recorded_port_is_reused_witness :
  run demo_late_announcement fresh = Some (after demo_late_announcement) /\
  port (this (after demo_late_announcement)) = Some 54321 /\
  run [CallStart (SpawnReturns (Some 4243)); PortPoll 100] (after demo_late_announcement) =
    Some (after (demo_late_announcement ++
                 [CallStart (SpawnReturns (Some 4243)); PortPoll 100])) /\
  isRunning (this (after (demo_late_announcement ++
                          [CallStart (SpawnReturns (Some 4243)); PortPoll 100]))) = true.
Proof.
  assert (H1 : run demo_late_announcement fresh = Some (after demo_late_announcement))
    by by_eval.
  assert (H2 : startupPromise (this (after demo_late_announcement)) = None) by by_eval.
  assert (H3 : isRunning (this (after demo_late_announcement)) = false) by by_eval.
  assert (H4 : port (this (after demo_late_announcement)) = Some 54321) by by_eval.
  assert (H5 : 54321 <> 0) by discriminate.
  assert (H6 : run [CallStart (SpawnReturns (Some 4243)); PortPoll 100]
                 (after demo_late_announcement) =
               Some (after (demo_late_announcement ++
                            [CallStart (SpawnReturns (Some 4243)); PortPoll 100])))
    by by_eval.
  destruct (X10_recorded_port_is_reused demo_late_announcement
              (after demo_late_announcement) 54321 (Some 4243) 100 _
              H1 H2 H3 H4 H5 H6) as (_ & Ha & _).
  exact (conj H1 (conj H4 (conj H6 Ha))).
Defined.

Lemma X11_poll_interval_leaks_witness :
  task (after [CallStart (SpawnReturns (Some 4242))]) = AwaitPort 0%nat (Some 4242) /\
  step PortTimeout (after [CallStart (SpawnReturns (Some 4242))]) =
    Some (after demo_timed_out) /\
  run [ProcessClose 0 None; CallStop] (after demo_timed_out) =
    Some (after (demo_timed_out ++ [ProcessClose 0 None; CallStop])) /\
  step StalePoll (after (demo_timed_out ++ [ProcessClose 0 None; CallStop])) =
    Some (after (demo_timed_out ++ [ProcessClose 0 None; CallStop])).
Proof.
  assert (H1 : task (after [CallStart (SpawnReturns (Some 4242))]) =
               AwaitPort 0%nat (Some 4242)) by by_eval.
  assert (H2 : port (this (after [CallStart (SpawnReturns (Some 4242))])) = None)
    by by_eval.
  assert (H3 : existsb announces [ProcessClose 0 None; CallStop] = false) by by_eval.
  assert (H4 : step PortTimeout (after [CallStart (SpawnReturns (Some 4242))]) =
               Some (after demo_timed_out)) by by_eval.
  assert (H5 : run [ProcessClose 0 None; CallStop] (after demo_timed_out) =
               Some (after (demo_timed_out ++ [ProcessClose 0 None; CallStop])))
    by by_eval.
  destruct (X11_poll_interval_leaks (after [CallStart (SpawnReturns (Some 4242))])
              0%nat (Some 4242) [ProcessClose 0 None; CallStop] _ _
              H1 H2 H3 H4 H5) as (_ & _ & _ & Ha).
  exact (conj H1 (conj H4 (conj H5 Ha))).
Defined.

End LifecycleFacts.

(* ================================================================== *)
(** * Further properties of the health monitor *)
(* ================================================================== *)

Module MonitorFacts.
Import JS Shared Health Monitor.
Import HealthFacts.
Local Open Scope string_scope.

(** ** The URL of a check *)

Lemma replace_skip : forall c s by_,
  Ascii.eqb "l" c = false ->
  replace "localhost" by_ (String c s) = String c (replace "localhost" by_ s).
Proof. intros c s by_ H. cbn [replace stripPrefix]. rewrite H. reflexivity. Qed.

Lemma replace_lacks : forall s by_,
  lacks "l" s = true -> replace "localhost" by_ s = s.
Proof.
  unfold lacks. induction s as [|c s IH]; intros by_ H; [reflexivity|].
  cbn [list_ascii_of_string forallb] in H. apply andb_true_iff in H as [Hc Hs].
  apply negb_true_iff in Hc. rewrite (replace_skip _ _ _ Hc), (IH _ Hs). reflexivity.
Qed.

Lemma lacks_uint : forall d, lacks "l" (NilEmpty.string_of_uint d) = true.
Proof.
  unfold lacks. induction d; cbn [NilEmpty.string_of_uint list_ascii_of_string forallb];
    [reflexivity|..]; rewrite IHd; reflexivity.
Qed.

Lemma lacks_nzuint : forall d, lacks "l" (NilZero.string_of_uint d) = true.
Proof.
  intros d. unfold NilZero.string_of_uint.
  destruct d; try reflexivity; apply lacks_uint.
Qed.

Lemma lacks_decimal : forall n, lacks "l" (decimal n) = true.
Proof.
  intros n. unfold decimal, NilZero.string_of_int.
  destruct (Z.to_int n) as [d|d]; [apply lacks_nzuint|].
  unfold lacks. cbn [list_ascii_of_string forallb].
  apply andb_true_iff. split; [reflexivity | apply lacks_nzuint].
Qed.

Lemma lacks_app : forall c a b, lacks c (a ++ b) = lacks c a && lacks c b.
Proof.
  unfold lacks. induction a as [|x a IH]; intros b; [reflexivity|].
  cbn [append list_ascii_of_string forallb]. rewrite IH. apply andb_assoc.
Qed.

Lemma lacks_dropTrailingZeros : forall c s,
  lacks c s = true -> lacks c (dropTrailingZeros s) = true.
Proof.
  unfold lacks. induction s as [|x s IH]; intros H; [reflexivity|].
  cbn [list_ascii_of_string forallb] in H. apply andb_true_iff in H as [Hx Hs].
  specialize (IH Hs). cbn [dropTrailingZeros].
  destruct (dropTrailingZeros s) as [|y t].
  - destruct (Ascii.eqb x "0"); [reflexivity|].
    cbn [list_ascii_of_string forallb]. rewrite Hx. reflexivity.
  - cbn [list_ascii_of_string forallb] in *. rewrite Hx, IH. reflexivity.
Qed.

Lemma lacks_exponential : forall c, lacks "l" (exponential c) = true.
Proof.
  intros c. unfold exponential.
  pose proof (lacks_dropTrailingZeros "l" _ (lacks_decimal c)) as Hd.
  pose proof (lacks_decimal (Z.of_nat (String.length (decimal c)) - 1)) as He.
  destruct (dropTrailingZeros (decimal c)) as [|d [|d' rest]]; [apply lacks_decimal|..].
  - unfold lacks in *. cbn [append list_ascii_of_string forallb] in *.
    apply andb_true_iff in Hd as [Hd _]. rewrite Hd, He. reflexivity.
  - assert (Hd1 : negb (Ascii.eqb "l" d) = true /\ lacks "l" (String d' rest) = true).
    { unfold lacks in *. cbn [list_ascii_of_string forallb] in Hd.
      apply andb_true_iff in Hd as [Hd1 Hd2]. split; [exact Hd1|].
      cbn [list_ascii_of_string forallb]. exact Hd2. }
    destruct Hd1 as [Hd1 Hd2].
    change (String d ("." ++ String d' rest ++ "e+" ++
              decimal (Z.of_nat (String.length (decimal c)) - 1)))
      with (String d EmptyString ++ "." ++ String d' rest ++ "e+" ++
              decimal (Z.of_nat (String.length (decimal c)) - 1)).
    rewrite !lacks_app, Hd2, He. unfold lacks. cbn [list_ascii_of_string forallb].
    rewrite Hd1. reflexivity.
Qed.

Lemma lacks_number : forall n, lacks "l" (numberToString n) = true.
Proof.
  intros n. unfold numberToString.
  destruct (INFINITY <=? n)%Z; [reflexivity|].
  destruct (n <? 2 ^ 53)%Z; [apply lacks_decimal|].
  match goal with
  | |- context [if (?c <? _)%Z then _ else _] => destruct (c <? 10 ^ 21)%Z
  end; [apply lacks_decimal | apply lacks_exponential].
Qed.

Lemma replace_base_url : forall n,
  replace "localhost" "127.0.0.1" ("http://127.0.0.1:" ++ numberToString n)
  = "http://127.0.0.1:" ++ numberToString n.
Proof.
  intros n. apply replace_lacks. unfold lacks.
  cbn [append list_ascii_of_string forallb].
  apply (lacks_number n).
Qed.

Lemma base_url_of_port : forall bm n,
  Backend.port bm = Some n -> n <> 0 ->
  Backend.getBaseUrl bm = Some ("http://127.0.0.1:" ++ numberToString n).
Proof.
  intros bm n Hport Hn. unfold Backend.getBaseUrl. rewrite Hport.
  cbn [truthy option_map]. destruct (Z.eqb_spec n 0); [contradiction | reflexivity].
Qed.

Lemma check_with_url : forall bm n now w,
  Backend.port bm = Some n -> n <> 0 ->
  performCheck bm now w =
    set_pendingChecks (S (pendingChecks w))
      (emit (HttpGet (Lifecycle.healthUrlOf n) HEALTH_CHECK_TIMEOUT_MS)
         (set_checksBegun (S (checksBegun w)) w)).
Proof.
  intros bm n now w Hport Hn. unfold performCheck.
  rewrite (base_url_of_port _ _ Hport Hn), replace_base_url.
  unfold Lifecycle.healthUrlOf. rewrite <- StringFacts.append_assoc_s. reflexivity.
Qed.

Lemma start_with_url : forall bm n now w,
  Backend.port bm = Some n -> n <> 0 -> isRunning (this w) = false ->
  isRunning (this (start bm now w)) = true /\
  mainWindow (this (start bm now w)) = mainWindow (this w) /\
  healthy (start bm now w) = true /\ cf (start bm now w) = 0 /\
  effects (start bm now w) =
    ([SetInterval (nextTimer w) HEALTH_CHECK_INTERVAL_MS;
      HttpGet (Lifecycle.healthUrlOf n) HEALTH_CHECK_TIMEOUT_MS] ++ effects w)%list /\
  armed (start bm now w) = nextTimer w :: armed w /\
  pendingChecks (start bm now w) = S (pendingChecks w).
Proof.
  intros bm n now w Hport Hn Hidle. unfold start. rewrite Hidle.
  rewrite (check_with_url _ _ _ _ Hport Hn).
  repeat split.
Qed.

(** X12.  The request of a check.  When the manager has a port [n] other
    than 0, a check sends one request to [http://127.0.0.1:n/health] with a
    timeout of 3000 ms: replacing [localhost] in the base URL never changes
    it, since [getBaseUrl()] is built from the literal address.  The check
    changes nothing else until the reply arrives.  The readiness wait of
    [start()] asks the same URL, with a timeout of 2000 ms. *)
Theorem X12_check_requests_health_url :
  forall bm n now w,
    Backend.port bm = Some n -> n <> 0 ->
    Backend.getBaseUrl bm = Some ("http://127.0.0.1:" ++ numberToString n) /\
    effects (performCheck bm now w) =
      HttpGet (Lifecycle.healthUrlOf n) HEALTH_CHECK_TIMEOUT_MS :: effects w /\
    HEALTH_CHECK_TIMEOUT_MS = 3000 /\
    pendingChecks (performCheck bm now w) = S (pendingChecks w) /\
    this (performCheck bm now w) = this w /\
    (forall bw p pid t bw',
       Backend.task bw = Backend.AwaitPort p pid ->
       Backend.port (Backend.this bw) = Some n ->
       Backend.step (Backend.PortPoll t) bw = Some bw' ->
       Backend.effects bw' =
         Backend.HttpGet (Lifecycle.healthUrlOf n) 2000 :: Backend.effects bw).
Proof.
  intros bm n now w Hport Hn.
  split; [exact (base_url_of_port _ _ Hport Hn)|].
  rewrite (check_with_url _ _ _ _ Hport Hn).
  repeat split.
  intros bw p pid t bw' Ht Hp Hs.
  destruct (BackendFacts.poll_sees_port _ _ _ _ _ _ Ht Hp Hn Hs)
    as (_ & _ & _ & _ & _ & _ & _ & He).
  exact He.
Qed.

(** ** What the user sees *)

Lemma step_detached : forall ev w w',
  windowUsable (this w) = false -> detached ev = true ->
  step ev w = Some w' ->
  windowUsable (this w') = false /\
  filter isUi (effects w') = filter isUi (effects w) /\
  (pendingDialogs w' <= pendingDialogs w)%nat.
Proof.
  intros ev w w' Hu Hd Hs.
  destruct_env w;
  destruct ev as [bm now| | | |id bm now|[| |] now|]; try discriminate Hd;
  try discriminate Hu;
  open_step Hs;
  eval_health; try discriminate; cbn [remove] in *;
  split_tests;
  repeat match goal with
    | H : context [match ?x with O => _ | S _ => _ end] |- _ => destruct x
    end; try discriminate;
  injection Hs as <-; eval_health; repeat split; try reflexivity; try lia.
Qed.

Lemma run_detached : forall tr w w',
  windowUsable (this w) = false -> forallb detached tr = true ->
  run tr w = Some w' ->
  windowUsable (this w') = false /\
  filter isUi (effects w') = filter isUi (effects w) /\
  (pendingDialogs w' <= pendingDialogs w)%nat.
Proof.
  induction tr as [|ev tr IH]; cbn [run forallb]; intros w w' Hu Hd Hr.
  - injection Hr as <-. repeat split; try assumption. lia.
  - apply andb_true_iff in Hd as [Hd1 Hd2].
    destruct (step ev w) as [w1|] eqn:Hs; [|discriminate].
    destruct (step_detached _ _ _ Hu Hd1 Hs) as (Ha & Hb & Hc).
    destruct (IH _ _ Ha Hd2 Hr) as (Ha' & Hb' & Hc').
    repeat split; [assumption | congruence | lia].
Qed.

(** X13.  Nothing is shown without a window.  While the monitor has no
    window, or its window is destroyed, and [setMainWindow] is not called,
    no event makes it send a status message or open the dialog: when the
    failure threshold is reached in that time, the monitor stops polling
    without telling anyone. *)
Theorem X13_silent_without_window :
  forall tr w w',
    windowUsable (this w) = false ->
    forallb detached tr = true ->
    run tr w = Some w' ->
    filter isUi (effects w') = filter isUi (effects w) /\
    windowUsable (this w') = false /\
    (pendingDialogs w' <= pendingDialogs w)%nat.
Proof.
  intros tr w w' Hu Hd Hr.
  destruct (run_detached _ _ _ Hu Hd Hr) as (Ha & Hb & Hc).
  repeat split; assumption.
Qed.

(** X14.  One status message per completed check.  When the monitor has
    a usable window, every event that ends a check (the reply to its
    request, or a tick that finds no base URL) sends exactly one status
    message in that turn, and the message carries the status as it is after
    the check, with [lastCheck] set to the time of that turn.  This holds on
    success and on failure, and also on the failure that reaches the
    threshold, where the dialog is opened before the message is sent. *)
Theorem X14_one_message_per_check :
  forall ev now w w',
    windowUsable (this w) = true ->
    completesCheck ev = Some now ->
    step ev w = Some w' ->
    exists new,
      effects w' = (new ++ effects w)%list /\
      filter isSend new = [Send (getStatus (this w'))] /\
      hd_error new = Some (Send (getStatus (this w'))) /\
      hs_lastCheck (getStatus (this w')) = Some now.
Proof.
  intros ev now w w' Hu Hc Hs.
  destruct_env w; try discriminate Hu;
  destruct ev as [bm t| | | |id bm t|[| |] t|]; try discriminate Hc;
  cbv [completesCheck] in Hc;
  open_step Hs; try discriminate Hc; injection Hc as ->;
  eval_health; try discriminate; cbn [remove] in *;
  split_tests;
  repeat match goal with
    | H : context [match ?x with O => _ | S _ => _ end] |- _ => destruct x
    end; try discriminate;
  injection Hs as <-; eval_health;
  first [ eexists [_]; repeat split; reflexivity
        | eexists [_; _]; repeat split; reflexivity
        | eexists [_; _; _]; repeat split; reflexivity ].
Qed.

(** X15.  One interval at most.  In every state the monitor can reach,
    [isActive()] is true exactly when one interval is armed, the one stored
    in [intervalId], and the monitor is then healthy; when [isActive()] is
    false no interval is armed.  [start()] on an active monitor and [stop()]
    on an inactive one change nothing, so repeated calls never arm a second
    interval and never reset the counters of an active monitor. *)
Theorem X15_single_interval :
  forall pre w,
    run pre fresh = Some w ->
    (isActive (this w) = true ->
       exists id, intervalId (this w) = Some id /\ armed w = [id] /\
                  healthy w = true) /\
    (isActive (this w) = false -> intervalId (this w) = None /\ armed w = []) /\
    (forall bm now, isActive (this w) = true -> start bm now w = w) /\
    (isActive (this w) = false -> stop w = w).
Proof.
  intros pre w Hpre.
  assert (Hi : Inv w) by (eapply run_inv; [apply fresh_inv | exact Hpre]).
  unfold isActive. split; [|split; [|split]].
  - intros Hr. pose proof (inv_running _ Hi) as H3. rewrite Hr in H3.
    destruct (intervalId (this w)) as [id|] eqn:Hid; [|discriminate].
    exists id. split; [reflexivity|]. split.
    + rewrite (inv_armed _ Hi), Hid. reflexivity.
    + destruct (healthy w) eqn:Hh; [reflexivity|].
      rewrite (inv_stopped _ Hi Hh) in Hr. discriminate.
  - intros Hr. apply inv_not_running; assumption.
  - intros bm now Hr. unfold start. rewrite Hr. reflexivity.
  - intros Hr. unfold stop. rewrite Hr. reflexivity.
Qed.

(** X16.  The dialog is opened on every failure at or above the
    threshold.  A failed check raises the counter by one; when the counter
    is then 3 or more and the monitor has a usable window, the critical
    dialog is opened in that turn, also when the threshold had been reached
    before (the reply of a request that was still in flight); below 3 no
    dialog is opened. *)
Theorem X16_dialog_on_every_failure_at_threshold :
  forall ev now w w',
    windowUsable (this w) = true ->
    completesCheck ev = Some now ->
    isFailure ev = true ->
    step ev w = Some w' ->
    cf w' = cf w + 1 /\
    (HEALTH_CHECK_FAILURE_THRESHOLD <= cf w + 1 ->
       healthy w' = false /\ isActive (this w') = false /\
       pendingDialogs w' = S (pendingDialogs w) /\
       List.length (filter isUi (effects w')) =
         S (S (List.length (filter isUi (effects w))))) /\
    (cf w + 1 < HEALTH_CHECK_FAILURE_THRESHOLD ->
       healthy w' = healthy w /\ isActive (this w') = isActive (this w) /\
       pendingDialogs w' = pendingDialogs w /\
       List.length (filter isUi (effects w')) =
         S (List.length (filter isUi (effects w)))).
Proof.
  intros ev now w w' Hu Hc Hf Hs.
  destruct_env w; try discriminate Hu;
  destruct ev as [bm t| | | |id bm t|[| |] t|]; try discriminate Hc;
  try discriminate Hf;
  cbv [completesCheck isFailure] in Hc, Hf;
  open_step Hs; try discriminate Hc; try discriminate Hf;
  eval_health; try discriminate; cbn [remove] in *;
  split_tests;
  repeat match goal with
    | H : context [match ?x with O => _ | S _ => _ end] |- _ => destruct x
    end; try discriminate;
  injection Hs as <-; eval_health; cbv [isActive isRunning this];
  repeat split; intros; try reflexivity; try lia.
Qed.

(** ** What the renderer is told *)

Lemma fresh_consistent : Consistent fresh.
Proof.
  split; [|constructor]. cbv [consistent fresh this status initial hs_isHealthy
    hs_consecutiveFailures hs_error hs_lastCheck HEALTH_CHECK_FAILURE_THRESHOLD].
  repeat split; try lia.
Qed.

Lemma step_consistent : forall ev w w',
  Consistent w -> step ev w = Some w' -> Consistent w'.
Proof.
  intros ev w w' [H1 H2] Hs. unfold Consistent, sent in *.
  destruct_env w;
  destruct ev as [bm now| | | |id bm now|[| |e0] now|];
  open_step Hs;
  eval_health; try discriminate; cbn [remove] in *;
  split_tests;
  repeat match goal with
    | H : context [match ?x with O => _ | S _ => _ end] |- _ => destruct x
    end; try discriminate;
  injection Hs as <-; eval_health; cbn [flat_map app];
  cbv [consistent hs_isHealthy hs_consecutiveFailures hs_error hs_lastCheck
       HEALTH_CHECK_FAILURE_THRESHOLD JSString.truthyString] in *;
  destruct H1 as (Ha & Hb & Hc);
  repeat match goal with
    | |- _ /\ _ => split
    | |- Forall _ (_ :: _) => constructor
    end;
  try assumption; try reflexivity; try lia; try discriminate;
  try (intros; split; [reflexivity | discriminate]);
  try (symmetry; apply Z.ltb_lt; lia);
  try (symmetry; apply Z.ltb_ge; lia).
  all: rewrite Ha;
    repeat match goal with
      | |- context [Z.ltb ?a ?b] => destruct (Z.ltb_spec a b)
      end; try reflexivity; lia.
Qed.

(** X17.  Every status message is consistent.  In every state the
    monitor can reach, its status and every status it has sent to the
    renderer satisfy: [isHealthy] is false exactly when
    [consecutiveFailures] is at least 3; the counter is not negative; and
    when the counter is positive the error text is set and not empty and
    [lastCheck] is set.  So a renderer that shows the error whenever
    [isHealthy] is false always has a text to show. *)
Theorem X17_status_messages_consistent :
  forall pre w,
    run pre fresh = Some w ->
    consistent (getStatus (this w)) /\
    (forall st, In (Send st) (effects w) ->
       (hs_isHealthy st = false <-> 3 <= hs_consecutiveFailures st) /\
       0 <= hs_consecutiveFailures st /\
       (hs_isHealthy st = false ->
        exists c text, hs_error st = Some (String c text) /\ hs_lastCheck st <> None)).
Proof.
  intros pre w Hpre.
  assert (Hc : Consistent w).
  { revert Hpre. generalize fresh_consistent. generalize fresh.
    induction pre as [|ev pre IH]; cbn [run]; intros w0 H0 Hr.
    - now injection Hr as <-.
    - destruct (step ev w0) as [w1|] eqn:Hs; [|discriminate].
      exact (IH _ (step_consistent _ _ _ H0 Hs) Hr). }
  destruct Hc as [H1 H2]. split; [exact H1|].
  intros st Hin.
  assert (Hst : consistent st).
  { rewrite Forall_forall in H2. apply H2. unfold sent. apply in_flat_map.
    exists (Send st). split; [exact Hin | left; reflexivity]. }
  destruct Hst as (Ha & Hb & Hd).
  unfold HEALTH_CHECK_FAILURE_THRESHOLD in Ha.
  split; [|split; [exact Hb|]].
  - rewrite Ha. destruct (Z.ltb_spec (hs_consecutiveFailures st) 3);
      split; intros; try discriminate; try lia; reflexivity.
  - intros Hh. rewrite Hh in Ha. symmetry in Ha. apply Z.ltb_ge in Ha.
    destruct Hd as [Ht Hl]; [lia|].
    destruct (hs_error st) as [[|c text]|]; try discriminate Ht.
    exists c, text. split; [reflexivity | exact Hl].
Qed.

(** ** Checks without a base URL *)

Lemma tick_no_url : forall id bm now w,
  Inv w -> intervalId (this w) = Some id -> Backend.getBaseUrl bm = None ->
  exists w',
    step (Tick id bm now) w = Some w' /\
    cf w' = cf w + 1 /\
    hs_error (status (this w')) = Some "Backend URL not available" /\
    hs_lastCheck (status (this w')) = Some now /\
    filter isRequest (effects w') = filter isRequest (effects w) /\
    pendingChecks w' = pendingChecks w /\
    mainWindow (this w') = mainWindow (this w) /\
    (cf w + 1 < 3 -> intervalId (this w') = Some id) /\
    (3 <= cf w + 1 ->
       (windowUsable (this w) = true ->
        exists new, effects w' = (new ++ effects w)%list /\ In ShowMessageBox new)).
Proof.
  intros id bm now w [H1 H2 H3 H4] Hid Hurl.
  destruct_env w; try discriminate Hid; cbn [this intervalId] in Hid;
    injection Hid as ->;
    cbn [step]; cbv [isArmed]; cbn [armed this intervalId] in H2 |- *; rewrite H2;
    cbn [existsb]; rewrite Nat.eqb_refl; cbn [orb];
    (eexists; split; [reflexivity|]);
    unfold performCheck; rewrite Hurl;
    eval_health; cbn [remove]; split_tests; eval_health;
    repeat split; try reflexivity; try lia; intros;
    try discriminate; try lia;
    first [ eexists [_; _; _]; split; [reflexivity | cbn; tauto]
          | eexists [_; _]; split; [reflexivity | cbn; tauto]
          | idtac ].
Qed.

(** X18.  A crash is detected by three checks, without the network.
    After the backend process has exited, [getBaseUrl()] is [null].  A
    monitor that is active with no failure counted then fails each check at
    once with "Backend URL not available" and sends no request; the third
    tick reaches the threshold: the monitor is unhealthy and inactive, no
    interval is armed, and the dialog is opened when there is a usable
    window. *)
Theorem X18_crash_detected_by_three_checks :
  forall bw h code bw' pre w id t1 t2 t3,
    Backend.step (Backend.ProcessClose h code) bw = Some bw' ->
    run pre fresh = Some w ->
    intervalId (this w) = Some id ->
    cf w = 0 ->
    exists w',
      run [Tick id (Backend.this bw') t1; Tick id (Backend.this bw') t2;
           Tick id (Backend.this bw') t3] w = Some w' /\
      healthy w' = false /\
      cf w' = 3 /\
      isActive (this w') = false /\
      armed w' = [] /\
      hs_error (getStatus (this w')) = Some "Backend URL not available" /\
      hs_lastCheck (getStatus (this w')) = Some t3 /\
      filter isRequest (effects w') = filter isRequest (effects w) /\
      (windowUsable (this w) = true ->
       exists new, effects w' = (new ++ effects w)%list /\ In ShowMessageBox new).
Proof.
  intros bw h code bw' pre w id t1 t2 t3 Hclose Hpre Hid Hcf.
  pose proof (LifecycleFacts.close_clears_url _ _ _ _ Hclose) as Hurl.
  assert (Hi : Inv w) by (eapply run_inv; [apply fresh_inv | exact Hpre]).
  destruct (tick_no_url id _ t1 w Hi Hid Hurl)
    as (w1 & Hs1 & Hc1 & _ & _ & Hq1 & _ & Hm1 & Hid1 & _).
  pose proof (step_inv _ _ _ Hi Hs1) as Hi1.
  specialize (Hid1 ltac:(lia)).
  destruct (tick_no_url id _ t2 w1 Hi1 Hid1 Hurl)
    as (w2 & Hs2 & Hc2 & _ & _ & Hq2 & _ & Hm2 & Hid2 & _).
  pose proof (step_inv _ _ _ Hi1 Hs2) as Hi2.
  specialize (Hid2 ltac:(lia)).
  destruct (tick_no_url id _ t3 w2 Hi2 Hid2 Hurl)
    as (w3 & Hs3 & Hc3 & He3 & Hl3 & Hq3 & _ & Hm3 & _ & Hdlg).
  pose proof (step_inv _ _ _ Hi2 Hs3) as Hi3.
  exists w3.
  assert (Hcf3 : cf w3 = 3) by lia.
  assert (Hh : healthy w3 = false) by (apply (inv_unhealthy _ Hi3); lia).
  assert (Hr : isRunning (this w3) = false) by (apply (inv_stopped _ Hi3), Hh).
  destruct (inv_not_running _ Hi3 Hr) as [_ Ha].
  split; [cbn [run]; rewrite Hs1, Hs2, Hs3; reflexivity|].
  repeat split; try assumption; try congruence.
  intros Hu.
  assert (Hu2 : windowUsable (this w2) = true).
  { unfold windowUsable in *. rewrite Hm2, Hm1. exact Hu. }
  destruct (Hdlg ltac:(lia) Hu2) as (new & He & Hin).
  assert (Hmono : forall i b t x x', step (Tick i b t) x = Some x' ->
            exists n, effects x' = (n ++ effects x)%list).
  { clear. intros i b t x x' Hs. destruct_env x;
      open_step Hs; eval_health; try discriminate; cbn [remove] in *; split_tests;
      injection Hs as <-; eval_health;
      first [ exists []; reflexivity | eexists [_]; reflexivity
            | eexists [_; _]; reflexivity | eexists [_; _; _]; reflexivity
            | eexists [_; _; _; _]; reflexivity ]. }
  destruct (Hmono _ _ _ _ _ Hs1) as (n1 & E1).
  destruct (Hmono _ _ _ _ _ Hs2) as (n2 & E2).
  exists (new ++ n2 ++ n1)%list. split.
  - rewrite He, E2, E1, !app_assoc. reflexivity.
  - apply in_or_app. left. exact Hin.
Qed.

(** ** Instances on sample runs *)

Lemma X12_check_requests_health_url_witness :
  Backend.port bmUp = Some 54321 /\
  effects (performCheck bmUp 1000 fresh) =
    [HttpGet (Lifecycle.healthUrlOf 54321) HEALTH_CHECK_TIMEOUT_MS] /\
  Lifecycle.healthUrlOf 54321 = "http://127.0.0.1:54321/health".
Proof.
  assert (H1 : Backend.port bmUp = Some 54321) by reflexivity.
  assert (H2 : 54321 <> 0) by discriminate.
  destruct (X12_check_requests_health_url bmUp 54321 1000 fresh H1 H2)
    as (_ & Ha & _).
  refine (conj H1 (conj Ha _)). by_eval.
Defined.

Lemma X13_silent_without_window_witness :
  run demo_no_window fresh = Some (after demo_no_window) /\
  healthy (after demo_no_window) = false /\
  filter isUi (effects (after demo_no_window)) = filter isUi (effects fresh).
Proof.
  assert (H1 : run demo_no_window fresh = Some (after demo_no_window)) by by_eval.
  assert (H2 : windowUsable (this fresh) = false) by reflexivity.
  assert (H3 : forallb detached demo_no_window = true) by by_eval.
  assert (H4 : healthy (after demo_no_window) = false) by by_eval.
  destruct (X13_silent_without_window demo_no_window fresh _ H2 H3 H1) as (Ha & _).
  exact (conj H1 (conj H4 Ha)).
Defined.

Lemma X14_one_message_per_check_witness :
  windowUsable (this (after demo_started)) = true /\
  step (Reply ReplyOther 1010) (after demo_started) =
    Some (after (demo_started ++ [Reply ReplyOther 1010])) /\
  exists new,
    effects (after (demo_started ++ [Reply ReplyOther 1010])) =
      (new ++ effects (after demo_started))%list /\
    filter isSend new =
      [Send (getStatus (this (after (demo_started ++ [Reply ReplyOther 1010]))))].
Proof.
  assert (H1 : windowUsable (this (after demo_started)) = true) by by_eval.
  assert (H2 : completesCheck (Reply ReplyOther 1010) = Some 1010) by reflexivity.
  assert (H3 : step (Reply ReplyOther 1010) (after demo_started) =
               Some (after (demo_started ++ [Reply ReplyOther 1010]))) by by_eval.
  destruct (X14_one_message_per_check _ _ _ _ H1 H2 H3) as (new & Ha & Hb & _).
  refine (conj H1 (conj H3 _)). exists new. exact (conj Ha Hb).
Defined.

Lemma X15_single_interval_witness :
  run demo_started fresh = Some (after demo_started) /\
  isActive (this (after demo_started)) = true /\
  exists id, intervalId (this (after demo_started)) = Some id /\
             armed (after demo_started) = [id] /\ healthy (after demo_started) = true.
Proof.
  assert (H1 : run demo_started fresh = Some (after demo_started)) by by_eval.
  assert (H2 : isActive (this (after demo_started)) = true) by by_eval.
  destruct (X15_single_interval demo_started (after demo_started) H1) as (Ha & _).
  exact (conj H1 (conj H2 (Ha H2))).
Defined.

Lemma X16_dialog_on_every_failure_at_threshold_witness :
  windowUsable (this (after demo_near_threshold)) = true /\
  cf (after demo_near_threshold) = 2 /\
  step (Reply ReplyOther 11010) (after demo_near_threshold) =
    Some (after (demo_near_threshold ++ [Reply ReplyOther 11010])) /\
  pendingDialogs (after (demo_near_threshold ++ [Reply ReplyOther 11010])) =
    S (pendingDialogs (after demo_near_threshold)).
Proof.
  assert (H1 : windowUsable (this (after demo_near_threshold)) = true) by by_eval.
  assert (H2 : completesCheck (Reply ReplyOther 11010) = Some 11010) by reflexivity.
  assert (H3 : isFailure (Reply ReplyOther 11010) = true) by reflexivity.
  assert (H4 : step (Reply ReplyOther 11010) (after demo_near_threshold) =
               Some (after (demo_near_threshold ++ [Reply ReplyOther 11010])))
    by by_eval.
  assert (H5 : cf (after demo_near_threshold) = 2) by by_eval.
  destruct (X16_dialog_on_every_failure_at_threshold _ _ _ _ H1 H2 H3 H4)
    as (_ & Ha & _).
  assert (H6 : HEALTH_CHECK_FAILURE_THRESHOLD <= cf (after demo_near_threshold) + 1).
  { rewrite H5. vm_compute. discriminate. }
  destruct (Ha H6) as (_ & _ & Hb & _).
  exact (conj H1 (conj H5 (conj H4 Hb))).
Defined.

Lemma X17_status_messages_consistent_witness :
  run (demo_started ++ demo_three_failures) fresh =
    Some (after (demo_started ++ demo_three_failures)) /\
  consistent (getStatus (this (after (demo_started ++ demo_three_failures)))).
Proof.
  assert (H1 : run (demo_started ++ demo_three_failures) fresh =
               Some (after (demo_started ++ demo_three_failures))) by by_eval.
  destruct (X17_status_messages_consistent _ _ H1) as (Ha & _).
  exact (conj H1 Ha).
Defined.

Lemma X18_crash_detected_by_three_checks_witness :
  Backend.step (Backend.ProcessClose 0 (Some 1)) (Backend.after Backend.demo_startup) =
    Some (Backend.after (Backend.demo_startup ++ [Backend.ProcessClose 0 (Some 1)])) /\
  run demo_started fresh = Some (after demo_started) /\
  exists w',
    run [Tick 0 (Backend.this (Backend.after
                   (Backend.demo_startup ++ [Backend.ProcessClose 0 (Some 1)]))) 6000;
         Tick 0 (Backend.this (Backend.after
                   (Backend.demo_startup ++ [Backend.ProcessClose 0 (Some 1)]))) 11000;
         Tick 0 (Backend.this (Backend.after
                   (Backend.demo_startup ++ [Backend.ProcessClose 0 (Some 1)]))) 16000]
      (after demo_started) = Some w' /\
    healthy w' = false /\ cf w' = 3.
Proof.
  assert (H1 : Backend.step (Backend.ProcessClose 0 (Some 1))
                 (Backend.after Backend.demo_startup) =
               Some (Backend.after
                       (Backend.demo_startup ++ [Backend.ProcessClose 0 (Some 1)])))
    by by_eval.
  assert (H2 : run demo_started fresh = Some (after demo_started)) by by_eval.
  assert (H3 : intervalId (this (after demo_started)) = Some 0%nat) by by_eval.
  assert (H4 : cf (after demo_started) = 0) by by_eval.
  destruct (X18_crash_detected_by_three_checks _ 0%nat (Some 1) _ demo_started
              (after demo_started) 0%nat 6000 11000 16000 H1 H2 H3 H4)
    as (w' & Ha & Hb & Hc & _).
  refine (conj H1 (conj H2 _)). exists w'. exact (conj Ha (conj Hb Hc)).
Defined.

End MonitorFacts.

(* ================================================================== *)
(** * Properties of the application shell *)
(* ================================================================== *)

Module AppFacts.
Import JS JSString Shared App.
Local Open Scope list_scope.

Lemma orElse_nonempty : forall m d, m <> EmptyString -> orElse (Some m) d = m.
Proof. intros m d H. destruct m; [contradiction | reflexivity]. Qed.

(** X19.  A failed start is reported and nothing else is started.
    Every promise of [start()] that has settled is fulfilled (the manager
    never rejects), so [initialize()] never sees an exception from it.  When
    the status has [isRunning = false], [startBackend()] throws, and
    [initialize()] shows the error box "Initialization Failed" with the text
    "Failed to start backend: " followed by the error of the status ("Unknown
    error" when that is empty), then calls [app.quit()]: no window and no
    tray are created, the monitor is left as it was, no IPC handler is
    registered and [isInitialized] stays false.  When the status has
    [isRunning = true] it has no error, and [startBackend()] returns. *)
Theorem X19_failed_start_is_reported :
  forall pre bw p r t bm now a,
    Backend.run pre Backend.fresh = Some bw ->
    Backend.settlement bw p = Some r ->
    exists st,
      r = Fulfilled st /\
      (bs_isRunning st = false ->
         exists msg,
           bs_error st = Some msg /\
           initialize_started r t bm now a =
             act AppQuit
               (act (ShowErrorBox "Initialization Failed"
                       ("Failed to start backend: " ++ orElse (Some msg) "Unknown error"))
                  a) /\
           (msg <> EmptyString -> orElse (Some msg) "Unknown error" = msg)) /\
      (bs_isRunning st = true -> bs_error st = None /\ startBackend r a = (a, None)).
Proof.
  intros pre bw p r t bm now a Hpre Hset.
  destruct (BackendFacts.settled_good _ _ _ (BackendFacts.reachable_wf _ _ Hpre) Hset)
    as (st & -> & Hgood).
  exists st. split; [reflexivity|]. split.
  - intros Hrun.
    destruct Hgood as [[Hr _]|(_ & _ & _ & He)]; [congruence|].
    destruct (bs_error st) as [msg|] eqn:Hmsg; [|contradiction].
    exists msg. split; [reflexivity|]. split.
    + unfold initialize_started, startBackend. rewrite Hrun, Hmsg.
      cbn [negb orb andThen tryInitialize initializeFailed fst snd]. reflexivity.
    + apply orElse_nonempty.
  - intros Hrun.
    destruct Hgood as [[_ He]|(Hr & _)]; [|congruence].
    split; [exact He|]. unfold startBackend. rewrite Hrun, He. reflexivity.
Qed.

(** X20.  The monitor is started only after a successful start, with the
    window attached.  If the monitor is active after the last part of
    [initialize()] and was not before, then [start()] was fulfilled with
    [isRunning = true] and no error, and neither the creation of the window
    nor that of the tray threw.  For a status of a successful start and no
    exception, with a recorded port [n] other than 0: the window is created
    and given to the monitor before the monitor starts; the monitor is
    active and healthy with no failure counted; its immediate check sent one
    request to [http://127.0.0.1:n/health] and its interval of 5000 ms is
    armed; the IPC handlers are registered and [isInitialized] is true. *)
Theorem X20_monitor_started_after_success :
  forall r t bm now a,
    Health.isActive (Health.this (healthCheckService a)) = false ->
    (Health.isActive (Health.this (healthCheckService (initialize_started r t bm now a)))
       = true ->
     exists st, r = Fulfilled st /\ bs_isRunning st = true /\
                truthyString (bs_error st) = false /\
                createMainWindow_throws t = None /\ createTray_throws t = None) /\
    (forall st n,
       r = Fulfilled st -> bs_isRunning st = true -> bs_error st = None ->
       t = noThrow -> Backend.port bm = Some n -> n <> 0 ->
       let a' := initialize_started r t bm now a in
       let h := healthCheckService a in
       let h' := healthCheckService a' in
       isInitialized a' = true /\
       log a' = [RegisterAll; CreateTray; CreateMainWindow] ++ log a /\
       Health.isActive (Health.this h') = true /\
       Health.windowUsable (Health.this h') = true /\
       Health.healthy h' = true /\ Health.cf h' = 0 /\
       Health.effects h' =
         [Health.SetInterval (Health.nextTimer h) HEALTH_CHECK_INTERVAL_MS;
          Health.HttpGet (Lifecycle.healthUrlOf n) HEALTH_CHECK_TIMEOUT_MS]
         ++ Health.effects h /\
       Health.armed h' = Health.nextTimer h :: Health.armed h).
Proof.
  intros r t bm now a Hidle. split.
  - intros Hact. unfold Health.isActive in *.
    unfold initialize_started, startBackend in Hact.
    destruct r as [st|e].
    2:{ exfalso. cbn in Hact. congruence. }
    destruct (bs_isRunning st) eqn:Hrun; cbn [negb orb] in Hact.
    2:{ exfalso. cbn in Hact. congruence. }
    destruct (truthyString (bs_error st)) eqn:Herr.
    { exfalso. cbn in Hact. congruence. }
    destruct t as [[e1|] [e2|] e3].
    1-3: exfalso; cbn in Hact; congruence.
    exists st. repeat split; first [assumption | reflexivity].
  - intros st n -> Hrun Herr -> Hport Hn.
    unfold initialize_started, startBackend. rewrite Hrun, Herr.
    cbn [negb orb truthyString andThen fst snd tryInitialize createWindow
         createMainWindow call
         noThrow createMainWindow_throws createTray_throws registerAll_throws
         startHealthCheck act with_health set_isInitialized
         set_windowManager_mainWindow set_monitor_mainWindow set_windowsCreated
         isInitialized log healthCheckService].
    unfold Health.isActive in *.
    destruct (MonitorFacts.start_with_url bm n now
                (Health.setMainWindow {| Health.destroyed := false |}
                   (healthCheckService a)) Hport Hn Hidle)
      as (H1 & H2 & H3 & H4 & H5 & H6 & _).
    split; [reflexivity|]. split; [reflexivity|]. split; [exact H1|].
    split; [unfold Health.windowUsable; rewrite H2; reflexivity|].
    split; [exact H3|]. split; [exact H4|]. split; [exact H5 | exact H6].
Qed.

Lemma stop_inactive : forall h,
  Health.Inv h ->
  Health.isRunning (Health.this (Health.stop h)) = false /\
  Health.armed (Health.stop h) = [] /\
  Health.status (Health.this (Health.stop h)) = Health.status (Health.this h).
Proof.
  intros h Hi.
  assert (Hi' : Health.Inv (Health.stop h))
    by (apply (HealthFacts.step_inv Health.CallStop h _ Hi); reflexivity).
  assert (Hr : Health.isRunning (Health.this (Health.stop h)) = false).
  { unfold Health.stop. destruct (Health.isRunning (Health.this h)) eqn:E;
      cbn [negb]; [reflexivity | exact E]. }
  split; [exact Hr|]. split; [apply (HealthFacts.inv_not_running _ Hi' Hr)|].
  unfold Health.stop. destruct (Health.isRunning (Health.this h)); cbn [negb];
    [|reflexivity].
  destruct (Health.intervalId (Health.this h)); reflexivity.
Qed.

(** X21.  Quitting.  [shutdown()] first stops the monitor: whatever state
    the monitor reached, it is inactive afterwards with no interval armed,
    and its status is kept.  [backendManager.stop()] is called exactly when
    neither the removal of the IPC handlers nor the destruction of the tray
    throws.  When one of them throws, the [catch] block only logs: the
    backend is never asked to stop, and the [before-quit] handler still goes
    on to [app.exit(0)].  When [stop()] was called and has resolved, the
    window is destroyed and then the application exits, also when destroying
    the window throws. *)
Theorem X21_shutdown :
  forall pre a u d,
    Health.run pre Health.fresh = Some (healthCheckService a) ->
    Health.isActive (Health.this (healthCheckService (fst (shutdown_begin u d a))))
      = false /\
    Health.armed (healthCheckService (fst (shutdown_begin u d a))) = [] /\
    Health.getStatus (Health.this (healthCheckService (fst (shutdown_begin u d a))))
      = Health.getStatus (Health.this (healthCheckService a)) /\
    (snd (shutdown_begin u d a) = true <-> u = None /\ d = None) /\
    (snd (shutdown_begin u d a) = true ->
       log (fst (shutdown_begin u d a)) =
         [BackendStop; TrayDestroy; UnregisterAll] ++ log a /\
       forall x,
         log (shutdown_stopped x (fst (shutdown_begin u d a))) =
           [AppExit 0; DestroyWindow; BackendStop; TrayDestroy; UnregisterAll] ++ log a) /\
    (snd (shutdown_begin u d a) = false ->
       exists done,
         log (fst (shutdown_begin u d a)) = done ++ log a /\
         ~ In BackendStop done /\
         log (shutdown_caught (fst (shutdown_begin u d a))) = AppExit 0 :: done ++ log a).
Proof.
  intros pre a u d Hpre.
  assert (Hi : Health.Inv (healthCheckService a))
    by (eapply HealthFacts.run_inv; [apply HealthFacts.fresh_inv | exact Hpre]).
  destruct (stop_inactive _ Hi) as (H1 & H2 & H3).
  assert (Hlog : forall x b, log (fst (destroyWindow x b)) = DestroyWindow :: log b).
  { intros x b. unfold destroyWindow, call.
    destruct (windowManager_mainWindow b) as [k|]; [|reflexivity].
    destruct x as [e|]; cbn [andThen fst snd]; [reflexivity|].
    cbn [set_windowManager_mainWindow monitor_mainWindow act].
    destruct (monitor_mainWindow b) as [k'|]; [|reflexivity].
    destruct (Nat.eqb k k'); reflexivity. }
  unfold shutdown_begin, shutdown_stopped, shutdown_caught, call, Health.isActive,
    Health.getStatus.
  destruct u as [eu|]; [|destruct d as [ed|]];
    cbn [andThen fst snd act with_health healthCheckService log];
    rewrite ?Hlog;
    cbn [andThen fst snd act with_health healthCheckService log].
  - repeat split; try assumption; try discriminate.
    + intros [Hx _]; discriminate Hx.
    + intros _. exists [UnregisterAll]. repeat split.
      cbn. intros [H|[]]; discriminate H.
  - repeat split; try assumption; try discriminate.
    + intros [_ Hx]; discriminate Hx.
    + intros _. exists [TrayDestroy; UnregisterAll]. repeat split.
      cbn. intros [H|[H|[]]]; discriminate H.
  - repeat split; try assumption; try discriminate.
    intros x. rewrite Hlog. reflexivity.
Qed.

(** X26.  The window is one object.  [createWindow()] gives the monitor
    the very window that the window manager holds.  So when [shutdown()]
    reaches [destroyWindow()] with that window still held by both and the
    call does not throw, the window manager lets go of it and the window of
    the monitor is destroyed: whatever checks complete afterwards, the
    monitor sends no status message and opens no dialog, unless it is given
    a new window. *)
Theorem X26_window_shared_with_monitor :
  forall a,
    (snd (createWindow None a) = None /\
     windowManager_mainWindow (fst (createWindow None a)) = Some (windowsCreated a) /\
     monitor_mainWindow (fst (createWindow None a)) = Some (windowsCreated a) /\
     Health.windowUsable
       (Health.this (healthCheckService (fst (createWindow None a)))) = true) /\
    (forall k,
       windowManager_mainWindow a = Some k ->
       monitor_mainWindow a = Some k ->
       Health.mainWindow (Health.this (healthCheckService a)) <> None ->
       windowManager_mainWindow (shutdown_stopped None a) = None /\
       Health.windowUsable
         (Health.this (healthCheckService (shutdown_stopped None a))) = false /\
       Health.status (Health.this (healthCheckService (shutdown_stopped None a))) =
         Health.status (Health.this (healthCheckService a)) /\
       forall tr h',
         forallb Monitor.detached tr = true ->
         Health.run tr (healthCheckService (shutdown_stopped None a)) = Some h' ->
         filter Monitor.isUi (Health.effects h') =
           filter Monitor.isUi (Health.effects (healthCheckService a)) /\
         Health.windowUsable (Health.this h') = false).
Proof.
  intros a. split.
  - unfold createWindow, createMainWindow, call.
    cbn [andThen fst snd act set_windowManager_mainWindow set_windowsCreated
         set_monitor_mainWindow with_health windowManager_mainWindow
         monitor_mainWindow healthCheckService].
    repeat split.
  - intros k Hm Hh Hw.
    assert (Hs : shutdown_stopped None a =
                 act (AppExit 0)
                   (with_health windowDestroyed
                      (set_windowManager_mainWindow None (act DestroyWindow a)))).
    { unfold shutdown_stopped, destroyWindow, call. rewrite Hm.
      cbn [andThen fst snd act set_windowManager_mainWindow monitor_mainWindow].
      rewrite Hh, Nat.eqb_refl. reflexivity. }
    rewrite Hs.
    cbn [act with_health set_windowManager_mainWindow windowManager_mainWindow
         healthCheckService].
    assert (Hd : windowDestroyed (healthCheckService a) =
                 Health.with_this
                   (Health.set_mainWindow (Some {| Health.destroyed := true |}))
                   (healthCheckService a)).
    { unfold windowDestroyed. cbn [Health.step].
      destruct (Health.mainWindow (Health.this (healthCheckService a)));
        [reflexivity | contradiction]. }
    rewrite Hd.
    split; [reflexivity|]. split; [reflexivity|]. split; [reflexivity|].
    intros tr h' Hdet Hr.
    assert (Hoff : Health.windowUsable
                     (Health.this
                        (Health.with_this
                           (Health.set_mainWindow (Some {| Health.destroyed := true |}))
                           (healthCheckService a))) = false) by reflexivity.
    destruct (MonitorFacts.run_detached _ _ _ Hoff Hdet Hr) as (Hu & He & _).
    split; [exact He | exact Hu].
Qed.

(** ** Instances *)

Lemma X19_failed_start_is_reported_witness :
  Backend.run Lifecycle.demo_timed_out Backend.fresh =
    Some (Backend.after Lifecycle.demo_timed_out) /\
  Backend.settlement (Backend.after Lifecycle.demo_timed_out) 0%nat =
    Some (Fulfilled (Backend.catchBlock Backend.portTimeoutError)) /\
  initialize_started (Fulfilled (Backend.catchBlock Backend.portTimeoutError)) noThrow
    (Backend.this (Backend.after Lifecycle.demo_timed_out)) 31000 fresh =
  act AppQuit
    (act (ShowErrorBox "Initialization Failed"
            "Failed to start backend: Backend did not announce port within timeout")
       fresh).
Proof.
  assert (H1 : Backend.run Lifecycle.demo_timed_out Backend.fresh =
               Some (Backend.after Lifecycle.demo_timed_out)) by (vm_compute; reflexivity).
  assert (H2 : Backend.settlement (Backend.after Lifecycle.demo_timed_out) 0%nat =
               Some (Fulfilled (Backend.catchBlock Backend.portTimeoutError)))
    by (vm_compute; reflexivity).
  destruct (X19_failed_start_is_reported _ _ 0%nat _ noThrow
              (Backend.this (Backend.after Lifecycle.demo_timed_out)) 31000 fresh H1 H2)
    as (st & Hst & Hfail & _).
  injection Hst as <-.
  destruct (Hfail eq_refl) as (msg & Hmsg & Hinit & _).
  injection Hmsg as <-.
  exact (conj H1 (conj H2 Hinit)).
Defined.

Lemma X20_monitor_started_after_success_witness :
  Health.isActive (Health.this (healthCheckService fresh)) = false /\
  Backend.port Health.bmUp = Some 54321 /\
  isInitialized
    (initialize_started (Fulfilled (Lifecycle.started 54321 (Some 4242))) noThrow
       Health.bmUp 1000 fresh) = true /\
  Health.isActive
    (Health.this
       (healthCheckService
          (initialize_started (Fulfilled (Lifecycle.started 54321 (Some 4242))) noThrow
             Health.bmUp 1000 fresh))) = true.
Proof.
  assert (H1 : Health.isActive (Health.this (healthCheckService fresh)) = false)
    by reflexivity.
  assert (H2 : Backend.port Health.bmUp = Some 54321) by reflexivity.
  assert (H3 : 54321 <> 0) by discriminate.
  destruct (X20_monitor_started_after_success
              (Fulfilled (Lifecycle.started 54321 (Some 4242))) noThrow
              Health.bmUp 1000 fresh H1) as (_ & Hok).
  destruct (Hok _ 54321 eq_refl eq_refl eq_refl eq_refl H2 H3) as (Ha & _ & Hb & _).
  exact (conj H1 (conj H2 (conj Ha Hb))).
Defined.

Lemma X21_shutdown_witness :
  Health.run Health.demo_started Health.fresh = Some (healthCheckService demo_running) /\
  Health.isActive (Health.this (healthCheckService demo_running)) = true /\
  Health.isActive
    (Health.this (healthCheckService
       (fst (shutdown_begin None (Some (ErrorObject "Object has been destroyed"))
               demo_running)))) = false /\
  snd (shutdown_begin None (Some (ErrorObject "Object has been destroyed"))
         demo_running) = false.
Proof.
  assert (H1 : Health.run Health.demo_started Health.fresh =
               Some (healthCheckService demo_running)) by (vm_compute; reflexivity).
  assert (H2 : Health.isActive (Health.this (healthCheckService demo_running)) = true)
    by (vm_compute; reflexivity).
  destruct (X21_shutdown Health.demo_started demo_running None
              (Some (ErrorObject "Object has been destroyed")) H1) as (Ha & _).
  refine (conj H1 (conj H2 (conj Ha _))). reflexivity.
Defined.

Lemma X26_window_shared_with_monitor_witness :
  windowManager_mainWindow demo_running = Some 0%nat /\
  monitor_mainWindow demo_running = Some 0%nat /\
  Health.mainWindow (Health.this (healthCheckService demo_running)) <> None /\
  Health.windowUsable (Health.this (healthCheckService demo_running)) = true /\
  Health.windowUsable
    (Health.this (healthCheckService (shutdown_stopped None demo_running))) = false.
Proof.
  assert (H1 : windowManager_mainWindow demo_running = Some 0%nat) by reflexivity.
  assert (H2 : monitor_mainWindow demo_running = Some 0%nat) by reflexivity.
  assert (H3 : Health.mainWindow (Health.this (healthCheckService demo_running)) <> None)
    by (vm_compute; discriminate).
  assert (H4 : Health.windowUsable (Health.this (healthCheckService demo_running)) = true)
    by (vm_compute; reflexivity).
  destruct (proj2 (X26_window_shared_with_monitor demo_running) 0%nat H1 H2 H3)
    as (_ & Ha & _).
  exact (conj H1 (conj H2 (conj H3 (conj H4 Ha)))).
Defined.

End AppFacts.

(* ================================================================== *)
(** * What the status indicator shows *)
(* ================================================================== *)

Module RendererFacts.
Import JS JSString Shared Renderer.
Local Open Scope list_scope.

(** X22.  The status indicator.  Let the indicator show the status that
    [getStatus()] of the backend manager returns in a state it can reach,
    and the last status message the monitor has sent (the healthy default
    when it has sent none).  Then: the dot is green exactly when the text is
    "Backend Running", which is exactly when loading is over, the manager is
    marked running and the last message is healthy; the text "Backend
    Unhealthy" means the last message counted at least 3 failures; the
    warning sign is shown exactly when the last message is unhealthy, with
    its error, which is not empty, as title, and nothing is rendered in its
    place otherwise.  The port element is shown exactly when [getBaseUrl()]
    returns a URL, and it shows the port as the URL does; with no port
    recorded nothing is rendered in its place, and with the port 0 a bare
    "0". *)
Theorem X22_status_indicator :
  forall preB bw preH hw isLoading,
    Backend.run preB Backend.fresh = Some bw ->
    Health.run preH Health.fresh = Some hw ->
    let b := Backend.getStatus (Backend.this bw) in
    let h := useHealthCheck (Monitor.sent hw) in
    let v := StatusIndicator isLoading b h in
    (dot v = "#28a745" <-> text v = "Backend Running") /\
    (text v = "Backend Running" <->
       isLoading = false /\ bs_isRunning b = true /\ hs_isHealthy h = true) /\
    (text v = "Backend Unhealthy" -> 3 <= hs_consecutiveFailures h) /\
    (hs_isHealthy h = false <-> exists title, warning v = WarningSpan title) /\
    (hs_isHealthy h = true <-> warning v = Nothing) /\
    (forall title, warning v = WarningSpan title ->
       hs_error h = Some title /\ title <> EmptyString) /\
    (Backend.getBaseUrl (Backend.this bw) <> None <->
       exists content, portDetail v = PortSpan content) /\
    (forall n, Backend.port (Backend.this bw) = Some n -> n <> 0 ->
       portDetail v = PortSpan ("Port: " ++ numberToString n)%string /\
       Backend.getBaseUrl (Backend.this bw) =
         Some ("http://127.0.0.1:" ++ numberToString n)%string) /\
    (Backend.port (Backend.this bw) = None <-> portDetail v = Nothing) /\
    (Backend.port (Backend.this bw) = Some 0 <-> portDetail v = Text "0").
Proof.
  intros preB bw preH hw isLoading HB HH b h v.
  assert (Hc : Monitor.consistent h).
  { assert (Hall : Monitor.Consistent hw).
    { revert HH. generalize MonitorFacts.fresh_consistent. generalize Health.fresh.
      induction preH as [|ev pre IH]; cbn [Health.run]; intros w0 H0 Hr.
      - now injection Hr as <-.
      - destruct (Health.step ev w0) as [w1|] eqn:Hs; [|discriminate].
        exact (IH _ (MonitorFacts.step_consistent _ _ _ H0 Hs) Hr). }
    destruct Hall as [_ Hs]. subst h. unfold useHealthCheck.
    destruct (Monitor.sent hw) as [|st rest]; cbn [hd].
    - cbv [Monitor.consistent hs_isHealthy hs_consecutiveFailures hs_error hs_lastCheck
           HEALTH_CHECK_FAILURE_THRESHOLD]. repeat split; try lia.
    - inversion Hs; assumption. }
  destruct Hc as (Ha & Hb & Hd). unfold HEALTH_CHECK_FAILURE_THRESHOLD in Ha.
  assert (Hlow : hs_isHealthy h = false -> 3 <= hs_consecutiveFailures h).
  { intros Hh. rewrite Hh in Ha. symmetry in Ha. now apply Z.ltb_ge in Ha. }
  assert (Hwarn : hs_isHealthy h = false ->
            exists e, hs_error h = Some e /\ truthyString (Some e) = true).
  { intros Hh. destruct Hd as [Ht _]; [specialize (Hlow Hh); lia|].
    destruct (hs_error h) as [e|]; [now exists e | discriminate Ht]. }
  subst v. unfold StatusIndicator, getStatusColor, getStatusText.
  cbn [dot text portDetail warning].
  split; [|split; [|split; [|split; [|split; [|split]]]]].
  - destruct isLoading, (bs_isRunning b), (hs_isHealthy h); cbn [negb];
      split; intros H; first [discriminate H | reflexivity].
  - destruct isLoading, (bs_isRunning b), (hs_isHealthy h); cbn [negb];
      split; intros H; try discriminate H; try (repeat split; reflexivity);
      destruct H as (H1 & H2 & H3); discriminate.
  - destruct isLoading, (bs_isRunning b), (hs_isHealthy h) eqn:Hh; cbn [negb];
      intros H; try discriminate H. apply Hlow. reflexivity.
  - split.
    + intros Hh. destruct (Hwarn Hh) as (e & He & Ht).
      rewrite Hh, He, Ht. cbn [negb]. now exists e.
    + intros [title Ht]. destruct (hs_isHealthy h); [discriminate Ht | reflexivity].
  - split.
    + intros Hh. rewrite Hh. reflexivity.
    + intros Hn. destruct (hs_isHealthy h) eqn:Hh; [reflexivity|].
      destruct (Hwarn eq_refl) as (e & He & Ht).
      rewrite He, Ht in Hn. discriminate Hn.
  - intros title Ht. destruct (hs_isHealthy h); cbn [negb] in Ht; [discriminate Ht|].
    destruct (hs_error h) as [e|]; [|discriminate Ht].
    destruct (truthyString (Some e)) eqn:He; [|discriminate Ht].
    injection Ht as <-. split; [reflexivity|].
    intros ->. discriminate He.
  - subst b. unfold Backend.getBaseUrl. cbn [Backend.getStatus bs_port].
    destruct (Backend.port (Backend.this bw)) as [n|]; cbn [truthy option_map].
    + destruct (Z.eqb_spec n 0) as [->|Hn]; cbn [negb].
      * assert (H0 : numberToString 0 = "0"%string) by (vm_compute; reflexivity).
        rewrite H0.
        split; [split; [intros H; exfalso; apply H; reflexivity
                       | intros [c Hc]; discriminate Hc]|].
        split; [intros k Hk Hk0; injection Hk as <-; contradiction|].
        split; [split; intros H; discriminate H|].
        split; intros _; reflexivity.
      * split; [split; [intros _; eexists; reflexivity | intros _; discriminate]|].
        split; [intros k Hk _; injection Hk as <-; split; reflexivity|].
        split; [split; intros H; discriminate H|].
        split; [intros H; injection H as ->; contradiction | intros H; discriminate H].
    + split; [split; [intros H; exfalso; apply H; reflexivity
                     | intros [c Hc]; discriminate Hc]|].
      split; [intros k Hk; discriminate Hk|].
      split; [split; intros _; reflexivity|].
      split; intros H; discriminate H.
Qed.

(** ** Instances *)

Lemma X22_status_indicator_witness :
  Backend.run Backend.demo_startup Backend.fresh =
    Some (Backend.after Backend.demo_startup) /\
  Health.run (Health.demo_started ++ Health.demo_three_failures) Health.fresh =
    Some (Health.after (Health.demo_started ++ Health.demo_three_failures)) /\
  text (StatusIndicator false
          (Backend.getStatus (Backend.this (Backend.after Backend.demo_startup)))
          (useHealthCheck
             (Monitor.sent
                (Health.after (Health.demo_started ++ Health.demo_three_failures)))))
    = "Backend Unhealthy" /\
  3 <= hs_consecutiveFailures
         (useHealthCheck
            (Monitor.sent
               (Health.after (Health.demo_started ++ Health.demo_three_failures)))).
Proof.
  assert (H1 : Backend.run Backend.demo_startup Backend.fresh =
               Some (Backend.after Backend.demo_startup)) by (vm_compute; reflexivity).
  assert (H2 : Health.run (Health.demo_started ++ Health.demo_three_failures)
                 Health.fresh =
               Some (Health.after (Health.demo_started ++ Health.demo_three_failures)))
    by (vm_compute; reflexivity).
  assert (H3 : text (StatusIndicator false
                 (Backend.getStatus (Backend.this (Backend.after Backend.demo_startup)))
                 (useHealthCheck
                    (Monitor.sent
                       (Health.after
                          (Health.demo_started ++ Health.demo_three_failures)))))
               = "Backend Unhealthy") by (vm_compute; reflexivity).
  destruct (X22_status_indicator _ _ _ _ false H1 H2) as (_ & _ & Ha & _).
  exact (conj H1 (conj H2 (conj H3 (Ha H3)))).
Defined.

End RendererFacts.

(* ================================================================== *)
(** * Properties of the account handlers *)
(* ================================================================== *)

Module IpcFacts.
Import JS JSString Shared Ipc.
Local Open Scope list_scope.

Lemma requireBaseUrl_none : forall bm,
  Backend.getBaseUrl bm = None -> requireBaseUrl bm = inl backendNotAvailable.
Proof. intros bm H. unfold requireBaseUrl. rewrite H. reflexivity. Qed.

Lemma requireBaseUrl_port : forall bm n,
  Backend.port bm = Some n -> n <> 0 ->
  requireBaseUrl bm = inr ("http://127.0.0.1:" ++ numberToString n)%string.
Proof.
  intros bm n Hp Hn. unfold requireBaseUrl.
  rewrite (MonitorFacts.base_url_of_port _ _ Hp Hn). reflexivity.
Qed.

(** X23.  No request without a backend.  After the backend process has
    exited [getBaseUrl()] is [null], and whenever it is [null] every account
    handler rejects with "Backend not available" before it sends anything to
    the backend, opens the browser or writes tokens: listing accounts and
    the two OAuth handlers do nothing at all; refreshing a token has only
    read the stored tokens; deleting an account has only asked for
    confirmation, and a cancelled deletion still resolves with
    [success: false].  With a port [n] other than 0, listing accounts sends
    one request to [http://127.0.0.1:n/accounts/list] and settles as that
    request does. *)
Theorem X23_no_request_without_backend :
  (forall h code bw bw',
     Backend.step (Backend.ProcessClose h code) bw = Some bw' ->
     Backend.getBaseUrl (Backend.this bw') = None) /\
  (forall bm,
     Backend.getBaseUrl bm = None ->
     (forall A (reply : Settlement A),
        handleGetAccounts bm reply = ([], Rejected (ErrorObject "Backend not available"))) /\
     (forall reply opened,
        handleStartOAuth bm reply opened =
          ([], Rejected (ErrorObject "Backend not available"))) /\
     (forall state reply stored usable,
        handleCompleteOAuth bm state reply stored usable =
          ([], Rejected (ErrorObject "Backend not available"))) /\
     (forall email tokens reply updated,
        handleRefreshToken bm email (Some tokens) reply updated =
          ([GetTokens email], Rejected (ErrorObject "Backend not available"))) /\
     (forall email response deleted tokensDeleted usable,
        response <> 0 ->
        handleDeleteAccount bm email true (Fulfilled response) deleted tokensDeleted usable =
          ([ShowMessageBox ("Are you sure you want to remove " ++ email ++ "?")
              "All associated history will be permanently deleted."],
           Rejected (ErrorObject "Backend not available"))) /\
     (forall email deleted tokensDeleted usable,
        handleDeleteAccount bm email true (Fulfilled 0) deleted tokensDeleted usable =
          ([ShowMessageBox ("Are you sure you want to remove " ++ email ++ "?")
              "All associated history will be permanently deleted."],
           Fulfilled false))) /\
  (forall bm n A (reply : Settlement A),
     Backend.port bm = Some n -> n <> 0 ->
     handleGetAccounts bm reply =
       ([AxiosGet ("http://127.0.0.1:" ++ numberToString n ++ "/accounts/list")], reply)).
Proof.
  split; [|split].
  - intros h code bw bw' Hs. exact (LifecycleFacts.close_clears_url _ _ _ _ Hs).
  - intros bm Hnone. pose proof (requireBaseUrl_none _ Hnone) as Hr.
    split; [|split; [|split; [|split; [|split]]]]; intros.
    + unfold handleGetAccounts. rewrite Hr. reflexivity.
    + unfold handleStartOAuth. rewrite Hr. reflexivity.
    + unfold handleCompleteOAuth. rewrite Hr. reflexivity.
    + unfold handleRefreshToken. rewrite Hr. reflexivity.
    + unfold handleDeleteAccount. cbn [negb].
      destruct (Z.eqb_spec response 0); [contradiction|]. rewrite Hr. reflexivity.
    + unfold handleDeleteAccount. reflexivity.
  - intros bm n A reply Hp Hn. unfold handleGetAccounts.
    rewrite (requireBaseUrl_port _ _ Hp Hn), StringFacts.append_assoc_s. reflexivity.
Qed.

(** X24.  Deleting an account.  For every way the dialog, the request
    and the token store can answer: the stored tokens are deleted only after
    the user confirmed, a base URL was available and the request to the
    backend succeeded, and the request precedes the deletion; the handler
    resolves with [success: true] exactly when the deletion of the tokens
    was reached and did not fail (whether or not there were tokens); the
    renderer is notified exactly on that outcome, when the window is
    usable; and without a window nothing happens at all. *)
Theorem X24_delete_account :
  forall bm email hasWindow answer deleted tokensDeleted usable,
    let r := handleDeleteAccount bm email hasWindow answer deleted tokensDeleted usable in
    (In (DeleteTokens email) (fst r) ->
       hasWindow = true /\
       (exists response, answer = Fulfilled response /\ response <> 0) /\
       deleted = None /\
       exists baseUrl rest,
         Backend.getBaseUrl bm = Some baseUrl /\
         fst r =
           [ShowMessageBox ("Are you sure you want to remove " ++ email ++ "?")
              "All associated history will be permanently deleted.";
            AxiosDelete (baseUrl ++ "/accounts/" ++ email);
            DeleteTokens email] ++ rest) /\
    (snd r = Fulfilled true <->
       In (DeleteTokens email) (fst r) /\ exists found, tokensDeleted = Fulfilled found) /\
    (In SendAccountsUpdated (fst r) <-> snd r = Fulfilled true /\ usable = true) /\
    (hasWindow = false ->
       r = ([], Rejected (ErrorObject "Main window not available"))).
Proof.
  intros bm email hasWindow answer deleted tokensDeleted usable r. subst r.
  unfold handleDeleteAccount, requireBaseUrl, notifyAccountsUpdated.
  assert (Ht : forall u, Backend.getBaseUrl bm = Some u -> truthyString (Some u) = true).
  { intros u Hurl. unfold Backend.getBaseUrl in Hurl.
    destruct (truthy (Backend.port bm)); [|discriminate].
    destruct (Backend.port bm); [|discriminate]. cbn in Hurl. injection Hurl as <-.
    reflexivity. }
  destruct hasWindow; cbn [negb];
    [destruct answer as [response|e];
     [destruct (Z.eqb_spec response 0) as [->|Hnz];
      [|destruct (Backend.getBaseUrl bm) as [baseUrl|] eqn:Hurl;
        [rewrite (Ht _ eq_refl);
         destruct deleted as [e|];
         [|destruct tokensDeleted as [found|e]; [destruct usable|]]|]]|]|];
    cbn [fst snd app In];
    (split; [|split; [|split]]);
    try (intros; discriminate);
    try (intros _; reflexivity);
    try (split; intros H; decompose [and or ex] H; try discriminate;
         try contradiction; fail);
    try (intros H; decompose [and or ex] H; try discriminate; try contradiction; fail).
  all: try (intros _; split; [reflexivity|];
            split; [exists response; split; [reflexivity | assumption]|];
            split; [reflexivity|]; eexists _, _; split; reflexivity).
  all: try (split; [intros _; split; [tauto | eexists; reflexivity] | reflexivity]).
  all: try (split; [intros _; split; reflexivity | tauto]).
  all: try (split; [tauto | intros _; reflexivity]).
Qed.

(** X25.  Completing the OAuth flow.  For every way the request and the
    token store can answer: the tokens are stored only when the request
    completed, under the email of the account in the reply, and after the
    request; the renderer is notified only after the tokens were stored;
    the handler resolves with the account and the tokens exactly when the
    tokens were stored.  An error with a response is reported as "This
    account has already been added." for status 409 and as "OAuth timeout.
    Please try again." for status 408, whatever the body says; for any
    other status as the [detail] of the body, or "OAuth failed" when there
    is none or it is empty.  Any other error is passed on as it is: a
    failure of the token store rejects the handler although the backend has
    completed the authorization. *)
Theorem X25_complete_oauth :
  forall bm state reply stored usable,
    let r := handleCompleteOAuth bm state reply stored usable in
    (forall e t, In (StoreTokens e t) (fst r) ->
       exists account baseUrl rest,
         reply = Completed account t /\ e = email account /\
         Backend.getBaseUrl bm = Some baseUrl /\
         fst r =
           [AxiosPost (baseUrl ++ "/accounts/authorize/complete?state=" ++ state)
              (Some 310000);
            StoreTokens e t] ++ rest) /\
    (In SendAccountsUpdated (fst r) ->
       stored = None /\ usable = true /\ exists x, snd r = Fulfilled x) /\
    (forall x, snd r = Fulfilled x <->
       stored = None /\ Backend.getBaseUrl bm <> None /\
       exists account t, reply = Completed account t /\ x = (account, t)) /\
    (forall status data,
       Backend.getBaseUrl bm <> None -> reply = ResponseError status data ->
       snd r = Rejected (oauthError status data) /\
       (status = 409 ->
        oauthError status data = ErrorObject "This account has already been added.") /\
       (status = 408 ->
        oauthError status data = ErrorObject "OAuth timeout. Please try again.") /\
       (status <> 409 -> status <> 408 ->
        forall detail, data = body detail ->
        oauthError status data = ErrorObject (orElse detail "OAuth failed"))) /\
    (forall account t e,
       Backend.getBaseUrl bm <> None -> reply = Completed account t -> stored = Some e ->
       snd r = Rejected e /\ ~ In SendAccountsUpdated (fst r)).
Proof.
  intros bm state reply stored usable r. subst r.
  unfold handleCompleteOAuth, requireBaseUrl, notifyAccountsUpdated.
  assert (Ht : forall u, Backend.getBaseUrl bm = Some u -> truthyString (Some u) = true).
  { intros u Hurl. unfold Backend.getBaseUrl in Hurl.
    destruct (truthy (Backend.port bm)); [|discriminate].
    destruct (Backend.port bm); [|discriminate]. cbn in Hurl. injection Hurl as <-.
    reflexivity. }
  destruct (Backend.getBaseUrl bm) as [baseUrl|] eqn:Hurl.
  2:{ cbn [fst snd In]. repeat split; intros; try contradiction; try discriminate.
      destruct H as (_ & H & _). contradiction. }
  rewrite (Ht _ eq_refl). clear Ht.
  split; [|split; [|split; [|split]]].
  - intros e t Hin.
    destruct reply as [account tokens|status data|e0]; cbn [fst In] in Hin.
    + assert (He : StoreTokens (email account) tokens = StoreTokens e t).
      { destruct stored; [|destruct usable]; cbn [fst app In] in Hin;
          decompose [or] Hin; try discriminate; try contradiction; assumption. }
      injection He as <- <-.
      exists account, baseUrl.
      destruct stored; [exists [] | exists (if usable then [SendAccountsUpdated] else [])];
        repeat split.
    + destruct Hin as [H|[]]; discriminate H.
    + destruct Hin as [H|[]]; discriminate H.
  - intros Hin.
    destruct reply as [account tokens|status data|e0]; cbn [fst In] in Hin;
      try (destruct Hin as [H|[]]; discriminate H).
    destruct stored; [cbn [fst In] in Hin; decompose [or] Hin; try discriminate;
                      contradiction|].
    destruct usable; cbn [fst snd app In] in Hin |- *;
      [repeat split; eexists; reflexivity|].
    decompose [or] Hin; try discriminate; contradiction.
  - intros x. destruct reply as [account tokens|status data|e0]; cbn [snd].
    + destruct stored; cbn [snd]; split.
      * intros H; discriminate H.
      * intros (H & _); discriminate H.
      * intros H. injection H as <-. repeat split; [discriminate|].
        exists account, tokens. split; reflexivity.
      * intros (_ & _ & a & t & Ha & ->). injection Ha as <- <-. reflexivity.
    + split; [intros H; discriminate H|].
      intros (_ & _ & a & t & Ha & _); discriminate Ha.
    + split; [intros H; discriminate H|].
      intros (_ & _ & a & t & Ha & _); discriminate Ha.
  - intros status data _ ->. cbn [snd]. split; [reflexivity|].
    unfold oauthError. repeat split.
    + intros ->. reflexivity.
    + intros ->. reflexivity.
    + intros H9 H8 detail ->.
      destruct (Z.eqb_spec status 409); [contradiction|].
      destruct (Z.eqb_spec status 408); [contradiction|]. reflexivity.
  - intros account t e _ -> ->. cbn [fst snd In]. split; [reflexivity|].
    intros [H|[H|[]]]; discriminate H.
Qed.

(** ** Instances *)

Lemma X23_no_request_without_backend_witness :
  Backend.getBaseUrl Backend.initial = None /\
  handleRefreshToken Backend.initial "user@example.com" (Some demo_tokens)
    (Fulfilled demo_tokens) None =
    ([GetTokens "user@example.com"], Rejected (ErrorObject "Backend not available")).
Proof.
  assert (H1 : Backend.getBaseUrl Backend.initial = None) by reflexivity.
  destruct X23_no_request_without_backend as (_ & Ha & _).
  destruct (Ha Backend.initial H1) as (_ & _ & _ & Hb & _).
  exact (conj H1 (Hb "user@example.com" demo_tokens (Fulfilled demo_tokens) None)).
Defined.

Lemma X24_delete_account_witness :
  In (DeleteTokens "user@example.com")
     (fst (handleDeleteAccount Health.bmUp "user@example.com" true (Fulfilled 1) None
             (Fulfilled false) true)) /\
  snd (handleDeleteAccount Health.bmUp "user@example.com" true (Fulfilled 1) None
         (Fulfilled false) true) = Fulfilled true.
Proof.
  assert (H1 : In (DeleteTokens "user@example.com")
                 (fst (handleDeleteAccount Health.bmUp "user@example.com" true
                         (Fulfilled 1) None (Fulfilled false) true))).
  { vm_compute. right. right. left. reflexivity. }
  destruct (X24_delete_account Health.bmUp "user@example.com" true (Fulfilled 1) None
              (Fulfilled false) true) as (_ & Ha & _).
  refine (conj H1 (proj2 Ha (conj H1 _))). exists false. reflexivity.
Defined.

Lemma X25_complete_oauth_witness :
  Backend.getBaseUrl Health.bmUp <> None /\
  snd (handleCompleteOAuth Health.bmUp "state123" (ResponseError 409 (body None)) None true)
    = Rejected (ErrorObject "This account has already been added.").
Proof.
  assert (H1 : Backend.getBaseUrl Health.bmUp <> None) by (vm_compute; discriminate).
  destruct (X25_complete_oauth Health.bmUp "state123" (ResponseError 409 (body None))
              None true) as (_ & _ & _ & Ha & _).
  destruct (Ha 409 (body None) H1 eq_refl) as (Hb & Hc & _).
  rewrite (Hc eq_refl) in Hb.
  exact (conj H1 Hb).
Defined.

End IpcFacts.
